(** * hid-nintendo (hid-nx): protocol, calibration and signal-processing core

    A shallow embedding of the parts of [hid-nintendo.c] that carry the
    driver's numeric and protocol contracts:

    - the synchronous command path ([nx_con_send_subcmd],
      [nx_con_hid_send_sync], [nx_con_send_rumble_data]);
    - the calibration loaders ([nx_con_read_stick_calibration],
      [nx_con_request_imu_calibration], [nx_con_calc_imu_cal_divisors]);
    - stick normalisation ([nx_con_map_stick_val]);
    - the IMU report path of [nx_con_report_imu] (timing average, dropped
      packet estimate, calibrated scaling and the right Joy-Con sign fix);
    - the rumble tables, encoder and scheduler.

    C integers are modelled as [Z] with the wrap-around of their width
    written out; arrays are lists indexed with stdpp's lookup and insert. *)

From Stdlib Require Import ZArith Lia List Bool.
From stdpp Require Import base list.
Import ListNotations.

#[local] Open Scope Z_scope.

(** ** Machine integers *)

Module Word.

(** Value of [z] after conversion to an unsigned integer of [w] bits. *)
Definition wrap_u (w z : Z) : Z := z mod 2 ^ w.

(** Value of [z] after conversion to a two's complement integer of [w]
    bits (the kernel is built with wrapping signed arithmetic). *)
Definition wrap_s (w z : Z) : Z := (z + 2 ^ (w - 1)) mod 2 ^ w - 2 ^ (w - 1).

Definition u8 := wrap_u 8.
Definition u16 := wrap_u 16.
Definition u32 := wrap_u 32.
Definition u64 := wrap_u 64.
Definition s16 := wrap_s 16.
Definition s32 := wrap_s 32.

(** C's [/] truncates toward zero and traps on a zero divisor: the
    quotient is [None] there. *)
Definition c_div (a b : Z) : option Z :=
  if b =? 0 then None else Some (a ÷ b).

Definition c_rem (a b : Z) : option Z :=
  if b =? 0 then None else Some (Z.rem a b).

Definition s32_div (a b : Z) : option Z := s32 <$> c_div a b.
Definition s32_rem (a b : Z) : option Z := s32 <$> c_rem a b.
Definition u32_div (a b : Z) : option Z := u32 <$> c_div a b.

(** [clamp(val, lo, hi)] of linux/minmax.h. *)
Definition clamp (val lo hi : Z) : Z := Z.min (Z.max val lo) hi.

(** [get_unaligned_le16(p)]: the u16 at the first two bytes of [p]. *)
Definition get_unaligned_le16 (p : list Z) : Z :=
  u16 (Z.lor (p !!! 0%nat) (Z.shiftl (p !!! 1%nat) 8)).

(** [hid_field_extract(hdev, report, offset, n)]: the [n]-bit little
    endian field that starts [offset] bits into [report] ([n <= 32]). *)
Fixpoint le_bytes (p : list Z) : Z :=
  match p with
  | [] => 0
  | b :: p' => Z.lor (Z.land b 255) (Z.shiftl (le_bytes p') 8)
  end.

Definition hid_field_extract (report : list Z) (offset n : Z) : Z :=
  Z.land (Z.shiftr (le_bytes (take 5 report)) offset) (Z.ones n).

End Word.
Import Word.

(** ** Constants of the driver *)

Definition NX_CON_OUTPUT_RUMBLE_AND_SUBCMD : Z := 0x01.
Definition NX_CON_OUTPUT_RUMBLE_ONLY : Z := 0x10.
Definition NX_CON_OUTPUT_USB_CMD : Z := 0x80.
Definition NX_CON_SUBCMD_SPI_FLASH_READ : Z := 0x10.
Definition NX_CON_INPUT_SUBCMD_REPLY : Z := 0x21.
Definition NX_CON_INPUT_USB_RESPONSE : Z := 0x81.

Definition NX_CON_CAL_USR_MAGIC_0 : Z := 0xB2.
Definition NX_CON_CAL_USR_MAGIC_1 : Z := 0xA1.
Definition NX_CON_CAL_USR_MAGIC_SIZE : Z := 2.
Definition NX_CON_CAL_USR_LEFT_MAGIC_ADDR : Z := 0x8010.
Definition NX_CON_CAL_USR_LEFT_DATA_ADDR : Z := 0x8012.
Definition NX_CON_CAL_USR_LEFT_DATA_END : Z := 0x801A.
Definition NX_CON_CAL_USR_RIGHT_MAGIC_ADDR : Z := 0x801B.
Definition NX_CON_CAL_USR_RIGHT_DATA_ADDR : Z := 0x801D.
Definition NX_CON_CAL_STICK_DATA_SIZE : Z :=
  NX_CON_CAL_USR_LEFT_DATA_END - NX_CON_CAL_USR_LEFT_DATA_ADDR + 1.
Definition NX_CON_CAL_FCT_DATA_LEFT_ADDR : Z := 0x603d.
Definition NX_CON_CAL_FCT_DATA_RIGHT_ADDR : Z := 0x6046.
Definition NX_CON_IMU_CAL_FCT_DATA_ADDR : Z := 0x6020.
Definition NX_CON_IMU_CAL_FCT_DATA_END : Z := 0x6037.
Definition NX_CON_IMU_CAL_DATA_SIZE : Z :=
  NX_CON_IMU_CAL_FCT_DATA_END - NX_CON_IMU_CAL_FCT_DATA_ADDR + 1.
Definition NX_CON_IMU_CAL_USR_MAGIC_ADDR : Z := 0x8026.
Definition NX_CON_IMU_CAL_USR_DATA_ADDR : Z := 0x8028.

Definition NX_CON_MAX_STICK_MAG : Z := 32767.
Definition NX_CON_IMU_DFLT_AVG_DELTA_MS : Z := 15.
Definition NX_CON_IMU_SAMPLES_PER_DELTA_AVG : Z := 300.
Definition NX_CON_IMU_DROPPED_PKT_WARNING : Z := 3.
Definition NX_CON_IMU_PREC_RANGE_SCALE : Z := 1000.

Definition NX_CON_RUMBLE_DFLT_LOW_FREQ : Z := 160.
Definition NX_CON_RUMBLE_DFLT_HIGH_FREQ : Z := 320.
Definition NX_CON_RUMBLE_PERIOD_MS : Z := 50.
Definition NX_CON_RUMBLE_DATA_SIZE : Z := 8.
Definition NX_CON_RUMBLE_QUEUE_SIZE : Z := 8.
Definition NX_CON_RUMBLE_ZERO_AMP_PKT_CNT : Z := 5.

(** [sizeof(struct nx_con_input_report)]: 13 header bytes and the 36-byte
    union of the subcommand reply and three IMU samples. *)
Definition sizeof_nx_con_input_report : Z := 49.
Definition NX_CON_MAX_RESP_SIZE : Z := sizeof_nx_con_input_report + 35.
(** [sizeof(struct nx_con_subcmd_request)] without its flexible array. *)
Definition sizeof_nx_con_subcmd_request : Z := 11.

Definition ENOMEM : Z := 12.
Definition ENODEV : Z := 19.
Definition EINVAL : Z := 22.
Definition ETIMEDOUT : Z := 110.

(** ** Data model *)

Inductive nx_con_state :=
| NX_CON_STATE_INIT
| NX_CON_STATE_READ
| NX_CON_STATE_REMOVED.

Definition nx_con_state_eqb (a b : nx_con_state) : bool :=
  match a, b with
  | NX_CON_STATE_INIT, NX_CON_STATE_INIT
  | NX_CON_STATE_READ, NX_CON_STATE_READ
  | NX_CON_STATE_REMOVED, NX_CON_STATE_REMOVED => true
  | _, _ => false
  end.

(** [enum nx_con_type]: the byte the device reports about itself; the
    field holds whatever the device sent, so it is kept as a number. *)
Definition NX_CON_TYPE_JCL : Z := 0x01.
Definition NX_CON_TYPE_JCR : Z := 0x02.
Definition NX_CON_TYPE_PRO : Z := 0x03.

Inductive nx_con_msg_type :=
| NX_CON_MSG_TYPE_NONE
| NX_CON_MSG_TYPE_USB
| NX_CON_MSG_TYPE_SUBCMD.

Record nx_con_stick_cal := {
  cal_max : Z;
  cal_min : Z;
  cal_center : Z;
}.

Record nx_con_imu_cal := {
  offset : list Z;   (* s16 offset[3] *)
  scale : list Z;    (* s16 scale[3] *)
}.

Record nx_con_imu_data := {
  accel_x : Z; accel_y : Z; accel_z : Z;
  gyro_x : Z; gyro_y : Z; gyro_z : Z;
}.

Record nx_con_rumble_freq_data := {
  freq_high : Z;  (* u16 high *)
  freq_low : Z;   (* u8 low *)
  freq : Z;       (* u16 freq, Hz *)
}.

Record nx_con_rumble_amp_data := {
  amp_high : Z;   (* u8 high *)
  amp_low : Z;    (* u16 low *)
  amp : Z;        (* u16 amp *)
}.

(** [struct nx_con], restricted to the members the modelled functions read
    or write. *)
Record nx_con := {
  state : nx_con_state;
  type : Z;
  msg_type : nx_con_msg_type;
  subcmd_num : Z;
  input_buf : list Z;
  received_resp : bool;
  usb_ack_match : Z;
  subcmd_ack_match : Z;
  last_subcmd_sent_msecs : Z;
  left_stick_cal_x : nx_con_stick_cal;
  left_stick_cal_y : nx_con_stick_cal;
  right_stick_cal_x : nx_con_stick_cal;
  right_stick_cal_y : nx_con_stick_cal;
  accel_cal : nx_con_imu_cal;
  gyro_cal : nx_con_imu_cal;
  imu_cal_accel_divisor : list Z;
  imu_cal_gyro_divisor : list Z;
  rumble_data : list (list Z);
  rumble_queue_head : Z;
  rumble_queue_tail : Z;
  rumble_msecs : Z;
  rumble_ll_freq : Z;
  rumble_lh_freq : Z;
  rumble_rl_freq : Z;
  rumble_rh_freq : Z;
  rumble_zero_countdown : Z;
  imu_first_packet_received : bool;
  imu_timestamp_us : Z;
  imu_last_pkt_ms : Z;
  imu_delta_samples_count : Z;
  imu_delta_samples_sum : Z;
  imu_avg_delta_ms : Z;
}.

Definition set_state (v : nx_con_state) (c : nx_con) : nx_con :=
  {| state := v; type := type c; msg_type := msg_type c; subcmd_num := subcmd_num c; input_buf := input_buf c;
  received_resp := received_resp c; usb_ack_match := usb_ack_match c; subcmd_ack_match := subcmd_ack_match c;
  last_subcmd_sent_msecs := last_subcmd_sent_msecs c; left_stick_cal_x := left_stick_cal_x c; left_stick_cal_y
  := left_stick_cal_y c; right_stick_cal_x := right_stick_cal_x c; right_stick_cal_y := right_stick_cal_y c;
  accel_cal := accel_cal c; gyro_cal := gyro_cal c; imu_cal_accel_divisor := imu_cal_accel_divisor c;
  imu_cal_gyro_divisor := imu_cal_gyro_divisor c; rumble_data := rumble_data c; rumble_queue_head :=
  rumble_queue_head c; rumble_queue_tail := rumble_queue_tail c; rumble_msecs := rumble_msecs c;
  rumble_ll_freq := rumble_ll_freq c; rumble_lh_freq := rumble_lh_freq c; rumble_rl_freq := rumble_rl_freq c;
  rumble_rh_freq := rumble_rh_freq c; rumble_zero_countdown := rumble_zero_countdown c;
  imu_first_packet_received := imu_first_packet_received c; imu_timestamp_us := imu_timestamp_us c;
  imu_last_pkt_ms := imu_last_pkt_ms c; imu_delta_samples_count := imu_delta_samples_count c;
  imu_delta_samples_sum := imu_delta_samples_sum c; imu_avg_delta_ms := imu_avg_delta_ms c |}.

Definition set_type (v : Z) (c : nx_con) : nx_con :=
  {| state := state c; type := v; msg_type := msg_type c; subcmd_num := subcmd_num c; input_buf := input_buf
  c; received_resp := received_resp c; usb_ack_match := usb_ack_match c; subcmd_ack_match := subcmd_ack_match
  c; last_subcmd_sent_msecs := last_subcmd_sent_msecs c; left_stick_cal_x := left_stick_cal_x c;
  left_stick_cal_y := left_stick_cal_y c; right_stick_cal_x := right_stick_cal_x c; right_stick_cal_y :=
  right_stick_cal_y c; accel_cal := accel_cal c; gyro_cal := gyro_cal c; imu_cal_accel_divisor :=
  imu_cal_accel_divisor c; imu_cal_gyro_divisor := imu_cal_gyro_divisor c; rumble_data := rumble_data c;
  rumble_queue_head := rumble_queue_head c; rumble_queue_tail := rumble_queue_tail c; rumble_msecs :=
  rumble_msecs c; rumble_ll_freq := rumble_ll_freq c; rumble_lh_freq := rumble_lh_freq c; rumble_rl_freq :=
  rumble_rl_freq c; rumble_rh_freq := rumble_rh_freq c; rumble_zero_countdown := rumble_zero_countdown c;
  imu_first_packet_received := imu_first_packet_received c; imu_timestamp_us := imu_timestamp_us c;
  imu_last_pkt_ms := imu_last_pkt_ms c; imu_delta_samples_count := imu_delta_samples_count c;
  imu_delta_samples_sum := imu_delta_samples_sum c; imu_avg_delta_ms := imu_avg_delta_ms c |}.

Definition set_msg_type (v : nx_con_msg_type) (c : nx_con) : nx_con :=
  {| state := state c; type := type c; msg_type := v; subcmd_num := subcmd_num c; input_buf := input_buf c;
  received_resp := received_resp c; usb_ack_match := usb_ack_match c; subcmd_ack_match := subcmd_ack_match c;
  last_subcmd_sent_msecs := last_subcmd_sent_msecs c; left_stick_cal_x := left_stick_cal_x c; left_stick_cal_y
  := left_stick_cal_y c; right_stick_cal_x := right_stick_cal_x c; right_stick_cal_y := right_stick_cal_y c;
  accel_cal := accel_cal c; gyro_cal := gyro_cal c; imu_cal_accel_divisor := imu_cal_accel_divisor c;
  imu_cal_gyro_divisor := imu_cal_gyro_divisor c; rumble_data := rumble_data c; rumble_queue_head :=
  rumble_queue_head c; rumble_queue_tail := rumble_queue_tail c; rumble_msecs := rumble_msecs c;
  rumble_ll_freq := rumble_ll_freq c; rumble_lh_freq := rumble_lh_freq c; rumble_rl_freq := rumble_rl_freq c;
  rumble_rh_freq := rumble_rh_freq c; rumble_zero_countdown := rumble_zero_countdown c;
  imu_first_packet_received := imu_first_packet_received c; imu_timestamp_us := imu_timestamp_us c;
  imu_last_pkt_ms := imu_last_pkt_ms c; imu_delta_samples_count := imu_delta_samples_count c;
  imu_delta_samples_sum := imu_delta_samples_sum c; imu_avg_delta_ms := imu_avg_delta_ms c |}.

Definition set_subcmd_num (v : Z) (c : nx_con) : nx_con :=
  {| state := state c; type := type c; msg_type := msg_type c; subcmd_num := v; input_buf := input_buf c;
  received_resp := received_resp c; usb_ack_match := usb_ack_match c; subcmd_ack_match := subcmd_ack_match c;
  last_subcmd_sent_msecs := last_subcmd_sent_msecs c; left_stick_cal_x := left_stick_cal_x c; left_stick_cal_y
  := left_stick_cal_y c; right_stick_cal_x := right_stick_cal_x c; right_stick_cal_y := right_stick_cal_y c;
  accel_cal := accel_cal c; gyro_cal := gyro_cal c; imu_cal_accel_divisor := imu_cal_accel_divisor c;
  imu_cal_gyro_divisor := imu_cal_gyro_divisor c; rumble_data := rumble_data c; rumble_queue_head :=
  rumble_queue_head c; rumble_queue_tail := rumble_queue_tail c; rumble_msecs := rumble_msecs c;
  rumble_ll_freq := rumble_ll_freq c; rumble_lh_freq := rumble_lh_freq c; rumble_rl_freq := rumble_rl_freq c;
  rumble_rh_freq := rumble_rh_freq c; rumble_zero_countdown := rumble_zero_countdown c;
  imu_first_packet_received := imu_first_packet_received c; imu_timestamp_us := imu_timestamp_us c;
  imu_last_pkt_ms := imu_last_pkt_ms c; imu_delta_samples_count := imu_delta_samples_count c;
  imu_delta_samples_sum := imu_delta_samples_sum c; imu_avg_delta_ms := imu_avg_delta_ms c |}.

Definition set_input_buf (v : list Z) (c : nx_con) : nx_con :=
  {| state := state c; type := type c; msg_type := msg_type c; subcmd_num := subcmd_num c; input_buf := v;
  received_resp := received_resp c; usb_ack_match := usb_ack_match c; subcmd_ack_match := subcmd_ack_match c;
  last_subcmd_sent_msecs := last_subcmd_sent_msecs c; left_stick_cal_x := left_stick_cal_x c; left_stick_cal_y
  := left_stick_cal_y c; right_stick_cal_x := right_stick_cal_x c; right_stick_cal_y := right_stick_cal_y c;
  accel_cal := accel_cal c; gyro_cal := gyro_cal c; imu_cal_accel_divisor := imu_cal_accel_divisor c;
  imu_cal_gyro_divisor := imu_cal_gyro_divisor c; rumble_data := rumble_data c; rumble_queue_head :=
  rumble_queue_head c; rumble_queue_tail := rumble_queue_tail c; rumble_msecs := rumble_msecs c;
  rumble_ll_freq := rumble_ll_freq c; rumble_lh_freq := rumble_lh_freq c; rumble_rl_freq := rumble_rl_freq c;
  rumble_rh_freq := rumble_rh_freq c; rumble_zero_countdown := rumble_zero_countdown c;
  imu_first_packet_received := imu_first_packet_received c; imu_timestamp_us := imu_timestamp_us c;
  imu_last_pkt_ms := imu_last_pkt_ms c; imu_delta_samples_count := imu_delta_samples_count c;
  imu_delta_samples_sum := imu_delta_samples_sum c; imu_avg_delta_ms := imu_avg_delta_ms c |}.

Definition set_received_resp (v : bool) (c : nx_con) : nx_con :=
  {| state := state c; type := type c; msg_type := msg_type c; subcmd_num := subcmd_num c; input_buf :=
  input_buf c; received_resp := v; usb_ack_match := usb_ack_match c; subcmd_ack_match := subcmd_ack_match c;
  last_subcmd_sent_msecs := last_subcmd_sent_msecs c; left_stick_cal_x := left_stick_cal_x c; left_stick_cal_y
  := left_stick_cal_y c; right_stick_cal_x := right_stick_cal_x c; right_stick_cal_y := right_stick_cal_y c;
  accel_cal := accel_cal c; gyro_cal := gyro_cal c; imu_cal_accel_divisor := imu_cal_accel_divisor c;
  imu_cal_gyro_divisor := imu_cal_gyro_divisor c; rumble_data := rumble_data c; rumble_queue_head :=
  rumble_queue_head c; rumble_queue_tail := rumble_queue_tail c; rumble_msecs := rumble_msecs c;
  rumble_ll_freq := rumble_ll_freq c; rumble_lh_freq := rumble_lh_freq c; rumble_rl_freq := rumble_rl_freq c;
  rumble_rh_freq := rumble_rh_freq c; rumble_zero_countdown := rumble_zero_countdown c;
  imu_first_packet_received := imu_first_packet_received c; imu_timestamp_us := imu_timestamp_us c;
  imu_last_pkt_ms := imu_last_pkt_ms c; imu_delta_samples_count := imu_delta_samples_count c;
  imu_delta_samples_sum := imu_delta_samples_sum c; imu_avg_delta_ms := imu_avg_delta_ms c |}.

Definition set_usb_ack_match (v : Z) (c : nx_con) : nx_con :=
  {| state := state c; type := type c; msg_type := msg_type c; subcmd_num := subcmd_num c; input_buf :=
  input_buf c; received_resp := received_resp c; usb_ack_match := v; subcmd_ack_match := subcmd_ack_match c;
  last_subcmd_sent_msecs := last_subcmd_sent_msecs c; left_stick_cal_x := left_stick_cal_x c; left_stick_cal_y
  := left_stick_cal_y c; right_stick_cal_x := right_stick_cal_x c; right_stick_cal_y := right_stick_cal_y c;
  accel_cal := accel_cal c; gyro_cal := gyro_cal c; imu_cal_accel_divisor := imu_cal_accel_divisor c;
  imu_cal_gyro_divisor := imu_cal_gyro_divisor c; rumble_data := rumble_data c; rumble_queue_head :=
  rumble_queue_head c; rumble_queue_tail := rumble_queue_tail c; rumble_msecs := rumble_msecs c;
  rumble_ll_freq := rumble_ll_freq c; rumble_lh_freq := rumble_lh_freq c; rumble_rl_freq := rumble_rl_freq c;
  rumble_rh_freq := rumble_rh_freq c; rumble_zero_countdown := rumble_zero_countdown c;
  imu_first_packet_received := imu_first_packet_received c; imu_timestamp_us := imu_timestamp_us c;
  imu_last_pkt_ms := imu_last_pkt_ms c; imu_delta_samples_count := imu_delta_samples_count c;
  imu_delta_samples_sum := imu_delta_samples_sum c; imu_avg_delta_ms := imu_avg_delta_ms c |}.

Definition set_subcmd_ack_match (v : Z) (c : nx_con) : nx_con :=
  {| state := state c; type := type c; msg_type := msg_type c; subcmd_num := subcmd_num c; input_buf :=
  input_buf c; received_resp := received_resp c; usb_ack_match := usb_ack_match c; subcmd_ack_match := v;
  last_subcmd_sent_msecs := last_subcmd_sent_msecs c; left_stick_cal_x := left_stick_cal_x c; left_stick_cal_y
  := left_stick_cal_y c; right_stick_cal_x := right_stick_cal_x c; right_stick_cal_y := right_stick_cal_y c;
  accel_cal := accel_cal c; gyro_cal := gyro_cal c; imu_cal_accel_divisor := imu_cal_accel_divisor c;
  imu_cal_gyro_divisor := imu_cal_gyro_divisor c; rumble_data := rumble_data c; rumble_queue_head :=
  rumble_queue_head c; rumble_queue_tail := rumble_queue_tail c; rumble_msecs := rumble_msecs c;
  rumble_ll_freq := rumble_ll_freq c; rumble_lh_freq := rumble_lh_freq c; rumble_rl_freq := rumble_rl_freq c;
  rumble_rh_freq := rumble_rh_freq c; rumble_zero_countdown := rumble_zero_countdown c;
  imu_first_packet_received := imu_first_packet_received c; imu_timestamp_us := imu_timestamp_us c;
  imu_last_pkt_ms := imu_last_pkt_ms c; imu_delta_samples_count := imu_delta_samples_count c;
  imu_delta_samples_sum := imu_delta_samples_sum c; imu_avg_delta_ms := imu_avg_delta_ms c |}.

Definition set_last_subcmd_sent_msecs (v : Z) (c : nx_con) : nx_con :=
  {| state := state c; type := type c; msg_type := msg_type c; subcmd_num := subcmd_num c; input_buf :=
  input_buf c; received_resp := received_resp c; usb_ack_match := usb_ack_match c; subcmd_ack_match :=
  subcmd_ack_match c; last_subcmd_sent_msecs := v; left_stick_cal_x := left_stick_cal_x c; left_stick_cal_y :=
  left_stick_cal_y c; right_stick_cal_x := right_stick_cal_x c; right_stick_cal_y := right_stick_cal_y c;
  accel_cal := accel_cal c; gyro_cal := gyro_cal c; imu_cal_accel_divisor := imu_cal_accel_divisor c;
  imu_cal_gyro_divisor := imu_cal_gyro_divisor c; rumble_data := rumble_data c; rumble_queue_head :=
  rumble_queue_head c; rumble_queue_tail := rumble_queue_tail c; rumble_msecs := rumble_msecs c;
  rumble_ll_freq := rumble_ll_freq c; rumble_lh_freq := rumble_lh_freq c; rumble_rl_freq := rumble_rl_freq c;
  rumble_rh_freq := rumble_rh_freq c; rumble_zero_countdown := rumble_zero_countdown c;
  imu_first_packet_received := imu_first_packet_received c; imu_timestamp_us := imu_timestamp_us c;
  imu_last_pkt_ms := imu_last_pkt_ms c; imu_delta_samples_count := imu_delta_samples_count c;
  imu_delta_samples_sum := imu_delta_samples_sum c; imu_avg_delta_ms := imu_avg_delta_ms c |}.

Definition set_left_stick_cal_x (v : nx_con_stick_cal) (c : nx_con) : nx_con :=
  {| state := state c; type := type c; msg_type := msg_type c; subcmd_num := subcmd_num c; input_buf :=
  input_buf c; received_resp := received_resp c; usb_ack_match := usb_ack_match c; subcmd_ack_match :=
  subcmd_ack_match c; last_subcmd_sent_msecs := last_subcmd_sent_msecs c; left_stick_cal_x := v;
  left_stick_cal_y := left_stick_cal_y c; right_stick_cal_x := right_stick_cal_x c; right_stick_cal_y :=
  right_stick_cal_y c; accel_cal := accel_cal c; gyro_cal := gyro_cal c; imu_cal_accel_divisor :=
  imu_cal_accel_divisor c; imu_cal_gyro_divisor := imu_cal_gyro_divisor c; rumble_data := rumble_data c;
  rumble_queue_head := rumble_queue_head c; rumble_queue_tail := rumble_queue_tail c; rumble_msecs :=
  rumble_msecs c; rumble_ll_freq := rumble_ll_freq c; rumble_lh_freq := rumble_lh_freq c; rumble_rl_freq :=
  rumble_rl_freq c; rumble_rh_freq := rumble_rh_freq c; rumble_zero_countdown := rumble_zero_countdown c;
  imu_first_packet_received := imu_first_packet_received c; imu_timestamp_us := imu_timestamp_us c;
  imu_last_pkt_ms := imu_last_pkt_ms c; imu_delta_samples_count := imu_delta_samples_count c;
  imu_delta_samples_sum := imu_delta_samples_sum c; imu_avg_delta_ms := imu_avg_delta_ms c |}.

Definition set_left_stick_cal_y (v : nx_con_stick_cal) (c : nx_con) : nx_con :=
  {| state := state c; type := type c; msg_type := msg_type c; subcmd_num := subcmd_num c; input_buf :=
  input_buf c; received_resp := received_resp c; usb_ack_match := usb_ack_match c; subcmd_ack_match :=
  subcmd_ack_match c; last_subcmd_sent_msecs := last_subcmd_sent_msecs c; left_stick_cal_x := left_stick_cal_x
  c; left_stick_cal_y := v; right_stick_cal_x := right_stick_cal_x c; right_stick_cal_y := right_stick_cal_y
  c; accel_cal := accel_cal c; gyro_cal := gyro_cal c; imu_cal_accel_divisor := imu_cal_accel_divisor c;
  imu_cal_gyro_divisor := imu_cal_gyro_divisor c; rumble_data := rumble_data c; rumble_queue_head :=
  rumble_queue_head c; rumble_queue_tail := rumble_queue_tail c; rumble_msecs := rumble_msecs c;
  rumble_ll_freq := rumble_ll_freq c; rumble_lh_freq := rumble_lh_freq c; rumble_rl_freq := rumble_rl_freq c;
  rumble_rh_freq := rumble_rh_freq c; rumble_zero_countdown := rumble_zero_countdown c;
  imu_first_packet_received := imu_first_packet_received c; imu_timestamp_us := imu_timestamp_us c;
  imu_last_pkt_ms := imu_last_pkt_ms c; imu_delta_samples_count := imu_delta_samples_count c;
  imu_delta_samples_sum := imu_delta_samples_sum c; imu_avg_delta_ms := imu_avg_delta_ms c |}.

Definition set_right_stick_cal_x (v : nx_con_stick_cal) (c : nx_con) : nx_con :=
  {| state := state c; type := type c; msg_type := msg_type c; subcmd_num := subcmd_num c; input_buf :=
  input_buf c; received_resp := received_resp c; usb_ack_match := usb_ack_match c; subcmd_ack_match :=
  subcmd_ack_match c; last_subcmd_sent_msecs := last_subcmd_sent_msecs c; left_stick_cal_x := left_stick_cal_x
  c; left_stick_cal_y := left_stick_cal_y c; right_stick_cal_x := v; right_stick_cal_y := right_stick_cal_y c;
  accel_cal := accel_cal c; gyro_cal := gyro_cal c; imu_cal_accel_divisor := imu_cal_accel_divisor c;
  imu_cal_gyro_divisor := imu_cal_gyro_divisor c; rumble_data := rumble_data c; rumble_queue_head :=
  rumble_queue_head c; rumble_queue_tail := rumble_queue_tail c; rumble_msecs := rumble_msecs c;
  rumble_ll_freq := rumble_ll_freq c; rumble_lh_freq := rumble_lh_freq c; rumble_rl_freq := rumble_rl_freq c;
  rumble_rh_freq := rumble_rh_freq c; rumble_zero_countdown := rumble_zero_countdown c;
  imu_first_packet_received := imu_first_packet_received c; imu_timestamp_us := imu_timestamp_us c;
  imu_last_pkt_ms := imu_last_pkt_ms c; imu_delta_samples_count := imu_delta_samples_count c;
  imu_delta_samples_sum := imu_delta_samples_sum c; imu_avg_delta_ms := imu_avg_delta_ms c |}.

Definition set_right_stick_cal_y (v : nx_con_stick_cal) (c : nx_con) : nx_con :=
  {| state := state c; type := type c; msg_type := msg_type c; subcmd_num := subcmd_num c; input_buf :=
  input_buf c; received_resp := received_resp c; usb_ack_match := usb_ack_match c; subcmd_ack_match :=
  subcmd_ack_match c; last_subcmd_sent_msecs := last_subcmd_sent_msecs c; left_stick_cal_x := left_stick_cal_x
  c; left_stick_cal_y := left_stick_cal_y c; right_stick_cal_x := right_stick_cal_x c; right_stick_cal_y := v;
  accel_cal := accel_cal c; gyro_cal := gyro_cal c; imu_cal_accel_divisor := imu_cal_accel_divisor c;
  imu_cal_gyro_divisor := imu_cal_gyro_divisor c; rumble_data := rumble_data c; rumble_queue_head :=
  rumble_queue_head c; rumble_queue_tail := rumble_queue_tail c; rumble_msecs := rumble_msecs c;
  rumble_ll_freq := rumble_ll_freq c; rumble_lh_freq := rumble_lh_freq c; rumble_rl_freq := rumble_rl_freq c;
  rumble_rh_freq := rumble_rh_freq c; rumble_zero_countdown := rumble_zero_countdown c;
  imu_first_packet_received := imu_first_packet_received c; imu_timestamp_us := imu_timestamp_us c;
  imu_last_pkt_ms := imu_last_pkt_ms c; imu_delta_samples_count := imu_delta_samples_count c;
  imu_delta_samples_sum := imu_delta_samples_sum c; imu_avg_delta_ms := imu_avg_delta_ms c |}.

Definition set_accel_cal (v : nx_con_imu_cal) (c : nx_con) : nx_con :=
  {| state := state c; type := type c; msg_type := msg_type c; subcmd_num := subcmd_num c; input_buf :=
  input_buf c; received_resp := received_resp c; usb_ack_match := usb_ack_match c; subcmd_ack_match :=
  subcmd_ack_match c; last_subcmd_sent_msecs := last_subcmd_sent_msecs c; left_stick_cal_x := left_stick_cal_x
  c; left_stick_cal_y := left_stick_cal_y c; right_stick_cal_x := right_stick_cal_x c; right_stick_cal_y :=
  right_stick_cal_y c; accel_cal := v; gyro_cal := gyro_cal c; imu_cal_accel_divisor := imu_cal_accel_divisor
  c; imu_cal_gyro_divisor := imu_cal_gyro_divisor c; rumble_data := rumble_data c; rumble_queue_head :=
  rumble_queue_head c; rumble_queue_tail := rumble_queue_tail c; rumble_msecs := rumble_msecs c;
  rumble_ll_freq := rumble_ll_freq c; rumble_lh_freq := rumble_lh_freq c; rumble_rl_freq := rumble_rl_freq c;
  rumble_rh_freq := rumble_rh_freq c; rumble_zero_countdown := rumble_zero_countdown c;
  imu_first_packet_received := imu_first_packet_received c; imu_timestamp_us := imu_timestamp_us c;
  imu_last_pkt_ms := imu_last_pkt_ms c; imu_delta_samples_count := imu_delta_samples_count c;
  imu_delta_samples_sum := imu_delta_samples_sum c; imu_avg_delta_ms := imu_avg_delta_ms c |}.

Definition set_gyro_cal (v : nx_con_imu_cal) (c : nx_con) : nx_con :=
  {| state := state c; type := type c; msg_type := msg_type c; subcmd_num := subcmd_num c; input_buf :=
  input_buf c; received_resp := received_resp c; usb_ack_match := usb_ack_match c; subcmd_ack_match :=
  subcmd_ack_match c; last_subcmd_sent_msecs := last_subcmd_sent_msecs c; left_stick_cal_x := left_stick_cal_x
  c; left_stick_cal_y := left_stick_cal_y c; right_stick_cal_x := right_stick_cal_x c; right_stick_cal_y :=
  right_stick_cal_y c; accel_cal := accel_cal c; gyro_cal := v; imu_cal_accel_divisor := imu_cal_accel_divisor
  c; imu_cal_gyro_divisor := imu_cal_gyro_divisor c; rumble_data := rumble_data c; rumble_queue_head :=
  rumble_queue_head c; rumble_queue_tail := rumble_queue_tail c; rumble_msecs := rumble_msecs c;
  rumble_ll_freq := rumble_ll_freq c; rumble_lh_freq := rumble_lh_freq c; rumble_rl_freq := rumble_rl_freq c;
  rumble_rh_freq := rumble_rh_freq c; rumble_zero_countdown := rumble_zero_countdown c;
  imu_first_packet_received := imu_first_packet_received c; imu_timestamp_us := imu_timestamp_us c;
  imu_last_pkt_ms := imu_last_pkt_ms c; imu_delta_samples_count := imu_delta_samples_count c;
  imu_delta_samples_sum := imu_delta_samples_sum c; imu_avg_delta_ms := imu_avg_delta_ms c |}.

Definition set_imu_cal_accel_divisor (v : list Z) (c : nx_con) : nx_con :=
  {| state := state c; type := type c; msg_type := msg_type c; subcmd_num := subcmd_num c; input_buf :=
  input_buf c; received_resp := received_resp c; usb_ack_match := usb_ack_match c; subcmd_ack_match :=
  subcmd_ack_match c; last_subcmd_sent_msecs := last_subcmd_sent_msecs c; left_stick_cal_x := left_stick_cal_x
  c; left_stick_cal_y := left_stick_cal_y c; right_stick_cal_x := right_stick_cal_x c; right_stick_cal_y :=
  right_stick_cal_y c; accel_cal := accel_cal c; gyro_cal := gyro_cal c; imu_cal_accel_divisor := v;
  imu_cal_gyro_divisor := imu_cal_gyro_divisor c; rumble_data := rumble_data c; rumble_queue_head :=
  rumble_queue_head c; rumble_queue_tail := rumble_queue_tail c; rumble_msecs := rumble_msecs c;
  rumble_ll_freq := rumble_ll_freq c; rumble_lh_freq := rumble_lh_freq c; rumble_rl_freq := rumble_rl_freq c;
  rumble_rh_freq := rumble_rh_freq c; rumble_zero_countdown := rumble_zero_countdown c;
  imu_first_packet_received := imu_first_packet_received c; imu_timestamp_us := imu_timestamp_us c;
  imu_last_pkt_ms := imu_last_pkt_ms c; imu_delta_samples_count := imu_delta_samples_count c;
  imu_delta_samples_sum := imu_delta_samples_sum c; imu_avg_delta_ms := imu_avg_delta_ms c |}.

Definition set_imu_cal_gyro_divisor (v : list Z) (c : nx_con) : nx_con :=
  {| state := state c; type := type c; msg_type := msg_type c; subcmd_num := subcmd_num c; input_buf :=
  input_buf c; received_resp := received_resp c; usb_ack_match := usb_ack_match c; subcmd_ack_match :=
  subcmd_ack_match c; last_subcmd_sent_msecs := last_subcmd_sent_msecs c; left_stick_cal_x := left_stick_cal_x
  c; left_stick_cal_y := left_stick_cal_y c; right_stick_cal_x := right_stick_cal_x c; right_stick_cal_y :=
  right_stick_cal_y c; accel_cal := accel_cal c; gyro_cal := gyro_cal c; imu_cal_accel_divisor :=
  imu_cal_accel_divisor c; imu_cal_gyro_divisor := v; rumble_data := rumble_data c; rumble_queue_head :=
  rumble_queue_head c; rumble_queue_tail := rumble_queue_tail c; rumble_msecs := rumble_msecs c;
  rumble_ll_freq := rumble_ll_freq c; rumble_lh_freq := rumble_lh_freq c; rumble_rl_freq := rumble_rl_freq c;
  rumble_rh_freq := rumble_rh_freq c; rumble_zero_countdown := rumble_zero_countdown c;
  imu_first_packet_received := imu_first_packet_received c; imu_timestamp_us := imu_timestamp_us c;
  imu_last_pkt_ms := imu_last_pkt_ms c; imu_delta_samples_count := imu_delta_samples_count c;
  imu_delta_samples_sum := imu_delta_samples_sum c; imu_avg_delta_ms := imu_avg_delta_ms c |}.

Definition set_rumble_data (v : list (list Z)) (c : nx_con) : nx_con :=
  {| state := state c; type := type c; msg_type := msg_type c; subcmd_num := subcmd_num c; input_buf :=
  input_buf c; received_resp := received_resp c; usb_ack_match := usb_ack_match c; subcmd_ack_match :=
  subcmd_ack_match c; last_subcmd_sent_msecs := last_subcmd_sent_msecs c; left_stick_cal_x := left_stick_cal_x
  c; left_stick_cal_y := left_stick_cal_y c; right_stick_cal_x := right_stick_cal_x c; right_stick_cal_y :=
  right_stick_cal_y c; accel_cal := accel_cal c; gyro_cal := gyro_cal c; imu_cal_accel_divisor :=
  imu_cal_accel_divisor c; imu_cal_gyro_divisor := imu_cal_gyro_divisor c; rumble_data := v; rumble_queue_head
  := rumble_queue_head c; rumble_queue_tail := rumble_queue_tail c; rumble_msecs := rumble_msecs c;
  rumble_ll_freq := rumble_ll_freq c; rumble_lh_freq := rumble_lh_freq c; rumble_rl_freq := rumble_rl_freq c;
  rumble_rh_freq := rumble_rh_freq c; rumble_zero_countdown := rumble_zero_countdown c;
  imu_first_packet_received := imu_first_packet_received c; imu_timestamp_us := imu_timestamp_us c;
  imu_last_pkt_ms := imu_last_pkt_ms c; imu_delta_samples_count := imu_delta_samples_count c;
  imu_delta_samples_sum := imu_delta_samples_sum c; imu_avg_delta_ms := imu_avg_delta_ms c |}.

Definition set_rumble_queue_head (v : Z) (c : nx_con) : nx_con :=
  {| state := state c; type := type c; msg_type := msg_type c; subcmd_num := subcmd_num c; input_buf :=
  input_buf c; received_resp := received_resp c; usb_ack_match := usb_ack_match c; subcmd_ack_match :=
  subcmd_ack_match c; last_subcmd_sent_msecs := last_subcmd_sent_msecs c; left_stick_cal_x := left_stick_cal_x
  c; left_stick_cal_y := left_stick_cal_y c; right_stick_cal_x := right_stick_cal_x c; right_stick_cal_y :=
  right_stick_cal_y c; accel_cal := accel_cal c; gyro_cal := gyro_cal c; imu_cal_accel_divisor :=
  imu_cal_accel_divisor c; imu_cal_gyro_divisor := imu_cal_gyro_divisor c; rumble_data := rumble_data c;
  rumble_queue_head := v; rumble_queue_tail := rumble_queue_tail c; rumble_msecs := rumble_msecs c;
  rumble_ll_freq := rumble_ll_freq c; rumble_lh_freq := rumble_lh_freq c; rumble_rl_freq := rumble_rl_freq c;
  rumble_rh_freq := rumble_rh_freq c; rumble_zero_countdown := rumble_zero_countdown c;
  imu_first_packet_received := imu_first_packet_received c; imu_timestamp_us := imu_timestamp_us c;
  imu_last_pkt_ms := imu_last_pkt_ms c; imu_delta_samples_count := imu_delta_samples_count c;
  imu_delta_samples_sum := imu_delta_samples_sum c; imu_avg_delta_ms := imu_avg_delta_ms c |}.

Definition set_rumble_queue_tail (v : Z) (c : nx_con) : nx_con :=
  {| state := state c; type := type c; msg_type := msg_type c; subcmd_num := subcmd_num c; input_buf :=
  input_buf c; received_resp := received_resp c; usb_ack_match := usb_ack_match c; subcmd_ack_match :=
  subcmd_ack_match c; last_subcmd_sent_msecs := last_subcmd_sent_msecs c; left_stick_cal_x := left_stick_cal_x
  c; left_stick_cal_y := left_stick_cal_y c; right_stick_cal_x := right_stick_cal_x c; right_stick_cal_y :=
  right_stick_cal_y c; accel_cal := accel_cal c; gyro_cal := gyro_cal c; imu_cal_accel_divisor :=
  imu_cal_accel_divisor c; imu_cal_gyro_divisor := imu_cal_gyro_divisor c; rumble_data := rumble_data c;
  rumble_queue_head := rumble_queue_head c; rumble_queue_tail := v; rumble_msecs := rumble_msecs c;
  rumble_ll_freq := rumble_ll_freq c; rumble_lh_freq := rumble_lh_freq c; rumble_rl_freq := rumble_rl_freq c;
  rumble_rh_freq := rumble_rh_freq c; rumble_zero_countdown := rumble_zero_countdown c;
  imu_first_packet_received := imu_first_packet_received c; imu_timestamp_us := imu_timestamp_us c;
  imu_last_pkt_ms := imu_last_pkt_ms c; imu_delta_samples_count := imu_delta_samples_count c;
  imu_delta_samples_sum := imu_delta_samples_sum c; imu_avg_delta_ms := imu_avg_delta_ms c |}.

Definition set_rumble_msecs (v : Z) (c : nx_con) : nx_con :=
  {| state := state c; type := type c; msg_type := msg_type c; subcmd_num := subcmd_num c; input_buf :=
  input_buf c; received_resp := received_resp c; usb_ack_match := usb_ack_match c; subcmd_ack_match :=
  subcmd_ack_match c; last_subcmd_sent_msecs := last_subcmd_sent_msecs c; left_stick_cal_x := left_stick_cal_x
  c; left_stick_cal_y := left_stick_cal_y c; right_stick_cal_x := right_stick_cal_x c; right_stick_cal_y :=
  right_stick_cal_y c; accel_cal := accel_cal c; gyro_cal := gyro_cal c; imu_cal_accel_divisor :=
  imu_cal_accel_divisor c; imu_cal_gyro_divisor := imu_cal_gyro_divisor c; rumble_data := rumble_data c;
  rumble_queue_head := rumble_queue_head c; rumble_queue_tail := rumble_queue_tail c; rumble_msecs := v;
  rumble_ll_freq := rumble_ll_freq c; rumble_lh_freq := rumble_lh_freq c; rumble_rl_freq := rumble_rl_freq c;
  rumble_rh_freq := rumble_rh_freq c; rumble_zero_countdown := rumble_zero_countdown c;
  imu_first_packet_received := imu_first_packet_received c; imu_timestamp_us := imu_timestamp_us c;
  imu_last_pkt_ms := imu_last_pkt_ms c; imu_delta_samples_count := imu_delta_samples_count c;
  imu_delta_samples_sum := imu_delta_samples_sum c; imu_avg_delta_ms := imu_avg_delta_ms c |}.

Definition set_rumble_ll_freq (v : Z) (c : nx_con) : nx_con :=
  {| state := state c; type := type c; msg_type := msg_type c; subcmd_num := subcmd_num c; input_buf :=
  input_buf c; received_resp := received_resp c; usb_ack_match := usb_ack_match c; subcmd_ack_match :=
  subcmd_ack_match c; last_subcmd_sent_msecs := last_subcmd_sent_msecs c; left_stick_cal_x := left_stick_cal_x
  c; left_stick_cal_y := left_stick_cal_y c; right_stick_cal_x := right_stick_cal_x c; right_stick_cal_y :=
  right_stick_cal_y c; accel_cal := accel_cal c; gyro_cal := gyro_cal c; imu_cal_accel_divisor :=
  imu_cal_accel_divisor c; imu_cal_gyro_divisor := imu_cal_gyro_divisor c; rumble_data := rumble_data c;
  rumble_queue_head := rumble_queue_head c; rumble_queue_tail := rumble_queue_tail c; rumble_msecs :=
  rumble_msecs c; rumble_ll_freq := v; rumble_lh_freq := rumble_lh_freq c; rumble_rl_freq := rumble_rl_freq c;
  rumble_rh_freq := rumble_rh_freq c; rumble_zero_countdown := rumble_zero_countdown c;
  imu_first_packet_received := imu_first_packet_received c; imu_timestamp_us := imu_timestamp_us c;
  imu_last_pkt_ms := imu_last_pkt_ms c; imu_delta_samples_count := imu_delta_samples_count c;
  imu_delta_samples_sum := imu_delta_samples_sum c; imu_avg_delta_ms := imu_avg_delta_ms c |}.

Definition set_rumble_lh_freq (v : Z) (c : nx_con) : nx_con :=
  {| state := state c; type := type c; msg_type := msg_type c; subcmd_num := subcmd_num c; input_buf :=
  input_buf c; received_resp := received_resp c; usb_ack_match := usb_ack_match c; subcmd_ack_match :=
  subcmd_ack_match c; last_subcmd_sent_msecs := last_subcmd_sent_msecs c; left_stick_cal_x := left_stick_cal_x
  c; left_stick_cal_y := left_stick_cal_y c; right_stick_cal_x := right_stick_cal_x c; right_stick_cal_y :=
  right_stick_cal_y c; accel_cal := accel_cal c; gyro_cal := gyro_cal c; imu_cal_accel_divisor :=
  imu_cal_accel_divisor c; imu_cal_gyro_divisor := imu_cal_gyro_divisor c; rumble_data := rumble_data c;
  rumble_queue_head := rumble_queue_head c; rumble_queue_tail := rumble_queue_tail c; rumble_msecs :=
  rumble_msecs c; rumble_ll_freq := rumble_ll_freq c; rumble_lh_freq := v; rumble_rl_freq := rumble_rl_freq c;
  rumble_rh_freq := rumble_rh_freq c; rumble_zero_countdown := rumble_zero_countdown c;
  imu_first_packet_received := imu_first_packet_received c; imu_timestamp_us := imu_timestamp_us c;
  imu_last_pkt_ms := imu_last_pkt_ms c; imu_delta_samples_count := imu_delta_samples_count c;
  imu_delta_samples_sum := imu_delta_samples_sum c; imu_avg_delta_ms := imu_avg_delta_ms c |}.

Definition set_rumble_rl_freq (v : Z) (c : nx_con) : nx_con :=
  {| state := state c; type := type c; msg_type := msg_type c; subcmd_num := subcmd_num c; input_buf :=
  input_buf c; received_resp := received_resp c; usb_ack_match := usb_ack_match c; subcmd_ack_match :=
  subcmd_ack_match c; last_subcmd_sent_msecs := last_subcmd_sent_msecs c; left_stick_cal_x := left_stick_cal_x
  c; left_stick_cal_y := left_stick_cal_y c; right_stick_cal_x := right_stick_cal_x c; right_stick_cal_y :=
  right_stick_cal_y c; accel_cal := accel_cal c; gyro_cal := gyro_cal c; imu_cal_accel_divisor :=
  imu_cal_accel_divisor c; imu_cal_gyro_divisor := imu_cal_gyro_divisor c; rumble_data := rumble_data c;
  rumble_queue_head := rumble_queue_head c; rumble_queue_tail := rumble_queue_tail c; rumble_msecs :=
  rumble_msecs c; rumble_ll_freq := rumble_ll_freq c; rumble_lh_freq := rumble_lh_freq c; rumble_rl_freq := v;
  rumble_rh_freq := rumble_rh_freq c; rumble_zero_countdown := rumble_zero_countdown c;
  imu_first_packet_received := imu_first_packet_received c; imu_timestamp_us := imu_timestamp_us c;
  imu_last_pkt_ms := imu_last_pkt_ms c; imu_delta_samples_count := imu_delta_samples_count c;
  imu_delta_samples_sum := imu_delta_samples_sum c; imu_avg_delta_ms := imu_avg_delta_ms c |}.

Definition set_rumble_rh_freq (v : Z) (c : nx_con) : nx_con :=
  {| state := state c; type := type c; msg_type := msg_type c; subcmd_num := subcmd_num c; input_buf :=
  input_buf c; received_resp := received_resp c; usb_ack_match := usb_ack_match c; subcmd_ack_match :=
  subcmd_ack_match c; last_subcmd_sent_msecs := last_subcmd_sent_msecs c; left_stick_cal_x := left_stick_cal_x
  c; left_stick_cal_y := left_stick_cal_y c; right_stick_cal_x := right_stick_cal_x c; right_stick_cal_y :=
  right_stick_cal_y c; accel_cal := accel_cal c; gyro_cal := gyro_cal c; imu_cal_accel_divisor :=
  imu_cal_accel_divisor c; imu_cal_gyro_divisor := imu_cal_gyro_divisor c; rumble_data := rumble_data c;
  rumble_queue_head := rumble_queue_head c; rumble_queue_tail := rumble_queue_tail c; rumble_msecs :=
  rumble_msecs c; rumble_ll_freq := rumble_ll_freq c; rumble_lh_freq := rumble_lh_freq c; rumble_rl_freq :=
  rumble_rl_freq c; rumble_rh_freq := v; rumble_zero_countdown := rumble_zero_countdown c;
  imu_first_packet_received := imu_first_packet_received c; imu_timestamp_us := imu_timestamp_us c;
  imu_last_pkt_ms := imu_last_pkt_ms c; imu_delta_samples_count := imu_delta_samples_count c;
  imu_delta_samples_sum := imu_delta_samples_sum c; imu_avg_delta_ms := imu_avg_delta_ms c |}.

Definition set_rumble_zero_countdown (v : Z) (c : nx_con) : nx_con :=
  {| state := state c; type := type c; msg_type := msg_type c; subcmd_num := subcmd_num c; input_buf :=
  input_buf c; received_resp := received_resp c; usb_ack_match := usb_ack_match c; subcmd_ack_match :=
  subcmd_ack_match c; last_subcmd_sent_msecs := last_subcmd_sent_msecs c; left_stick_cal_x := left_stick_cal_x
  c; left_stick_cal_y := left_stick_cal_y c; right_stick_cal_x := right_stick_cal_x c; right_stick_cal_y :=
  right_stick_cal_y c; accel_cal := accel_cal c; gyro_cal := gyro_cal c; imu_cal_accel_divisor :=
  imu_cal_accel_divisor c; imu_cal_gyro_divisor := imu_cal_gyro_divisor c; rumble_data := rumble_data c;
  rumble_queue_head := rumble_queue_head c; rumble_queue_tail := rumble_queue_tail c; rumble_msecs :=
  rumble_msecs c; rumble_ll_freq := rumble_ll_freq c; rumble_lh_freq := rumble_lh_freq c; rumble_rl_freq :=
  rumble_rl_freq c; rumble_rh_freq := rumble_rh_freq c; rumble_zero_countdown := v; imu_first_packet_received
  := imu_first_packet_received c; imu_timestamp_us := imu_timestamp_us c; imu_last_pkt_ms := imu_last_pkt_ms
  c; imu_delta_samples_count := imu_delta_samples_count c; imu_delta_samples_sum := imu_delta_samples_sum c;
  imu_avg_delta_ms := imu_avg_delta_ms c |}.

Definition set_imu_first_packet_received (v : bool) (c : nx_con) : nx_con :=
  {| state := state c; type := type c; msg_type := msg_type c; subcmd_num := subcmd_num c; input_buf :=
  input_buf c; received_resp := received_resp c; usb_ack_match := usb_ack_match c; subcmd_ack_match :=
  subcmd_ack_match c; last_subcmd_sent_msecs := last_subcmd_sent_msecs c; left_stick_cal_x := left_stick_cal_x
  c; left_stick_cal_y := left_stick_cal_y c; right_stick_cal_x := right_stick_cal_x c; right_stick_cal_y :=
  right_stick_cal_y c; accel_cal := accel_cal c; gyro_cal := gyro_cal c; imu_cal_accel_divisor :=
  imu_cal_accel_divisor c; imu_cal_gyro_divisor := imu_cal_gyro_divisor c; rumble_data := rumble_data c;
  rumble_queue_head := rumble_queue_head c; rumble_queue_tail := rumble_queue_tail c; rumble_msecs :=
  rumble_msecs c; rumble_ll_freq := rumble_ll_freq c; rumble_lh_freq := rumble_lh_freq c; rumble_rl_freq :=
  rumble_rl_freq c; rumble_rh_freq := rumble_rh_freq c; rumble_zero_countdown := rumble_zero_countdown c;
  imu_first_packet_received := v; imu_timestamp_us := imu_timestamp_us c; imu_last_pkt_ms := imu_last_pkt_ms
  c; imu_delta_samples_count := imu_delta_samples_count c; imu_delta_samples_sum := imu_delta_samples_sum c;
  imu_avg_delta_ms := imu_avg_delta_ms c |}.

Definition set_imu_timestamp_us (v : Z) (c : nx_con) : nx_con :=
  {| state := state c; type := type c; msg_type := msg_type c; subcmd_num := subcmd_num c; input_buf :=
  input_buf c; received_resp := received_resp c; usb_ack_match := usb_ack_match c; subcmd_ack_match :=
  subcmd_ack_match c; last_subcmd_sent_msecs := last_subcmd_sent_msecs c; left_stick_cal_x := left_stick_cal_x
  c; left_stick_cal_y := left_stick_cal_y c; right_stick_cal_x := right_stick_cal_x c; right_stick_cal_y :=
  right_stick_cal_y c; accel_cal := accel_cal c; gyro_cal := gyro_cal c; imu_cal_accel_divisor :=
  imu_cal_accel_divisor c; imu_cal_gyro_divisor := imu_cal_gyro_divisor c; rumble_data := rumble_data c;
  rumble_queue_head := rumble_queue_head c; rumble_queue_tail := rumble_queue_tail c; rumble_msecs :=
  rumble_msecs c; rumble_ll_freq := rumble_ll_freq c; rumble_lh_freq := rumble_lh_freq c; rumble_rl_freq :=
  rumble_rl_freq c; rumble_rh_freq := rumble_rh_freq c; rumble_zero_countdown := rumble_zero_countdown c;
  imu_first_packet_received := imu_first_packet_received c; imu_timestamp_us := v; imu_last_pkt_ms :=
  imu_last_pkt_ms c; imu_delta_samples_count := imu_delta_samples_count c; imu_delta_samples_sum :=
  imu_delta_samples_sum c; imu_avg_delta_ms := imu_avg_delta_ms c |}.

Definition set_imu_last_pkt_ms (v : Z) (c : nx_con) : nx_con :=
  {| state := state c; type := type c; msg_type := msg_type c; subcmd_num := subcmd_num c; input_buf :=
  input_buf c; received_resp := received_resp c; usb_ack_match := usb_ack_match c; subcmd_ack_match :=
  subcmd_ack_match c; last_subcmd_sent_msecs := last_subcmd_sent_msecs c; left_stick_cal_x := left_stick_cal_x
  c; left_stick_cal_y := left_stick_cal_y c; right_stick_cal_x := right_stick_cal_x c; right_stick_cal_y :=
  right_stick_cal_y c; accel_cal := accel_cal c; gyro_cal := gyro_cal c; imu_cal_accel_divisor :=
  imu_cal_accel_divisor c; imu_cal_gyro_divisor := imu_cal_gyro_divisor c; rumble_data := rumble_data c;
  rumble_queue_head := rumble_queue_head c; rumble_queue_tail := rumble_queue_tail c; rumble_msecs :=
  rumble_msecs c; rumble_ll_freq := rumble_ll_freq c; rumble_lh_freq := rumble_lh_freq c; rumble_rl_freq :=
  rumble_rl_freq c; rumble_rh_freq := rumble_rh_freq c; rumble_zero_countdown := rumble_zero_countdown c;
  imu_first_packet_received := imu_first_packet_received c; imu_timestamp_us := imu_timestamp_us c;
  imu_last_pkt_ms := v; imu_delta_samples_count := imu_delta_samples_count c; imu_delta_samples_sum :=
  imu_delta_samples_sum c; imu_avg_delta_ms := imu_avg_delta_ms c |}.

Definition set_imu_delta_samples_count (v : Z) (c : nx_con) : nx_con :=
  {| state := state c; type := type c; msg_type := msg_type c; subcmd_num := subcmd_num c; input_buf :=
  input_buf c; received_resp := received_resp c; usb_ack_match := usb_ack_match c; subcmd_ack_match :=
  subcmd_ack_match c; last_subcmd_sent_msecs := last_subcmd_sent_msecs c; left_stick_cal_x := left_stick_cal_x
  c; left_stick_cal_y := left_stick_cal_y c; right_stick_cal_x := right_stick_cal_x c; right_stick_cal_y :=
  right_stick_cal_y c; accel_cal := accel_cal c; gyro_cal := gyro_cal c; imu_cal_accel_divisor :=
  imu_cal_accel_divisor c; imu_cal_gyro_divisor := imu_cal_gyro_divisor c; rumble_data := rumble_data c;
  rumble_queue_head := rumble_queue_head c; rumble_queue_tail := rumble_queue_tail c; rumble_msecs :=
  rumble_msecs c; rumble_ll_freq := rumble_ll_freq c; rumble_lh_freq := rumble_lh_freq c; rumble_rl_freq :=
  rumble_rl_freq c; rumble_rh_freq := rumble_rh_freq c; rumble_zero_countdown := rumble_zero_countdown c;
  imu_first_packet_received := imu_first_packet_received c; imu_timestamp_us := imu_timestamp_us c;
  imu_last_pkt_ms := imu_last_pkt_ms c; imu_delta_samples_count := v; imu_delta_samples_sum :=
  imu_delta_samples_sum c; imu_avg_delta_ms := imu_avg_delta_ms c |}.

Definition set_imu_delta_samples_sum (v : Z) (c : nx_con) : nx_con :=
  {| state := state c; type := type c; msg_type := msg_type c; subcmd_num := subcmd_num c; input_buf :=
  input_buf c; received_resp := received_resp c; usb_ack_match := usb_ack_match c; subcmd_ack_match :=
  subcmd_ack_match c; last_subcmd_sent_msecs := last_subcmd_sent_msecs c; left_stick_cal_x := left_stick_cal_x
  c; left_stick_cal_y := left_stick_cal_y c; right_stick_cal_x := right_stick_cal_x c; right_stick_cal_y :=
  right_stick_cal_y c; accel_cal := accel_cal c; gyro_cal := gyro_cal c; imu_cal_accel_divisor :=
  imu_cal_accel_divisor c; imu_cal_gyro_divisor := imu_cal_gyro_divisor c; rumble_data := rumble_data c;
  rumble_queue_head := rumble_queue_head c; rumble_queue_tail := rumble_queue_tail c; rumble_msecs :=
  rumble_msecs c; rumble_ll_freq := rumble_ll_freq c; rumble_lh_freq := rumble_lh_freq c; rumble_rl_freq :=
  rumble_rl_freq c; rumble_rh_freq := rumble_rh_freq c; rumble_zero_countdown := rumble_zero_countdown c;
  imu_first_packet_received := imu_first_packet_received c; imu_timestamp_us := imu_timestamp_us c;
  imu_last_pkt_ms := imu_last_pkt_ms c; imu_delta_samples_count := imu_delta_samples_count c;
  imu_delta_samples_sum := v; imu_avg_delta_ms := imu_avg_delta_ms c |}.

Definition set_imu_avg_delta_ms (v : Z) (c : nx_con) : nx_con :=
  {| state := state c; type := type c; msg_type := msg_type c; subcmd_num := subcmd_num c; input_buf :=
  input_buf c; received_resp := received_resp c; usb_ack_match := usb_ack_match c; subcmd_ack_match :=
  subcmd_ack_match c; last_subcmd_sent_msecs := last_subcmd_sent_msecs c; left_stick_cal_x := left_stick_cal_x
  c; left_stick_cal_y := left_stick_cal_y c; right_stick_cal_x := right_stick_cal_x c; right_stick_cal_y :=
  right_stick_cal_y c; accel_cal := accel_cal c; gyro_cal := gyro_cal c; imu_cal_accel_divisor :=
  imu_cal_accel_divisor c; imu_cal_gyro_divisor := imu_cal_gyro_divisor c; rumble_data := rumble_data c;
  rumble_queue_head := rumble_queue_head c; rumble_queue_tail := rumble_queue_tail c; rumble_msecs :=
  rumble_msecs c; rumble_ll_freq := rumble_ll_freq c; rumble_lh_freq := rumble_lh_freq c; rumble_rl_freq :=
  rumble_rl_freq c; rumble_rh_freq := rumble_rh_freq c; rumble_zero_countdown := rumble_zero_countdown c;
  imu_first_packet_received := imu_first_packet_received c; imu_timestamp_us := imu_timestamp_us c;
  imu_last_pkt_ms := imu_last_pkt_ms c; imu_delta_samples_count := imu_delta_samples_count c;
  imu_delta_samples_sum := imu_delta_samples_sum c; imu_avg_delta_ms := v |}.

(** ** Stick normalisation *)

(** [nx_con_map_stick_val]: [s32] arithmetic throughout; [None] is the
    division trap of a degenerate calibration. *)
Definition nx_con_map_stick_val (cal : nx_con_stick_cal) (val : Z) : option Z :=
  let center := cal_center cal in
  let min := cal_min cal in
  let max := cal_max cal in
  new_val ←
    (if center <? val
     then s32_div (s32 (s32 (val - center) * NX_CON_MAX_STICK_MAG))
                  (s32 (max - center))
     else s32_div (s32 (s32 (center - val) * - NX_CON_MAX_STICK_MAG))
                  (s32 (center - min)));
  Some (clamp new_val (- NX_CON_MAX_STICK_MAG) NX_CON_MAX_STICK_MAG).

Definition DFLT_STICK_CAL_CEN : Z := 2000.
Definition DFLT_STICK_CAL_MAX : Z := 3500.
Definition DFLT_STICK_CAL_MIN : Z := 500.

Definition dflt_stick_cal : nx_con_stick_cal :=
  {| cal_max := DFLT_STICK_CAL_MAX;
     cal_min := DFLT_STICK_CAL_MIN;
     cal_center := DFLT_STICK_CAL_CEN |}.

(** The calibrations the loader can store: the centre and the two
    distances from it are 12-bit flash fields (or the defaults). *)
Definition stick_cal_12bit (cal : nx_con_stick_cal) : Prop :=
  0 <= cal_center cal < 4096 /\
  0 <= cal_max cal - cal_center cal < 4096 /\
  0 <= cal_center cal - cal_min cal < 4096.

(** The two linear pieces, over the integers. *)
Definition stick_above (cal : nx_con_stick_cal) (v : Z) : Z :=
  ((v - cal_center cal) * 32767) ÷ (cal_max cal - cal_center cal).

Definition stick_below (cal : nx_con_stick_cal) (v : Z) : Z :=
  ((cal_center cal - v) * (- 32767)) ÷ (cal_center cal - cal_min cal).

Definition stick_linear (cal : nx_con_stick_cal) (v : Z) : Z :=
  if cal_center cal <? v then stick_above cal v else stick_below cal v.

(** ** The transport and the world the driver runs in *)

(** What the driver does to the outside, in order. *)
Inductive event :=
| EvOutputReport (buf : list Z) (ret : Z)
    (* hid_hw_output_report(hdev, buf, len) returned ret *)
| EvWaitResp (timeout : Z) (woken : bool).
    (* wait_event_timeout(con->wait, con->received_resp, timeout) *)

(** The outside, as an oracle indexed by how often it has been asked:
    allocation results, the transport's return values, the frames that
    reach [nintendo_hid_event] while a sender sleeps, and the clock. *)
Record transport := {
  kmemdup_ok : nat -> bool;
  hid_hw_output_report : nat -> list Z -> Z;
  incoming : nat -> list (list Z);
  jiffies_msecs : nat -> Z;
}.

Record world := {
  con : nx_con;
  trace : list event;
  n_sends : nat;    (* calls of __nx_con_hid_send so far *)
  n_waits : nat;    (* sleeps on con->received_resp so far *)
  n_clock : nat;    (* clock readings so far *)
}.

Definition M (R : Type) : Type := world -> R * world.

Definition mreturn {R} (r : R) : M R := fun w => (r, w).

Definition mbind_w {R S} (m : M R) (k : R -> M S) : M S :=
  fun w => let (r, w') := m w in k r w'.

Notation "'let*' x := m 'in' k" := (mbind_w m (fun x => k))
  (at level 10, x pattern, m at level 100, k at level 200).

Definition get_con : M nx_con := fun w => (con w, w).

Definition upd_con (f : nx_con -> nx_con) (w : world) : world :=
  {| con := f (con w); trace := trace w; n_sends := n_sends w;
     n_waits := n_waits w; n_clock := n_clock w |}.

Definition modify_con (f : nx_con -> nx_con) : M unit :=
  fun w => (tt, upd_con f w).

Definition add_event (e : event) (w : world) : world :=
  {| con := con w; trace := trace w ++ [e]; n_sends := n_sends w;
     n_waits := n_waits w; n_clock := n_clock w |}.

Definition tick_send (w : world) : world :=
  {| con := con w; trace := trace w; n_sends := S (n_sends w);
     n_waits := n_waits w; n_clock := n_clock w |}.

Definition tick_wait (w : world) : world :=
  {| con := con w; trace := trace w; n_sends := n_sends w;
     n_waits := S (n_waits w); n_clock := n_clock w |}.

Definition tick_clock (w : world) : world :=
  {| con := con w; trace := trace w; n_sends := n_sends w;
     n_waits := n_waits w; n_clock := S (n_clock w) |}.

Definition log_event (e : event) : M unit := fun w => (tt, add_event e w).
Definition next_send : M nat := fun w => (n_sends w, tick_send w).
Definition next_wait : M nat := fun w => (n_waits w, tick_wait w).
Definition next_clock : M nat := fun w => (n_clock w, tick_clock w).

(** [memset(con->input_buf, 0, NX_CON_MAX_RESP_SIZE)]. *)
Definition zero_input_buf : list Z := replicate (Z.to_nat NX_CON_MAX_RESP_SIZE) 0.

(** The test [nx_con_handle_event] makes on an inbound frame while a
    sender holds the output mutex. *)
Definition reply_matches (c : nx_con) (data : list Z) : bool :=
  let size := Z.of_nat (length data) in
  match msg_type c with
  | NX_CON_MSG_TYPE_NONE => false
  | NX_CON_MSG_TYPE_USB =>
      if size <? 2 then false
      else (data !!! 0%nat =? NX_CON_INPUT_USB_RESPONSE) &&
           (data !!! 1%nat =? usb_ack_match c)
  | NX_CON_MSG_TYPE_SUBCMD =>
      if (size <? sizeof_nx_con_input_report) ||
         negb (data !!! 0%nat =? NX_CON_INPUT_SUBCMD_REPLY)
      then false
      else (* report->subcmd_reply.id is byte 14 of the report *)
           data !!! 14%nat =? subcmd_ack_match c
  end.

(** [nx_con_handle_event], for a frame that arrives while a sender holds
    the output mutex: [true] when the frame was taken as the reply.  The
    fall-through to [nx_con_read_handler] is the report path below. *)
Definition nx_con_handle_event (c : nx_con) (data : list Z) : bool * nx_con :=
  if reply_matches c data then
    let n := Z.to_nat (Z.min (Z.of_nat (length data)) NX_CON_MAX_RESP_SIZE) in
    let c := set_input_buf (take n data ++ drop n (input_buf c)) c in
    let c := set_msg_type NX_CON_MSG_TYPE_NONE c in
    let c := set_received_resp true c in
    (true, c)
  else (false, c).

Definition deliver (c : nx_con) (frames : list (list Z)) : nx_con :=
  foldl (fun c data => snd (nx_con_handle_event c data)) c frames.

Section Driver.

Variable hw : transport.
Variable HZ : Z.

(** [__nx_con_hid_send]. *)
Definition __nx_con_hid_send (data : list Z) : M Z :=
  let* n := next_send in
  if negb (kmemdup_ok hw n) then mreturn (- ENOMEM)
  else
    let ret := s32 (hid_hw_output_report hw n data) in
    let* _ := log_event (EvOutputReport data ret) in
    mreturn ret.

(** [wait_event_timeout(con->wait, con->received_resp, timeout)]: the
    condition is tested first; otherwise the frames of this window are
    handed to the event handler and the sleeper wakes if one was taken. *)
Definition wait_event_timeout_resp (timeout : Z) : M bool :=
  let* c := get_con in
  let* woken :=
    (if received_resp c then mreturn true
     else
       let* n := next_wait in
       let* _ := modify_con (fun c => deliver c (incoming hw n)) in
       let* c := get_con in
       mreturn (received_resp c)) in
  let* _ := log_event (EvWaitResp timeout woken) in
  mreturn woken.

(** [nx_con_enforce_subcmd_rate].  The loop sleeps in
    [nx_con_wait_for_input_report] until 25 ms have passed since the last
    send; what it leaves behind is the clock reading it exits on. *)
Definition nx_con_enforce_subcmd_rate : M unit :=
  let* n := next_clock in
  let current_ms := u32 (jiffies_msecs hw n) in
  modify_con (set_last_subcmd_sent_msecs current_ms).

(** The [while (tries--)] loop of [nx_con_hid_send_sync].  The result is
    [inl ret] for the [return ret] inside the loop and [inr ret] when
    the loop is left at its end or by [break]. *)
Fixpoint nx_con_hid_send_sync_loop (tries : nat) (ret : Z)
    (data : list Z) (timeout : Z) : M (Z + Z) :=
  match tries with
  | O => mreturn (inr ret)
  | S tries =>
      let* _ := nx_con_enforce_subcmd_rate in
      let* ret := __nx_con_hid_send data in
      if ret <? 0 then
        let* _ := modify_con (set_input_buf zero_input_buf) in
        mreturn (inl ret)
      else
        let* woken := wait_event_timeout_resp timeout in
        if negb woken then
          let* _ := modify_con (set_input_buf zero_input_buf) in
          nx_con_hid_send_sync_loop tries (- ETIMEDOUT) data timeout
        else mreturn (inr 0)
  end.

Definition nx_con_hid_send_sync (data : list Z) (timeout : Z) : M Z :=
  let* r := nx_con_hid_send_sync_loop 2 0 data timeout in
  match r with
  | inl ret => mreturn ret
  | inr ret =>
      let* _ := modify_con (set_received_resp false) in
      mreturn ret
  end.

Definition nx_con_send_usb (cmd : Z) (timeout : Z) : M Z :=
  let buf := [NX_CON_OUTPUT_USB_CMD; cmd] in
  let* _ := modify_con (set_usb_ack_match cmd) in
  let* _ := modify_con (set_msg_type NX_CON_MSG_TYPE_USB) in
  nx_con_hid_send_sync buf timeout.

(** [if (++con->subcmd_num > 0xF) con->subcmd_num = 0;] on the [u8]. *)
Definition bump_subcmd_num (c : nx_con) : nx_con :=
  let c := set_subcmd_num (u8 (subcmd_num c + 1)) c in
  if 0xF <? subcmd_num c then set_subcmd_num 0 c else c.

(** [con->rumble_data[con->rumble_queue_tail]]. *)
Definition rumble_at_tail (c : nx_con) : list Z :=
  take (Z.to_nat NX_CON_RUMBLE_DATA_SIZE)
       (rumble_data c !!! Z.to_nat (rumble_queue_tail c)).

(** [nx_con_send_subcmd]: the request is its [subcmd_id] and its
    [data_len] bytes of [data]; the function fills in the rest. *)
Definition nx_con_send_subcmd (subcmd_id : Z) (data : list Z) (timeout : Z)
  : M Z :=
  let* c := get_con in
  if nx_con_state_eqb (state c) NX_CON_STATE_REMOVED then mreturn (- ENODEV)
  else
    let rumble := rumble_at_tail c in
    let output_id := NX_CON_OUTPUT_RUMBLE_AND_SUBCMD in
    let packet_num := subcmd_num c in
    let* _ := modify_con bump_subcmd_num in
    let* _ := modify_con (set_subcmd_ack_match subcmd_id) in
    let* _ := modify_con (set_msg_type NX_CON_MSG_TYPE_SUBCMD) in
    let* ret := nx_con_hid_send_sync
                  ([output_id; packet_num] ++ rumble ++ [subcmd_id] ++ data)
                  timeout in
    if ret <? 0 then mreturn ret else mreturn 0.

(** [nx_con_send_rumble_data]. *)
Definition nx_con_send_rumble_data : M Z :=
  let* c := get_con in
  if nx_con_state_eqb (state c) NX_CON_STATE_REMOVED then mreturn (- ENODEV)
  else
    let rumble := rumble_at_tail c in
    let output_id := NX_CON_OUTPUT_RUMBLE_ONLY in
    let packet_num := subcmd_num c in
    let* _ := modify_con bump_subcmd_num in
    let* _ := nx_con_enforce_subcmd_rate in
    __nx_con_hid_send ([output_id; packet_num] ++ rumble).

End Driver.

(** ** Calibration *)

Definition DFLT_ACCEL_OFFSET : Z := 0.
Definition DFLT_ACCEL_SCALE : Z := 16384.
Definition DFLT_GYRO_OFFSET : Z := 0.
Definition DFLT_GYRO_SCALE : Z := 13371.

(** [put_unaligned_le32(val, p)]. *)
Definition put_unaligned_le32 (val : Z) : list Z :=
  [Z.land val 255; Z.land (Z.shiftr val 8) 255;
   Z.land (Z.shiftr val 16) 255; Z.land (Z.shiftr val 24) 255].

(** Offset in [con->input_buf] of [report->subcmd_reply.data[5]], where
    the bytes read from flash start. *)
Definition flash_reply_offset : nat := 20.

(** [nx_con_calc_imu_cal_divisors]. *)
Definition nx_con_calc_imu_cal_divisors (c : nx_con) : nx_con :=
  foldl
    (fun c (i : nat) =>
       let c :=
         set_imu_cal_accel_divisor
           (<[i := s32 (scale (accel_cal c) !!! i - offset (accel_cal c) !!! i)]>
              (imu_cal_accel_divisor c)) c in
       set_imu_cal_gyro_divisor
         (<[i := s32 (scale (gyro_cal c) !!! i - offset (gyro_cal c) !!! i)]>
            (imu_cal_gyro_divisor c)) c)
    c (seq 0 3).

Definition set_offset (v : list Z) (cal : nx_con_imu_cal) : nx_con_imu_cal :=
  {| offset := v; scale := scale cal |}.

Definition set_scale (v : list Z) (cal : nx_con_imu_cal) : nx_con_imu_cal :=
  {| offset := offset cal; scale := v |}.

(** The default branch of [nx_con_request_imu_calibration]. *)
Definition imu_cal_store_defaults (c : nx_con) : nx_con :=
  foldl
    (fun c (i : nat) =>
       let c := set_accel_cal (set_offset (<[i := DFLT_ACCEL_OFFSET]> (offset (accel_cal c))) (accel_cal c)) c in
       let c := set_accel_cal (set_scale (<[i := DFLT_ACCEL_SCALE]> (scale (accel_cal c))) (accel_cal c)) c in
       let c := set_gyro_cal (set_offset (<[i := DFLT_GYRO_OFFSET]> (offset (gyro_cal c))) (gyro_cal c)) c in
       set_gyro_cal (set_scale (<[i := DFLT_GYRO_SCALE]> (scale (gyro_cal c))) (gyro_cal c)) c)
    c (seq 0 3).

(** The parsing loop of [nx_con_request_imu_calibration]; the [u16] read
    from flash is stored in an [s16]. *)
Definition imu_cal_parse (raw_cal : list Z) (c : nx_con) : nx_con :=
  foldl
    (fun c (i : nat) =>
       let j := (i * 2)%nat in
       let c := set_accel_cal (set_offset (<[i := s16 (get_unaligned_le16 (drop j raw_cal))]> (offset (accel_cal c))) (accel_cal c)) c in
       let c := set_accel_cal (set_scale (<[i := s16 (get_unaligned_le16 (drop (j + 6) raw_cal))]> (scale (accel_cal c))) (accel_cal c)) c in
       let c := set_gyro_cal (set_offset (<[i := s16 (get_unaligned_le16 (drop (j + 12) raw_cal))]> (offset (gyro_cal c))) (gyro_cal c)) c in
       set_gyro_cal (set_scale (<[i := s16 (get_unaligned_le16 (drop (j + 18) raw_cal))]> (scale (gyro_cal c))) (gyro_cal c)) c)
    c (seq 0 3).

Section Calibration.

Variable hw : transport.
Variable HZ : Z.

(** [nx_con_request_spi_flash_read]: the return value and, on success,
    what [*reply] then points at. *)
Definition nx_con_request_spi_flash_read (start_addr : Z) (size : Z)
  : M (Z * list Z) :=
  let data := put_unaligned_le32 start_addr ++ [size] in
  let* ret := nx_con_send_subcmd hw NX_CON_SUBCMD_SPI_FLASH_READ data HZ in
  if negb (ret =? 0) then mreturn (ret, [])
  else
    let* c := get_con in
    mreturn (ret, drop flash_reply_offset (input_buf c)).

(** [nx_con_check_for_cal_magic]: 0 if the magic is present, 1 if not,
    negative on error. *)
Definition nx_con_check_for_cal_magic (flash_addr : Z) : M Z :=
  let* (ret, reply) :=
    nx_con_request_spi_flash_read flash_addr NX_CON_CAL_USR_MAGIC_SIZE in
  if negb (ret =? 0) then mreturn ret
  else
    mreturn (if negb (reply !!! 0%nat =? NX_CON_CAL_USR_MAGIC_0) ||
                negb (reply !!! 1%nat =? NX_CON_CAL_USR_MAGIC_1)
             then 1 else 0).

(** [nx_con_read_stick_calibration]; [cal_x] and [cal_y] stand for the
    two members of [con] the caller passes by address. *)
Definition nx_con_read_stick_calibration (cal_addr : Z)
    (cal_x cal_y : nx_con_stick_cal -> nx_con -> nx_con)
    (left_stick : bool) : M Z :=
  let* (ret, raw) :=
    nx_con_request_spi_flash_read cal_addr NX_CON_CAL_STICK_DATA_SIZE in
  if negb (ret =? 0) then mreturn ret
  else
    let f0 := hid_field_extract (drop 0 raw) 0 12 in
    let f1 := hid_field_extract (drop 1 raw) 4 12 in
    let f3 := hid_field_extract (drop 3 raw) 0 12 in
    let f4 := hid_field_extract (drop 4 raw) 4 12 in
    let f6 := hid_field_extract (drop 6 raw) 0 12 in
    let f7 := hid_field_extract (drop 7 raw) 4 12 in
    let '(x_max_above, y_max_above, x_center, y_center,
          x_min_below, y_min_below) :=
      if left_stick then (f0, f1, f3, f4, f6, f7)
      else (f6, f7, f0, f1, f3, f4) in
    let* _ := modify_con
      (cal_x {| cal_max := s32 (x_center + x_max_above);
                cal_min := s32 (x_center - x_min_below);
                cal_center := x_center |}) in
    let* _ := modify_con
      (cal_y {| cal_max := s32 (y_center + y_max_above);
                cal_min := s32 (y_center - y_min_below);
                cal_center := y_center |}) in
    mreturn 0.

(** [nx_con_request_calibration]. *)
Definition nx_con_request_calibration : M Z :=
  let* m := nx_con_check_for_cal_magic NX_CON_CAL_USR_LEFT_MAGIC_ADDR in
  let left_stick_addr :=
    if m =? 0 then NX_CON_CAL_USR_LEFT_DATA_ADDR
    else NX_CON_CAL_FCT_DATA_LEFT_ADDR in
  let* m := nx_con_check_for_cal_magic NX_CON_CAL_USR_RIGHT_MAGIC_ADDR in
  let right_stick_addr :=
    if m =? 0 then NX_CON_CAL_USR_RIGHT_DATA_ADDR
    else NX_CON_CAL_FCT_DATA_RIGHT_ADDR in
  let* ret := nx_con_read_stick_calibration left_stick_addr
                set_left_stick_cal_x set_left_stick_cal_y true in
  let* _ :=
    (if negb (ret =? 0) then
       let* _ := modify_con (set_left_stick_cal_x dflt_stick_cal) in
       modify_con (set_left_stick_cal_y dflt_stick_cal)
     else mreturn tt) in
  let* ret := nx_con_read_stick_calibration right_stick_addr
                set_right_stick_cal_x set_right_stick_cal_y false in
  let* _ :=
    (if negb (ret =? 0) then
       let* _ := modify_con (set_right_stick_cal_x dflt_stick_cal) in
       modify_con (set_right_stick_cal_y dflt_stick_cal)
     else mreturn tt) in
  mreturn 0.

(** [nx_con_request_imu_calibration]. *)
Definition nx_con_request_imu_calibration : M Z :=
  let* m := nx_con_check_for_cal_magic NX_CON_IMU_CAL_USR_MAGIC_ADDR in
  let imu_cal_addr :=
    if m =? 0 then NX_CON_IMU_CAL_USR_DATA_ADDR
    else NX_CON_IMU_CAL_FCT_DATA_ADDR in
  let* (ret, raw_cal) :=
    nx_con_request_spi_flash_read imu_cal_addr NX_CON_IMU_CAL_DATA_SIZE in
  if negb (ret =? 0) then
    let* _ := modify_con imu_cal_store_defaults in
    let* _ := modify_con nx_con_calc_imu_cal_divisors in
    mreturn ret
  else
    let* _ := modify_con (imu_cal_parse raw_cal) in
    let* _ := modify_con nx_con_calc_imu_cal_divisors in
    mreturn 0.

End Calibration.

(** ** IMU reports *)

Definition nx_con_type_is_right_joycon (c : nx_con) : bool :=
  type c =? NX_CON_TYPE_JCR.

(** [nx_con_input_report_parse_imu_data]: three samples of six [s16]. *)
Definition nx_con_input_report_parse_imu_data (imu_raw_bytes : list Z)
  : list nx_con_imu_data :=
  map
    (fun i : nat =>
       (* raw += sizeof(struct nx_con_imu_data) after every sample *)
       let raw := drop (i * 12) imu_raw_bytes in
       {| accel_x := s16 (get_unaligned_le16 (drop 0 raw));
          accel_y := s16 (get_unaligned_le16 (drop 2 raw));
          accel_z := s16 (get_unaligned_le16 (drop 4 raw));
          gyro_x := s16 (get_unaligned_le16 (drop 6 raw));
          gyro_y := s16 (get_unaligned_le16 (drop 8 raw));
          gyro_z := s16 (get_unaligned_le16 (drop 10 raw)) |})
    (seq 0 3).

(** [dropped_threshold] and [dropped_pkts] of [nx_con_report_imu], in
    [unsigned int] arithmetic. *)
Definition imu_dropped_pkts (delta avg_delta_ms : Z) : option Z :=
  let dropped_threshold := u32 (avg_delta_ms * 3) ÷ 2 in
  u32_div (u32 (delta - Z.min delta dropped_threshold)) avg_delta_ms.

(** The average-delta housekeeping of [nx_con_report_imu] for a report
    after the first. *)
Definition imu_avg_housekeeping (c : nx_con) (delta : Z) : option nx_con :=
  let c := set_imu_delta_samples_sum (u32 (imu_delta_samples_sum c + delta)) c in
  let c := set_imu_delta_samples_count (u32 (imu_delta_samples_count c + 1)) c in
  if NX_CON_IMU_SAMPLES_PER_DELTA_AVG <=? imu_delta_samples_count c then
    avg ← u32_div (imu_delta_samples_sum c) (imu_delta_samples_count c);
    let c := set_imu_avg_delta_ms avg c in
    (* don't ever want divide by zero shenanigans *)
    let c := if imu_avg_delta_ms c =? 0 then set_imu_avg_delta_ms 1 c else c in
    let c := set_imu_delta_samples_count 0 c in
    Some (set_imu_delta_samples_sum 0 c)
  else Some c.

(** The timing part of [nx_con_report_imu] (up to
    [con->imu_last_pkt_ms = msecs]); [msecs] is the clock reading taken on
    entry.  The second component is [dropped_pkts], which exists only for
    a report after the first. *)
Definition nx_con_report_imu_timing (c : nx_con) (msecs : Z)
  : option (nx_con * option Z) :=
  let msecs := u32 msecs in
  let last_msecs := imu_last_pkt_ms c in
  '(c, dropped) ←
    (if negb (imu_first_packet_received c) then
       let c := set_imu_timestamp_us 0 c in
       let c := set_imu_delta_samples_count 0 c in
       let c := set_imu_delta_samples_sum 0 c in
       let c := set_imu_avg_delta_ms NX_CON_IMU_DFLT_AVG_DELTA_MS c in
       let c := set_imu_first_packet_received true c in
       Some (c, None)
     else
       let delta := u32 (msecs - last_msecs) in
       c ← imu_avg_housekeeping c delta;
       dropped_pkts ← imu_dropped_pkts delta (imu_avg_delta_ms c);
       let c := set_imu_timestamp_us
                  (u32 (imu_timestamp_us c + u32 (1000 * imu_avg_delta_ms c))) c in
       Some (c, Some dropped_pkts));
  Some (set_imu_last_pkt_ms msecs c, dropped).

(** [mult_frac(x, n, d)] of linux/math.h at type [int]. *)
Definition mult_frac (x n d : Z) : option Z :=
  q ← s32_div x d;
  r ← s32_rem x d;
  t ← s32_div (s32 (r * n)) d;
  Some (s32 (s32 (q * n) + t)).

(** The six calibrated values [value[0..5]] of one sample, before the
    per-variant sign correction. *)
Definition imu_scale_sample (c : nx_con) (d : nx_con_imu_data) : option (list Z) :=
  let gyro i raw :=
    mult_frac (s32 (NX_CON_IMU_PREC_RANGE_SCALE * (raw - offset (gyro_cal c) !!! i)))
              (scale (gyro_cal c) !!! i)
              (imu_cal_gyro_divisor c !!! i) in
  let accel i raw :=
    s32_div (s32 (raw * scale (accel_cal c) !!! i))
            (imu_cal_accel_divisor c !!! i) in
  v0 ← gyro 0%nat (gyro_x d);
  v1 ← gyro 1%nat (gyro_y d);
  v2 ← gyro 2%nat (gyro_z d);
  v3 ← accel 0%nat (accel_x d);
  v4 ← accel 1%nat (accel_y d);
  v5 ← accel 2%nat (accel_z d);
  Some [v0; v1; v2; v3; v4; v5].

(** The loop under [if (nx_con_type_is_right_joycon(con))]:
    [for (j = 1; j < 6; ++j) { if (j == 3) continue; value[j] *= -1; }]. *)
Definition imu_negate_right_joycon (value : list Z) : list Z :=
  foldl
    (fun value (j : nat) =>
       if (j =? 3)%nat then value
       else <[j := s32 (value !!! j * -1)]> value)
    value (seq 1 5).

(** What one sample hands to the input layer: the [MSC_TIMESTAMP] event
    and the values reported on [ABS_RX, ABS_RY, ABS_RZ, ABS_X, ABS_Y,
    ABS_Z], in that order. *)
Record imu_sample_events := {
  ev_timestamp : Z;
  ev_abs : list Z;
}.

(** One pass of the [for (i = 0; i < 3; i++)] loop of [nx_con_report_imu]. *)
Definition nx_con_report_imu_sample (c : nx_con) (d : nx_con_imu_data)
  : option (nx_con * imu_sample_events) :=
  value ← imu_scale_sample c d;
  let value :=
    if nx_con_type_is_right_joycon c then imu_negate_right_joycon value
    else value in
  let ev := {| ev_timestamp := s32 (imu_timestamp_us c); ev_abs := value |} in
  let c := set_imu_timestamp_us
             (u32 (imu_timestamp_us c + u32 (imu_avg_delta_ms c * 1000) ÷ 3)) c in
  Some (c, ev).

Fixpoint nx_con_report_imu_samples (c : nx_con) (ds : list nx_con_imu_data)
  : option (nx_con * list imu_sample_events) :=
  match ds with
  | [] => Some (c, [])
  | d :: ds =>
      '(c, ev) ← nx_con_report_imu_sample c d;
      '(c, evs) ← nx_con_report_imu_samples c ds;
      Some (c, ev :: evs)
  end.

(** [nx_con_report_imu]: [None] is a division trap. *)
Definition nx_con_report_imu (c : nx_con) (imu_raw_bytes : list Z) (msecs : Z)
  : option (nx_con * list imu_sample_events) :=
  let imu_data := nx_con_input_report_parse_imu_data imu_raw_bytes in
  '(c, _) ← nx_con_report_imu_timing c msecs;
  nx_con_report_imu_samples c imu_data.
(** ** Rumble tables (from the driver, entry for entry) *)

Definition FREQ (high low hz : Z) : nx_con_rumble_freq_data :=
  {| freq_high := high; freq_low := low; freq := hz |}.

Definition AMP (high low a : Z) : nx_con_rumble_amp_data :=
  {| amp_high := high; amp_low := low; amp := a |}.

Definition nx_con_rumble_frequencies : list nx_con_rumble_freq_data := [
  FREQ 0x0000 0x01 41; FREQ 0x0000 0x02 42; FREQ 0x0000 0x03 43;
  FREQ 0x0000 0x04 44; FREQ 0x0000 0x05 45; FREQ 0x0000 0x06 46;
  FREQ 0x0000 0x07 47; FREQ 0x0000 0x08 48; FREQ 0x0000 0x09 49;
  FREQ 0x0000 0x0a 50; FREQ 0x0000 0x0b 51; FREQ 0x0000 0x0c 52;
  FREQ 0x0000 0x0d 53; FREQ 0x0000 0x0e 54; FREQ 0x0000 0x0f 55;
  FREQ 0x0000 0x10 57; FREQ 0x0000 0x11 58; FREQ 0x0000 0x12 59;
  FREQ 0x0000 0x13 60; FREQ 0x0000 0x14 62; FREQ 0x0000 0x15 63;
  FREQ 0x0000 0x16 64; FREQ 0x0000 0x17 66; FREQ 0x0000 0x18 67;
  FREQ 0x0000 0x19 69; FREQ 0x0000 0x1a 70; FREQ 0x0000 0x1b 72;
  FREQ 0x0000 0x1c 73; FREQ 0x0000 0x1d 75; FREQ 0x0000 0x1e 77;
  FREQ 0x0000 0x1f 78; FREQ 0x0000 0x20 80; FREQ 0x0400 0x21 82;
  FREQ 0x0800 0x22 84; FREQ 0x0c00 0x23 85; FREQ 0x1000 0x24 87;
  FREQ 0x1400 0x25 89; FREQ 0x1800 0x26 91; FREQ 0x1c00 0x27 93;
  FREQ 0x2000 0x28 95; FREQ 0x2400 0x29 97; FREQ 0x2800 0x2a 99;
  FREQ 0x2c00 0x2b 102; FREQ 0x3000 0x2c 104; FREQ 0x3400 0x2d 106;
  FREQ 0x3800 0x2e 108; FREQ 0x3c00 0x2f 111; FREQ 0x4000 0x30 113;
  FREQ 0x4400 0x31 116; FREQ 0x4800 0x32 118; FREQ 0x4c00 0x33 121;
  FREQ 0x5000 0x34 123; FREQ 0x5400 0x35 126; FREQ 0x5800 0x36 129;
  FREQ 0x5c00 0x37 132; FREQ 0x6000 0x38 135; FREQ 0x6400 0x39 137;
  FREQ 0x6800 0x3a 141; FREQ 0x6c00 0x3b 144; FREQ 0x7000 0x3c 147;
  FREQ 0x7400 0x3d 150; FREQ 0x7800 0x3e 153; FREQ 0x7c00 0x3f 157;
  FREQ 0x8000 0x40 160; FREQ 0x8400 0x41 164; FREQ 0x8800 0x42 167;
  FREQ 0x8c00 0x43 171; FREQ 0x9000 0x44 174; FREQ 0x9400 0x45 178;
  FREQ 0x9800 0x46 182; FREQ 0x9c00 0x47 186; FREQ 0xa000 0x48 190;
  FREQ 0xa400 0x49 194; FREQ 0xa800 0x4a 199; FREQ 0xac00 0x4b 203;
  FREQ 0xb000 0x4c 207; FREQ 0xb400 0x4d 212; FREQ 0xb800 0x4e 217;
  FREQ 0xbc00 0x4f 221; FREQ 0xc000 0x50 226; FREQ 0xc400 0x51 231;
  FREQ 0xc800 0x52 236; FREQ 0xcc00 0x53 241; FREQ 0xd000 0x54 247;
  FREQ 0xd400 0x55 252; FREQ 0xd800 0x56 258; FREQ 0xdc00 0x57 263;
  FREQ 0xe000 0x58 269; FREQ 0xe400 0x59 275; FREQ 0xe800 0x5a 281;
  FREQ 0xec00 0x5b 287; FREQ 0xf000 0x5c 293; FREQ 0xf400 0x5d 300;
  FREQ 0xf800 0x5e 306; FREQ 0xfc00 0x5f 313; FREQ 0x0001 0x60 320;
  FREQ 0x0401 0x61 327; FREQ 0x0801 0x62 334; FREQ 0x0c01 0x63 341;
  FREQ 0x1001 0x64 349; FREQ 0x1401 0x65 357; FREQ 0x1801 0x66 364;
  FREQ 0x1c01 0x67 372; FREQ 0x2001 0x68 381; FREQ 0x2401 0x69 389;
  FREQ 0x2801 0x6a 397; FREQ 0x2c01 0x6b 406; FREQ 0x3001 0x6c 415;
  FREQ 0x3401 0x6d 424; FREQ 0x3801 0x6e 433; FREQ 0x3c01 0x6f 443;
  FREQ 0x4001 0x70 453; FREQ 0x4401 0x71 462; FREQ 0x4801 0x72 473;
  FREQ 0x4c01 0x73 483; FREQ 0x5001 0x74 494; FREQ 0x5401 0x75 504;
  FREQ 0x5801 0x76 515; FREQ 0x5c01 0x77 527; FREQ 0x6001 0x78 538;
  FREQ 0x6401 0x79 550; FREQ 0x6801 0x7a 562; FREQ 0x6c01 0x7b 574;
  FREQ 0x7001 0x7c 587; FREQ 0x7401 0x7d 600; FREQ 0x7801 0x7e 613;
  FREQ 0x7c01 0x7f 626; FREQ 0x8001 0x00 640; FREQ 0x8401 0x00 654;
  FREQ 0x8801 0x00 668; FREQ 0x8c01 0x00 683; FREQ 0x9001 0x00 698;
  FREQ 0x9401 0x00 713; FREQ 0x9801 0x00 729; FREQ 0x9c01 0x00 745;
  FREQ 0xa001 0x00 761; FREQ 0xa401 0x00 778; FREQ 0xa801 0x00 795;
  FREQ 0xac01 0x00 812; FREQ 0xb001 0x00 830; FREQ 0xb401 0x00 848;
  FREQ 0xb801 0x00 867; FREQ 0xbc01 0x00 886; FREQ 0xc001 0x00 905;
  FREQ 0xc401 0x00 925; FREQ 0xc801 0x00 945; FREQ 0xcc01 0x00 966;
  FREQ 0xd001 0x00 987; FREQ 0xd401 0x00 1009; FREQ 0xd801 0x00 1031;
  FREQ 0xdc01 0x00 1053; FREQ 0xe001 0x00 1076; FREQ 0xe401 0x00 1100;
  FREQ 0xe801 0x00 1124; FREQ 0xec01 0x00 1149; FREQ 0xf001 0x00 1174;
  FREQ 0xf401 0x00 1199; FREQ 0xf801 0x00 1226; FREQ 0xfc01 0x00 1253
].

Definition nx_con_max_rumble_amp : Z := 1003.

Definition nx_con_rumble_amplitudes : list nx_con_rumble_amp_data := [
  AMP 0x00 0x0040 0; AMP 0x02 0x8040 10; AMP 0x04 0x0041 12;
  AMP 0x06 0x8041 14; AMP 0x08 0x0042 17; AMP 0x0a 0x8042 20;
  AMP 0x0c 0x0043 24; AMP 0x0e 0x8043 28; AMP 0x10 0x0044 33;
  AMP 0x12 0x8044 40; AMP 0x14 0x0045 47; AMP 0x16 0x8045 56;
  AMP 0x18 0x0046 67; AMP 0x1a 0x8046 80; AMP 0x1c 0x0047 95;
  AMP 0x1e 0x8047 112; AMP 0x20 0x0048 117; AMP 0x22 0x8048 123;
  AMP 0x24 0x0049 128; AMP 0x26 0x8049 134; AMP 0x28 0x004a 140;
  AMP 0x2a 0x804a 146; AMP 0x2c 0x004b 152; AMP 0x2e 0x804b 159;
  AMP 0x30 0x004c 166; AMP 0x32 0x804c 173; AMP 0x34 0x004d 181;
  AMP 0x36 0x804d 189; AMP 0x38 0x004e 198; AMP 0x3a 0x804e 206;
  AMP 0x3c 0x004f 215; AMP 0x3e 0x804f 225; AMP 0x40 0x0050 230;
  AMP 0x42 0x8050 235; AMP 0x44 0x0051 240; AMP 0x46 0x8051 245;
  AMP 0x48 0x0052 251; AMP 0x4a 0x8052 256; AMP 0x4c 0x0053 262;
  AMP 0x4e 0x8053 268; AMP 0x50 0x0054 273; AMP 0x52 0x8054 279;
  AMP 0x54 0x0055 286; AMP 0x56 0x8055 292; AMP 0x58 0x0056 298;
  AMP 0x5a 0x8056 305; AMP 0x5c 0x0057 311; AMP 0x5e 0x8057 318;
  AMP 0x60 0x0058 325; AMP 0x62 0x8058 332; AMP 0x64 0x0059 340;
  AMP 0x66 0x8059 347; AMP 0x68 0x005a 355; AMP 0x6a 0x805a 362;
  AMP 0x6c 0x005b 370; AMP 0x6e 0x805b 378; AMP 0x70 0x005c 387;
  AMP 0x72 0x805c 395; AMP 0x74 0x005d 404; AMP 0x76 0x805d 413;
  AMP 0x78 0x005e 422; AMP 0x7a 0x805e 431; AMP 0x7c 0x005f 440;
  AMP 0x7e 0x805f 450; AMP 0x80 0x0060 460; AMP 0x82 0x8060 470;
  AMP 0x84 0x0061 480; AMP 0x86 0x8061 491; AMP 0x88 0x0062 501;
  AMP 0x8a 0x8062 512; AMP 0x8c 0x0063 524; AMP 0x8e 0x8063 535;
  AMP 0x90 0x0064 547; AMP 0x92 0x8064 559; AMP 0x94 0x0065 571;
  AMP 0x96 0x8065 584; AMP 0x98 0x0066 596; AMP 0x9a 0x8066 609;
  AMP 0x9c 0x0067 623; AMP 0x9e 0x8067 636; AMP 0xa0 0x0068 650;
  AMP 0xa2 0x8068 665; AMP 0xa4 0x0069 679; AMP 0xa6 0x8069 694;
  AMP 0xa8 0x006a 709; AMP 0xaa 0x806a 725; AMP 0xac 0x006b 741;
  AMP 0xae 0x806b 757; AMP 0xb0 0x006c 773; AMP 0xb2 0x806c 790;
  AMP 0xb4 0x006d 808; AMP 0xb6 0x806d 825; AMP 0xb8 0x006e 843;
  AMP 0xba 0x806e 862; AMP 0xbc 0x006f 881; AMP 0xbe 0x806f 900;
  AMP 0xc0 0x0070 920; AMP 0xc2 0x8070 940; AMP 0xc4 0x0071 960;
  AMP 0xc6 0x8071 981; AMP 0xc8 0x0072 1003
].

#[global] Instance nx_con_rumble_freq_data_inhabited : Inhabited nx_con_rumble_freq_data :=
  populate (FREQ 0 0 0).

#[global] Instance nx_con_rumble_amp_data_inhabited : Inhabited nx_con_rumble_amp_data :=
  populate (AMP 0 0 0).

(** ** Rumble encoder *)

(** The index both lookups leave in [i]:
    [if (v > data[0].key) for (i = 1; i < length - 1; i++)
       if (v > data[i - 1].key && v <= data[i].key) break;]
    over the keys of the table. *)
Definition rumble_find_index (keys : list Z) (v : Z) : nat :=
  if keys !!! 0%nat <? v then
    match
      find (fun i : nat => (keys !!! (i - 1)%nat <? v) && (v <=? keys !!! i))
           (seq 1 (length keys - 2))
    with
    | Some i => i
    | None => (length keys - 1)%nat
    end
  else 0%nat.

Definition nx_con_find_rumble_freq (freq_hz : Z) : nx_con_rumble_freq_data :=
  let data := nx_con_rumble_frequencies in
  data !!! rumble_find_index (freq <$> data) freq_hz.

Definition nx_con_find_rumble_amp (amp_v : Z) : nx_con_rumble_amp_data :=
  let data := nx_con_rumble_amplitudes in
  data !!! rumble_find_index (amp <$> data) amp_v.

(** [nx_con_encode_rumble]: the four bytes written to [data[0..3]]. *)
Definition nx_con_encode_rumble (freq_low_hz freq_high_hz amp_v : Z) : list Z :=
  let freq_data_low := nx_con_find_rumble_freq freq_low_hz in
  let freq_data_high := nx_con_find_rumble_freq freq_high_hz in
  let amp_data := nx_con_find_rumble_amp amp_v in
  [ u8 (Z.land (Z.shiftr (freq_high freq_data_high) 8) 0xFF);
    u8 (Z.land (freq_high freq_data_high) 0xFF + amp_high amp_data);
    u8 (freq_low freq_data_low + Z.land (Z.shiftr (amp_low amp_data) 8) 0xFF);
    u8 (Z.land (amp_low amp_data) 0xFF) ].

Definition NX_CON_MAX_RUMBLE_HIGH_FREQ : Z := 1253.
Definition NX_CON_MIN_RUMBLE_HIGH_FREQ : Z := 82.
Definition NX_CON_MAX_RUMBLE_LOW_FREQ : Z := 626.
Definition NX_CON_MIN_RUMBLE_LOW_FREQ : Z := 41.

(** [nx_con_clamp_rumble_freqs]. *)
Definition nx_con_clamp_rumble_freqs (c : nx_con) : nx_con :=
  let c := set_rumble_ll_freq
             (clamp (rumble_ll_freq c) NX_CON_MIN_RUMBLE_LOW_FREQ
                    NX_CON_MAX_RUMBLE_LOW_FREQ) c in
  let c := set_rumble_lh_freq
             (clamp (rumble_lh_freq c) NX_CON_MIN_RUMBLE_HIGH_FREQ
                    NX_CON_MAX_RUMBLE_HIGH_FREQ) c in
  let c := set_rumble_rl_freq
             (clamp (rumble_rl_freq c) NX_CON_MIN_RUMBLE_LOW_FREQ
                    NX_CON_MAX_RUMBLE_LOW_FREQ) c in
  set_rumble_rh_freq
    (clamp (rumble_rh_freq c) NX_CON_MIN_RUMBLE_HIGH_FREQ
           NX_CON_MAX_RUMBLE_HIGH_FREQ) c.

(** ** Rumble scheduler *)

(** [nx_con_set_rumble]: the new state and whether [queue_work] was
    called ([schedule_now]). *)
Definition nx_con_set_rumble (c : nx_con) (amp_r amp_l : Z) (schedule_now : bool)
  : nx_con * bool :=
  let freq_r_low := rumble_rl_freq c in
  let freq_r_high := rumble_rh_freq c in
  let freq_l_low := rumble_ll_freq c in
  let freq_l_high := rumble_lh_freq c in
  (* limit number of silent rumble packets to reduce traffic *)
  let c :=
    if negb (amp_l =? 0) || negb (amp_r =? 0)
    then set_rumble_zero_countdown NX_CON_RUMBLE_ZERO_AMP_PKT_CNT c
    else c in
  (* right joy-con *)
  let amp_v := u16 (u32 (amp_r * nx_con_max_rumble_amp) ÷ 65535) in
  let data_r := nx_con_encode_rumble freq_r_low freq_r_high amp_v in
  (* left joy-con *)
  let amp_v := u16 (u32 (amp_l * nx_con_max_rumble_amp) ÷ 65535) in
  let data_l := nx_con_encode_rumble freq_l_low freq_l_high amp_v in
  let data := data_l ++ data_r in
  let c := set_rumble_queue_head (s32 (rumble_queue_head c + 1)) c in
  let c :=
    if NX_CON_RUMBLE_QUEUE_SIZE <=? rumble_queue_head c
    then set_rumble_queue_head 0 c else c in
  let c := set_rumble_data
             (<[Z.to_nat (rumble_queue_head c) := data]> (rumble_data c)) c in
  (c, schedule_now).

Section Rumble.

Variable hw : transport.
(** [IS_ENABLED(CONFIG_NINTENDO_FF)] and the width of [unsigned long]. *)
Variable CONFIG_NINTENDO_FF : bool.
Variable BITS_PER_LONG : Z.

(** The gates of [nx_con_handle_rumble_report] that do not depend on the
    queue: force feedback is built in, the report carries a vibrator
    byte, and a full period has passed since the last rumble send. *)
Definition rumble_period_elapsed (c : nx_con) (vibrator_report msecs : Z) : bool :=
  CONFIG_NINTENDO_FF && negb (vibrator_report =? 0) &&
  (NX_CON_RUMBLE_PERIOD_MS <=? wrap_u BITS_PER_LONG (msecs - rumble_msecs c)).

(** [nx_con_handle_rumble_report]: the new state and whether
    [queue_work] was called. *)
Definition nx_con_handle_rumble_report (c : nx_con) (vibrator_report msecs : Z)
  : nx_con * bool :=
  if rumble_period_elapsed c vibrator_report msecs &&
     (negb (rumble_queue_head c =? rumble_queue_tail c) ||
      (0 <? rumble_zero_countdown c))
  then
    let c :=
      if 0 <? rumble_zero_countdown c
      then set_rumble_zero_countdown (u16 (rumble_zero_countdown c - 1)) c
      else c in
    (c, true)
  else (c, false).

(** The [while (again)] loop of [nx_con_rumble_worker]; the result says
    whether the loop was left ([again = false]) within [fuel] rounds. *)
Fixpoint nx_con_rumble_worker_loop (fuel : nat) : M bool :=
  match fuel with
  | O => mreturn false
  | S fuel =>
      let* ret := nx_con_send_rumble_data hw in
      let* n := next_clock in
      let* _ := modify_con (set_rumble_msecs (u32 (jiffies_msecs hw n))) in
      let* c := get_con in
      if negb (rumble_queue_tail c =? rumble_queue_head c) then
        let* _ := modify_con
          (fun c =>
             let c := set_rumble_queue_tail (s32 (rumble_queue_tail c + 1)) c in
             if NX_CON_RUMBLE_QUEUE_SIZE <=? rumble_queue_tail c
             then set_rumble_queue_tail 0 c else c) in
        nx_con_rumble_worker_loop fuel
      else mreturn true
  end.

(** [nx_con_rumble_worker]: a tail inside the queue meets the head
    within [NX_CON_RUMBLE_QUEUE_SIZE] rounds. *)
Definition nx_con_rumble_worker : M bool :=
  nx_con_rumble_worker_loop (Z.to_nat NX_CON_RUMBLE_QUEUE_SIZE).

(** A rumble request as [nx_con_play_effect] makes it: the work is
    queued at once and the worker runs. *)
Definition rumble_request (amp_r amp_l : Z) : M bool :=
  let* c := get_con in
  let (c, queued) := nx_con_set_rumble c amp_r amp_l true in
  let* _ := modify_con (fun _ => c) in
  if queued then nx_con_rumble_worker else mreturn true.

(** An input report seen by the scheduler: the handler decides whether
    to fire, and the worker runs when it did.  The result says whether
    the sender fired. *)
Definition rumble_report (vibrator_report msecs : Z) : M bool :=
  let* c := get_con in
  let (c, queued) := nx_con_handle_rumble_report c vibrator_report msecs in
  let* _ := modify_con (fun _ => c) in
  if queued then
    let* _ := nx_con_rumble_worker in mreturn true
  else mreturn false.

End Rumble.

(** ** Session set-up *)

Definition zero_stick_cal : nx_con_stick_cal :=
  {| cal_max := 0; cal_min := 0; cal_center := 0 |}.

Definition zero_imu_cal : nx_con_imu_cal :=
  {| offset := [0; 0; 0]; scale := [0; 0; 0] |}.

(** The session as [nintendo_hid_probe] has it before the first command:
    [devm_kzalloc]'s zeroes, then the three assignments of the probe. *)
Definition nx_con_probe_init : nx_con :=
  {| state := NX_CON_STATE_INIT; type := 0;
     msg_type := NX_CON_MSG_TYPE_NONE; subcmd_num := 0;
     input_buf := zero_input_buf; received_resp := false;
     usb_ack_match := 0; subcmd_ack_match := 0; last_subcmd_sent_msecs := 0;
     left_stick_cal_x := zero_stick_cal; left_stick_cal_y := zero_stick_cal;
     right_stick_cal_x := zero_stick_cal; right_stick_cal_y := zero_stick_cal;
     accel_cal := zero_imu_cal; gyro_cal := zero_imu_cal;
     imu_cal_accel_divisor := [0; 0; 0]; imu_cal_gyro_divisor := [0; 0; 0];
     rumble_data := replicate 8 (replicate 8 0);
     rumble_queue_head := NX_CON_RUMBLE_QUEUE_SIZE - 1; rumble_queue_tail := 0;
     rumble_msecs := 0; rumble_ll_freq := 0; rumble_lh_freq := 0;
     rumble_rl_freq := 0; rumble_rh_freq := 0; rumble_zero_countdown := 0;
     imu_first_packet_received := false; imu_timestamp_us := 0;
     imu_last_pkt_ms := 0; imu_delta_samples_count := 0;
     imu_delta_samples_sum := 0; imu_avg_delta_ms := 0 |}.

Definition world_init : world :=
  {| con := nx_con_probe_init; trace := []; n_sends := 0; n_waits := 0;
     n_clock := 0 |}.

(** [nintendo_hid_remove]: the state change that forbids further sends. *)
Definition nintendo_hid_remove (c : nx_con) : nx_con :=
  set_state NX_CON_STATE_REMOVED c.

(** ** Sequences of sends *)

(** The calls that put frames on the wire, and the removal of the device
    between them. *)
Inductive send_op :=
| OpSubcmd (subcmd_id : Z) (data : list Z) (timeout : Z)
| OpRumbleData
| OpUsb (cmd timeout : Z)
| OpRemove.

Definition run_send_op (hw : transport) (o : send_op) : M Z :=
  match o with
  | OpSubcmd subcmd_id data timeout => nx_con_send_subcmd hw subcmd_id data timeout
  | OpRumbleData => nx_con_send_rumble_data hw
  | OpUsb cmd timeout => nx_con_send_usb hw cmd timeout
  | OpRemove => let* _ := modify_con nintendo_hid_remove in mreturn 0
  end.

Fixpoint run_send_ops (hw : transport) (os : list send_op) (w : world) : world :=
  match os with
  | [] => w
  | o :: os => run_send_ops hw os (run_send_op hw o w).2
  end.

(** The [packet_num] byte of an emitted subcommand or rumble-only frame
    is at most 15; other events are not constrained. *)
Definition packet_num_ok (e : event) : Prop :=
  match e with
  | EvOutputReport buf _ =>
      buf !! 0%nat = Some NX_CON_OUTPUT_RUMBLE_AND_SUBCMD \/
      buf !! 0%nat = Some NX_CON_OUTPUT_RUMBLE_ONLY ->
      exists p, buf !! 1%nat = Some p /\ 0 <= p <= 15
  | EvWaitResp _ _ => True
  end.

(** Every output report among [evs] carries exactly the frame [data]. *)
Definition sends_only (data : list Z) (evs : list event) : Prop :=
  Forall (fun e => match e with
                   | EvOutputReport buf _ => buf = data
                   | EvWaitResp _ _ => True
                   end) evs.

(** What a piece of the send path may do: append events that send only
    [data], and leave the counter and the state alone. *)
Definition sends_frame (data : list Z) (w w' : world) : Prop :=
  exists evs,
    trace w' = trace w ++ evs /\ sends_only data evs /\
    subcmd_num (con w') = subcmd_num (con w) /\
    state (con w') = state (con w).

(** The invariant of the sequence counter and of what was sent. *)
Definition counter_inv (w : world) : Prop :=
  0 <= subcmd_num (con w) <= 15 /\ Forall packet_num_ok (trace w).

(** ** Concrete transports for the examples *)

(** A device that accepts every frame and never answers. *)
Definition hw_silent : transport :=
  {| kmemdup_ok := fun _ => true;
     hid_hw_output_report := fun _ buf => Z.of_nat (length buf);
     incoming := fun _ => [];
     jiffies_msecs := fun n => 100 * Z.of_nat n |}.

(** A link on which every output report fails with [-EIO]. *)
Definition hw_broken : transport :=
  {| kmemdup_ok := fun _ => true;
     hid_hw_output_report := fun _ _ => - 5;
     incoming := fun _ => [];
     jiffies_msecs := fun n => 100 * Z.of_nat n |}.

(** A device whose calibration flash is erased: every flash read is
    acknowledged (report id 0x21, subcommand id 0x10) and every data byte
    of the reply is 0xFF. *)
Definition erased_flash_reply : list Z :=
  [NX_CON_INPUT_SUBCMD_REPLY] ++ replicate 13 0 ++
  [NX_CON_SUBCMD_SPI_FLASH_READ] ++ replicate 5 0 ++ replicate 29 0xFF.

Definition hw_erased_flash : transport :=
  {| kmemdup_ok := fun _ => true;
     hid_hw_output_report := fun _ buf => Z.of_nat (length buf);
     incoming := fun _ => [erased_flash_reply];
     jiffies_msecs := fun n => 100 * Z.of_nat n |}.

(** A right Joy-Con with the default IMU calibration, and one sample. *)
Definition con_right_joycon_dflt : nx_con :=
  set_type NX_CON_TYPE_JCR
    (nx_con_calc_imu_cal_divisors (imu_cal_store_defaults nx_con_probe_init)).

Definition imu_sample_example : nx_con_imu_data :=
  {| accel_x := 100; accel_y := -200; accel_z := 4096;
     gyro_x := 10; gyro_y := -20; gyro_z := 30 |}.

(** ** Runs of the IMU timing state machine *)

(** The timing part of [nx_con_report_imu] over a run of reports, given
    by the clock reading of each. *)
Fixpoint imu_feed (c : nx_con) (times : list Z) : option nx_con :=
  match times with
  | [] => Some c
  | msecs :: times =>
      '(c, _) ← nx_con_report_imu_timing c msecs;
      imu_feed c times
  end.

(** [n] clock readings, each [d] ms after the one before, from [last]. *)
Fixpoint imu_report_times (last d : Z) (n : nat) : list Z :=
  match n with
  | O => []
  | S n => (last + d) :: imu_report_times (last + d) d n
  end.

(** The states the timing members of a session can be in: a session that
    has seen no IMU report, the state after one more report, and any
    change to the session that leaves these members alone. *)
Inductive imu_reachable : nx_con -> Prop :=
| imu_reach_fresh c :
    imu_first_packet_received c = false -> imu_reachable c
| imu_reach_report c msecs c' dropped :
    imu_reachable c ->
    nx_con_report_imu_timing c msecs = Some (c', dropped) ->
    imu_reachable c'
| imu_reach_other c c' :
    imu_reachable c ->
    imu_first_packet_received c' = imu_first_packet_received c ->
    imu_delta_samples_count c' = imu_delta_samples_count c ->
    imu_delta_samples_sum c' = imu_delta_samples_sum c ->
    imu_avg_delta_ms c' = imu_avg_delta_ms c ->
    imu_reachable c'.

(** What holds of them once the first report has been seen. *)
Definition imu_avg_inv (c : nx_con) : Prop :=
  imu_first_packet_received c = true ->
  0 <= imu_delta_samples_count c < NX_CON_IMU_SAMPLES_PER_DELTA_AVG /\
  1 <= imu_avg_delta_ms c <= 14316557.

(** ** Statements under test *)

(** "All axes except the first are negated": index 0 keeps its value and
    each of the indices 1 to 5 holds the negated value. *)
Definition negates_all_but_first (value value' : list Z) : Prop :=
  value' !! 0%nat = value !! 0%nat /\
  forall j : nat, (1 <= j <= 5)%nat ->
    value' !! j = (fun v => s32 (- v)) <$> value !! j.

(** The session after its first IMU report, taken at clock reading 1000. *)
Definition con_after_first_imu_report : nx_con :=
  match nx_con_report_imu_timing nx_con_probe_init 1000 with
  | Some (c, _) => c
  | None => nx_con_probe_init
  end.

(** "The first table entry whose key is at least [v]". *)
Definition first_freq_at_least (v : Z) : option nx_con_rumble_freq_data :=
  find (fun e => v <=? freq e) nx_con_rumble_frequencies.

Definition first_amp_at_least (v : Z) : option nx_con_rumble_amp_data :=
  find (fun e => v <=? amp e) nx_con_rumble_amplitudes.

(** Keys in strictly ascending order, as a check and as a property. *)
Fixpoint ascending_b (keys : list Z) : bool :=
  match keys with
  | a :: (b :: _) as rest => (a <? b) && ascending_b rest
  | _ => true
  end.

Definition ascending (keys : list Z) : Prop :=
  forall (i j : nat) a b,
    keys !! i = Some a -> keys !! j = Some b -> (i < j)%nat -> a < b.

(** How [nx_con_encode_rumble] lays a frequency entry and an amplitude
    entry into bytes 0 to 2: the frequency bits survive the addition of
    the amplitude bits, and amplitude 0 adds none.  The high band fills
    bytes 0 and 1, the low band byte 2. *)
Definition freq_high_bits_kept (eh : nx_con_rumble_freq_data)
    (ea : nx_con_rumble_amp_data) : bool :=
  let b0 := u8 (Z.land (Z.shiftr (freq_high eh) 8) 0xFF) in
  let b1 := u8 (Z.land (freq_high eh) 0xFF + amp_high ea) in
  (b0 =? Z.shiftr (freq_high eh) 8) &&
  (Z.land b1 0x01 =? Z.land (freq_high eh) 0xFF) &&
  (negb (amp ea =? 0) || (b1 =? Z.land (freq_high eh) 0xFF)).

Definition freq_low_bits_kept (el : nx_con_rumble_freq_data)
    (ea : nx_con_rumble_amp_data) : bool :=
  let b2 := u8 (freq_low el + Z.land (Z.shiftr (amp_low ea) 8) 0xFF) in
  (Z.land b2 0x7F =? freq_low el) &&
  (negb (amp ea =? 0) || (b2 =? freq_low el)).

(** ** Runs of the rumble scheduler *)

(** The queue indices are inside the ring and the silence countdown is at
    most its reset value. *)
Definition rumble_wf (c : nx_con) : Prop :=
  0 <= rumble_queue_head c < NX_CON_RUMBLE_QUEUE_SIZE /\
  0 <= rumble_queue_tail c < NX_CON_RUMBLE_QUEUE_SIZE /\
  0 <= rumble_zero_countdown c <= NX_CON_RUMBLE_ZERO_AMP_PKT_CNT.

Section RumbleRuns.

Variable hw : transport.
Variable CONFIG_NINTENDO_FF : bool.
Variable BITS_PER_LONG : Z.

(** Input reports, each given by its vibrator byte and the clock
    reading at which it is handled; the result lists, report by report,
    whether the periodic sender fired. *)
Fixpoint rumble_reports (reports : list (Z * Z)) (w : world) : list bool * world :=
  match reports with
  | [] => ([], w)
  | (vibrator_report, msecs) :: reports =>
      let r := rumble_report hw CONFIG_NINTENDO_FF BITS_PER_LONG
                 vibrator_report msecs w in
      let rs := rumble_reports reports r.2 in
      (r.1 :: rs.1, rs.2)
  end.

(** Every report of the run is an opportunity for the periodic sender:
    it passes the gates that do not depend on the queue, in the state in
    which it arrives. *)
Fixpoint all_opportunities (reports : list (Z * Z)) (w : world) : Prop :=
  match reports with
  | [] => True
  | (vibrator_report, msecs) :: reports =>
      rumble_period_elapsed CONFIG_NINTENDO_FF BITS_PER_LONG (con w)
        vibrator_report msecs = true /\
      all_opportunities reports
        (rumble_report hw CONFIG_NINTENDO_FF BITS_PER_LONG
           vibrator_report msecs w).2
  end.

End RumbleRuns.

(** A clock that advances 60 ms per reading: every report handled at such
    a reading is a full rumble period after the last send. *)
Definition hw_steady : transport :=
  {| kmemdup_ok := fun _ => true;
     hid_hw_output_report := fun _ buf => Z.of_nat (length buf);
     incoming := fun _ => [];
     jiffies_msecs := fun n => 60 * Z.of_nat n |}.

(** Six input reports with a vibrator byte, each long after the one
    before. *)
Definition six_reports : list (Z * Z) :=
  [(1, 10000); (1, 20000); (1, 30000); (1, 40000); (1, 50000); (1, 60000)].

(** The session after [nintendo_hid_remove]. *)
Definition world_removed : world := upd_con nintendo_hid_remove world_init.

(** * Further parts of the driver *)

(** ** What the command path leaves alone *)

(** The session with the members "used for synchronous sends/receives"
    blanked: two sessions with the same image differ in those members
    only. *)
Definition forget_sync (c : nx_con) : nx_con :=
  set_msg_type NX_CON_MSG_TYPE_NONE
    (set_subcmd_num 0
       (set_input_buf []
          (set_received_resp false
             (set_usb_ack_match 0
                (set_subcmd_ack_match 0
                   (set_last_subcmd_sent_msecs 0 c)))))).

(** The arrays of the session have the sizes the struct gives them. *)
Definition nx_con_sized (c : nx_con) : Prop :=
  length (input_buf c) = Z.to_nat NX_CON_MAX_RESP_SIZE /\
  length (offset (accel_cal c)) = 3%nat /\
  length (scale (accel_cal c)) = 3%nat /\
  length (offset (gyro_cal c)) = 3%nat /\
  length (scale (gyro_cal c)) = 3%nat /\
  length (imu_cal_accel_divisor c) = 3%nat /\
  length (imu_cal_gyro_divisor c) = 3%nat.

(** A device that answers every command: any frame it is sent is
    acknowledged by [reply], whatever it asked. *)
Definition hw_replying (reply : list Z) : transport :=
  {| kmemdup_ok := fun _ => true;
     hid_hw_output_report := fun _ buf => Z.of_nat (length buf);
     incoming := fun _ => [reply];
     jiffies_msecs := fun n => 100 * Z.of_nat n |}.

(** A device that answers only the second of two attempts. *)
Definition hw_second_try (reply : list Z) : transport :=
  {| kmemdup_ok := fun _ => true;
     hid_hw_output_report := fun _ buf => Z.of_nat (length buf);
     incoming := fun n => match n with 1%nat => [reply] | _ => [] end;
     jiffies_msecs := fun n => 100 * Z.of_nat n |}.

(** The session between [nx_con_send_usb]'s two assignments and its call
    of [nx_con_hid_send_sync], for the handshake command. *)
Definition world_usb_pending : world :=
  upd_con (set_msg_type NX_CON_MSG_TYPE_USB)
    (upd_con (set_usb_ack_match 0x02) world_init).

(** The reply to the USB handshake, and to an SPI flash read of an erased
    block (see [erased_flash_reply]). *)
Definition usb_handshake_reply : list Z := [NX_CON_INPUT_USB_RESPONSE; 0x02].

(** A step of the command path: only the synchronisation members of the
    session may have changed, and the reply buffer kept its size. *)
Definition sync_only (w w' : world) : Prop :=
  forget_sync (con w') = forget_sync (con w) /\
  (length (input_buf (con w)) = Z.to_nat NX_CON_MAX_RESP_SIZE ->
   length (input_buf (con w')) = Z.to_nat NX_CON_MAX_RESP_SIZE).

(** The session with the four stick calibrations blanked as well. *)
Definition forget_stick_cal (c : nx_con) : nx_con :=
  set_left_stick_cal_x zero_stick_cal
    (set_left_stick_cal_y zero_stick_cal
       (set_right_stick_cal_x zero_stick_cal
          (set_right_stick_cal_y zero_stick_cal c))).

(** ** IMU calibration *)

(** The calibration [nx_con_request_imu_calibration] falls back to. *)
Definition dflt_accel_cal : nx_con_imu_cal :=
  {| offset := replicate 3 DFLT_ACCEL_OFFSET;
     scale := replicate 3 DFLT_ACCEL_SCALE |}.

Definition dflt_gyro_cal : nx_con_imu_cal :=
  {| offset := replicate 3 DFLT_GYRO_OFFSET;
     scale := replicate 3 DFLT_GYRO_SCALE |}.

(** Every entry of the two divisor arrays is non-zero. *)
Definition imu_divisors_nonzero (c : nx_con) : bool :=
  forallb
    (fun i : nat =>
       negb (imu_cal_gyro_divisor c !!! i =? 0) &&
       negb (imu_cal_accel_divisor c !!! i =? 0))
    (seq 0 3).

(** The members of the session the IMU scaling reads, which the timing
    code leaves alone. *)
Definition imu_cal_same (c c' : nx_con) : Prop :=
  type c' = type c /\
  accel_cal c' = accel_cal c /\
  gyro_cal c' = gyro_cal c /\
  imu_cal_accel_divisor c' = imu_cal_accel_divisor c /\
  imu_cal_gyro_divisor c' = imu_cal_gyro_divisor c.

(** A right Joy-Con with the default calibration after its first IMU
    report, taken at clock reading 1000. *)
Definition con_dflt_after_first_imu_report : nx_con :=
  match nx_con_report_imu_timing con_right_joycon_dflt 1000 with
  | Some (c, _) => c
  | None => con_right_joycon_dflt
  end.

(** ** Stick and battery reports *)

(** Offsets of the members of the packed [struct nx_con_input_report]. *)
Definition rep_bat_con : nat := 2.
Definition rep_button_status : nat := 3.
Definition rep_left_stick : nat := 6.
Definition rep_right_stick : nat := 9.

(** The axes the stick and d-pad code reports on. *)
Inductive abs_axis := ABS_X | ABS_Y | ABS_RX | ABS_RY | ABS_HAT0X | ABS_HAT0Y.

(** [nx_con_report_left_stick_inputs]: the two [input_report_abs] calls,
    in order; [rep] is the input report from its first byte. *)
Definition nx_con_report_left_stick_inputs (c : nx_con) (rep : list Z)
  : option (list (abs_axis * Z)) :=
  let raw_x := u16 (hid_field_extract (drop rep_left_stick rep) 0 12) in
  let raw_y := u16 (hid_field_extract (drop (rep_left_stick + 1) rep) 4 12) in
  x ← nx_con_map_stick_val (left_stick_cal_x c) raw_x;
  my ← nx_con_map_stick_val (left_stick_cal_y c) raw_y;
  let y := s32 (- my) in
  Some [(ABS_X, x); (ABS_Y, y)].

(** [nx_con_report_right_stick_inputs]. *)
Definition nx_con_report_right_stick_inputs (c : nx_con) (rep : list Z)
  : option (list (abs_axis * Z)) :=
  let raw_x := u16 (hid_field_extract (drop rep_right_stick rep) 0 12) in
  let raw_y := u16 (hid_field_extract (drop (rep_right_stick + 1) rep) 4 12) in
  x ← nx_con_map_stick_val (right_stick_cal_x c) raw_x;
  my ← nx_con_map_stick_val (right_stick_cal_y c) raw_y;
  let y := s32 (- my) in
  Some [(ABS_RX, x); (ABS_RY, y)].

(** A calibration with room on both sides of the centre. *)
Definition stick_cal_usable (cal : nx_con_stick_cal) : Prop :=
  stick_cal_12bit cal /\ cal_min cal < cal_center cal < cal_max cal.

(** [enum power_supply_capacity_level] and [POWER_SUPPLY_STATUS_*], as
    far as the driver uses them. *)
Inductive power_supply_capacity_level :=
| POWER_SUPPLY_CAPACITY_LEVEL_UNKNOWN
| POWER_SUPPLY_CAPACITY_LEVEL_CRITICAL
| POWER_SUPPLY_CAPACITY_LEVEL_LOW
| POWER_SUPPLY_CAPACITY_LEVEL_NORMAL
| POWER_SUPPLY_CAPACITY_LEVEL_HIGH
| POWER_SUPPLY_CAPACITY_LEVEL_FULL.

Inductive power_supply_status :=
| POWER_SUPPLY_STATUS_CHARGING
| POWER_SUPPLY_STATUS_DISCHARGING
| POWER_SUPPLY_STATUS_FULL.

Inductive power_supply_property :=
| POWER_SUPPLY_PROP_PRESENT
| POWER_SUPPLY_PROP_SCOPE
| POWER_SUPPLY_PROP_CAPACITY_LEVEL
| POWER_SUPPLY_PROP_STATUS
| POWER_SUPPLY_PROP_OTHER.

(** What [val->intval] is set to. *)
Inductive power_supply_propval :=
| PropPresent (present : Z)
| PropScopeDevice
| PropCapacityLevel (level : power_supply_capacity_level)
| PropStatus (status : power_supply_status).

(** The battery members of [struct nx_con]. *)
Record nx_con_battery := {
  battery_capacity : power_supply_capacity_level;
  battery_charging : bool;
  host_powered : bool;
}.

(** [nx_con_parse_battery_status], on [rep->bat_con]. *)
Definition nx_con_parse_battery_status (bat_con : Z) : nx_con_battery :=
  let tmp := u8 bat_con in
  let powered := negb (Z.land tmp (Z.shiftl 1 0) =? 0) in
  let charging := negb (Z.land tmp (Z.shiftl 1 4) =? 0) in
  let tmp := u8 (Z.shiftr tmp 5) in
  let capacity :=
    match tmp with
    | 0 => POWER_SUPPLY_CAPACITY_LEVEL_CRITICAL
    | 1 => POWER_SUPPLY_CAPACITY_LEVEL_LOW
    | 2 => POWER_SUPPLY_CAPACITY_LEVEL_NORMAL
    | 3 => POWER_SUPPLY_CAPACITY_LEVEL_HIGH
    | 4 => POWER_SUPPLY_CAPACITY_LEVEL_FULL
    | _ => POWER_SUPPLY_CAPACITY_LEVEL_UNKNOWN
    end in
  {| battery_capacity := capacity; battery_charging := charging;
     host_powered := powered |}.

(** [nx_con_battery_get_property]: the return value and the value
    stored, if any. *)
Definition nx_con_battery_get_property (b : nx_con_battery)
    (prop : power_supply_property) : Z * option power_supply_propval :=
  let capacity := battery_capacity b in
  let charging := battery_charging b in
  let powered := host_powered b in
  match prop with
  | POWER_SUPPLY_PROP_PRESENT => (0, Some (PropPresent 1))
  | POWER_SUPPLY_PROP_SCOPE => (0, Some PropScopeDevice)
  | POWER_SUPPLY_PROP_CAPACITY_LEVEL => (0, Some (PropCapacityLevel capacity))
  | POWER_SUPPLY_PROP_STATUS =>
      (0, Some (PropStatus
                  (if charging then POWER_SUPPLY_STATUS_CHARGING
                   else if match capacity with
                           | POWER_SUPPLY_CAPACITY_LEVEL_FULL => true
                           | _ => false
                           end && powered
                        then POWER_SUPPLY_STATUS_FULL
                        else POWER_SUPPLY_STATUS_DISCHARGING)))
  | POWER_SUPPLY_PROP_OTHER => (- EINVAL, None)
  end.

(** The battery status user space reads after a report with this
    [bat_con] byte. *)
Definition battery_status_of (bat_con : Z) : Z * option power_supply_propval :=
  nx_con_battery_get_property (nx_con_parse_battery_status bat_con)
    POWER_SUPPLY_PROP_STATUS.

#[global] Instance power_supply_capacity_level_eq_dec :
  EqDecision power_supply_capacity_level.
Proof. solve_decision. Defined.

#[global] Instance power_supply_status_eq_dec : EqDecision power_supply_status.
Proof. solve_decision. Defined.

#[global] Instance power_supply_propval_eq_dec : EqDecision power_supply_propval.
Proof. solve_decision. Defined.

#[global] Instance nx_con_battery_eq_dec : EqDecision nx_con_battery.
Proof. solve_decision. Defined.

(** A session with the default calibration on both sticks. *)
Definition con_dflt_sticks : nx_con :=
  set_right_stick_cal_y dflt_stick_cal
    (set_right_stick_cal_x dflt_stick_cal
       (set_left_stick_cal_y dflt_stick_cal
          (set_left_stick_cal_x dflt_stick_cal nx_con_probe_init))).

(** ** Rumble requests from end to end *)

(** [amp * (u32)nx_con_max_rumble_amp / 65535], stored in the [u16 amp]
    of [nx_con_set_rumble]. *)
Definition rumble_amp_scaled (a : Z) : Z :=
  u16 (u32 (a * nx_con_max_rumble_amp) ÷ 65535).

(** The eight bytes [nx_con_set_rumble] puts in the queue: the left
    motor's four, then the right motor's. *)
Definition rumble_request_data (c : nx_con) (amp_r amp_l : Z) : list Z :=
  nx_con_encode_rumble (rumble_ll_freq c) (rumble_lh_freq c)
    (rumble_amp_scaled amp_l) ++
  nx_con_encode_rumble (rumble_rl_freq c) (rumble_rh_freq c)
    (rumble_amp_scaled amp_r).

(** The rumble-only frames of a run of the worker that starts with the
    tail [k] slots behind the head: the slot at the tail first, then slot
    after slot up to the head, each under the next packet number; [n]
    counts the sends, for the transport's answer. *)
Fixpoint rumble_worker_frames (hw : transport) (rd : list (list Z))
    (t p : Z) (n : nat) (k : nat) : list event :=
  let frame :=
    [NX_CON_OUTPUT_RUMBLE_ONLY; p] ++
    take (Z.to_nat NX_CON_RUMBLE_DATA_SIZE) (rd !!! Z.to_nat t) in
  EvOutputReport frame (s32 (hid_hw_output_report hw n frame)) ::
  match k with
  | O => []
  | S k => rumble_worker_frames hw rd ((t + 1) mod 8) ((p + 1) mod 16) (S n) k
  end.

(** A session whose rumble queue is drained, as the worker leaves it. *)
Definition world_rumble_idle : world :=
  upd_con (set_rumble_queue_head 0) world_init.

(** [nx_con_configure_rumble] under [CONFIG_NINTENDO_FF], as far as the
    session goes; [msecs] is the clock reading it ends on. *)
Definition nx_con_configure_rumble (c : nx_con) (msecs : Z) : nx_con :=
  let c := set_rumble_ll_freq NX_CON_RUMBLE_DFLT_LOW_FREQ c in
  let c := set_rumble_lh_freq NX_CON_RUMBLE_DFLT_HIGH_FREQ c in
  let c := set_rumble_rl_freq NX_CON_RUMBLE_DFLT_LOW_FREQ c in
  let c := set_rumble_rh_freq NX_CON_RUMBLE_DFLT_HIGH_FREQ c in
  let c := nx_con_clamp_rumble_freqs c in
  let c := (nx_con_set_rumble c 0 0 false).1 in
  set_rumble_msecs (u32 msecs) c.

(** The rumble data that keeps both motors still at the default
    frequencies. *)
Definition rumble_neutral_data : list Z :=
  [0x00; 0x01; 0x40; 0x40; 0x00; 0x01; 0x40; 0x40].

(** ** Subcommands that are answered *)

Definition NX_CON_SUBCMD_REQ_DEV_INFO : Z := 0x02.

(** The frame [nx_con_send_subcmd] sends for a session: output id, packet
    number, the rumble data at the tail, the subcommand id and its
    arguments. *)
Definition subcmd_frame (c : nx_con) (subcmd_id : Z) (data : list Z) : list Z :=
  [NX_CON_OUTPUT_RUMBLE_AND_SUBCMD; subcmd_num c] ++ rumble_at_tail c ++
  [subcmd_id] ++ data.

(** The session as [nx_con_send_subcmd] has it when it hands the frame
    to [nx_con_hid_send_sync]. *)
Definition subcmd_pending (subcmd_id : Z) (c : nx_con) : nx_con :=
  set_msg_type NX_CON_MSG_TYPE_SUBCMD
    (set_subcmd_ack_match subcmd_id (bump_subcmd_num c)).

(** Offset in [con->input_buf] of [report->subcmd_reply.data]. *)
Definition subcmd_reply_data_offset : nat := 15.

Section DeviceInfo.

Variable hw : transport.
Variable HZ : Z.

(** [nx_con_request_device_info].  [mac_addr_str_ok] says whether
    [devm_kasprintf] returns a string; the second component is what the
    loop wrote to [con->mac_addr], a member the session record does not
    carry. *)
Definition nx_con_request_device_info (mac_addr_str_ok : bool)
  : M (Z * option (list Z)) :=
  let* ret := nx_con_send_subcmd hw NX_CON_SUBCMD_REQ_DEV_INFO [] HZ in
  if negb (ret =? 0) then mreturn (ret, None)
  else
    let* c := get_con in
    let report := input_buf c in
    let mac_addr :=
      (fun j : nat => report !!! (subcmd_reply_data_offset + (4 + j))%nat)
        <$> seq 0 6 in
    if negb mac_addr_str_ok then mreturn (- ENOMEM, Some mac_addr)
    else
      let* _ := modify_con
                  (set_type (report !!! (subcmd_reply_data_offset + 2)%nat)) in
      mreturn (0, Some mac_addr).

End DeviceInfo.

(** A reply to a flash read whose data starts with the calibration
    magic, and a reply to the device-info request of a Pro Controller. *)
Definition flash_magic_reply : list Z :=
  [NX_CON_INPUT_SUBCMD_REPLY] ++ replicate 13 0 ++
  [NX_CON_SUBCMD_SPI_FLASH_READ] ++ replicate 5 0 ++
  [NX_CON_CAL_USR_MAGIC_0; NX_CON_CAL_USR_MAGIC_1] ++ replicate 27 0.

Definition dev_info_reply : list Z :=
  [NX_CON_INPUT_SUBCMD_REPLY] ++ replicate 13 0 ++
  [NX_CON_SUBCMD_REQ_DEV_INFO; 0x04; 0x21; NX_CON_TYPE_PRO; 0x02;
   0xAA; 0xBB; 0xCC; 0xDD; 0xEE; 0xFF] ++ replicate 24 0.

(** The session holds the default IMU calibration and its divisors. *)
Definition imu_cal_is_dflt (c : nx_con) : Prop :=
  accel_cal c = dflt_accel_cal /\
  gyro_cal c = dflt_gyro_cal /\
  imu_cal_accel_divisor c = replicate 3 DFLT_ACCEL_SCALE /\
  imu_cal_gyro_divisor c = replicate 3 DFLT_GYRO_SCALE.

(** ** Player LEDs *)

Definition NX_CON_SUBCMD_SET_PLAYER_LIGHTS : Z := 0x30.
Definition NX_CON_NUM_LEDS : Z := 4.

Section Leds.

Variable hw : transport.
Variable HZ : Z.

(** [nx_con_set_player_leds]: [flash] and [on] are [u8] parameters. *)
Definition nx_con_set_player_leds (flash on : Z) : M Z :=
  let flash := u8 flash in
  let on := u8 on in
  nx_con_send_subcmd hw NX_CON_SUBCMD_SET_PLAYER_LIGHTS
    [u8 (Z.lor (Z.shiftl flash 4) on)] (HZ ÷ 4).

(** [nx_con_player_led_brightness_set] for a device with controller
    data.  [leds] holds [con->leds[i].brightness] ([unsigned int]);
    [num] is where the first loop stops: the index of [led] in
    [con->leds], or [NX_CON_NUM_LEDS] when it is not one of them. *)
Definition nx_con_player_led_brightness_set (leds : list Z) (num : Z)
    (brightness : Z) : M Z :=
  if NX_CON_NUM_LEDS <=? num then mreturn (- EINVAL)
  else
    let val :=
      foldl
        (fun val (i : nat) =>
           let b := if Z.of_nat i =? num then brightness else leds !!! i in
           s32 (Z.lor (u32 val) (u32 (Z.shiftl b (Z.of_nat i)))))
        0 (seq 0 (Z.to_nat NX_CON_NUM_LEDS)) in
    nx_con_set_player_leds 0 val.

End Leds.

(** * Properties *)

(** ** Machine integers *)

Lemma u8_range z : 0 <= u8 z < 256.
Proof. unfold u8, wrap_u. apply Z.mod_pos_bound. lia. Qed.

Lemma u32_range z : 0 <= u32 z < 2 ^ 32.
Proof. unfold u32, wrap_u. apply Z.mod_pos_bound. lia. Qed.

Lemma u32_small z : 0 <= z < 2 ^ 32 -> u32 z = z.
Proof. intros H. unfold u32, wrap_u. apply Z.mod_small. lia. Qed.

Lemma s32_small z : - 2 ^ 31 <= z < 2 ^ 31 -> s32 z = z.
Proof.
  intros H. unfold s32, wrap_s.
  rewrite Z.mod_small; lia.
Qed.

Lemma s16_range z : - 2 ^ 15 <= s16 z < 2 ^ 15.
Proof.
  unfold s16, wrap_s.
  pose proof (Z.mod_pos_bound (z + 2 ^ (16 - 1)) (2 ^ 16)). lia.
Qed.

Lemma hid_field_extract_range report offset n :
  0 <= n -> 0 <= hid_field_extract report offset n < 2 ^ n.
Proof.
  intros Hn. unfold hid_field_extract.
  rewrite Z.land_ones by lia. apply Z.mod_pos_bound. lia.
Qed.

(** ** Stick normalisation *)

Lemma s32_div_small a b :
  b <> 0 -> - 2 ^ 31 <= a ÷ b < 2 ^ 31 -> s32_div a b = Some (a ÷ b).
Proof.
  intros Hb Hq. unfold s32_div, c_div.
  destruct (Z.eqb_spec b 0) as [->|_]; [done|].
  simpl. by rewrite s32_small.
Qed.

Lemma clamp_id v lo hi : lo <= v <= hi -> clamp v lo hi = v.
Proof. unfold clamp. lia. Qed.

Lemma clamp_range v lo hi : lo <= hi -> lo <= clamp v lo hi <= hi.
Proof. unfold clamp. lia. Qed.

Section StickMap.

Variable cal : nx_con_stick_cal.
Hypothesis Hfit : stick_cal_12bit cal.
Hypothesis Hord : cal_min cal < cal_center cal < cal_max cal.

Lemma stick_above_range v :
  cal_center cal <= v <= cal_max cal -> 0 <= stick_above cal v <= 32767.
Proof.
  intros Hv. unfold stick_above. split.
  - apply Z.quot_pos; lia.
  - transitivity ((32767 * (cal_max cal - cal_center cal)) ÷ (cal_max cal - cal_center cal)).
    + apply Z.quot_le_mono; lia.
    + rewrite Z.quot_mul; lia.
Qed.

Lemma stick_below_range v :
  cal_min cal <= v <= cal_center cal -> - 32767 <= stick_below cal v <= 0.
Proof.
  intros Hv. unfold stick_below. split.
  - transitivity ((- 32767 * (cal_center cal - cal_min cal)) ÷ (cal_center cal - cal_min cal)).
    + rewrite Z.quot_mul; lia.
    + apply Z.quot_le_mono; lia.
  - replace 0 with (0 ÷ (cal_center cal - cal_min cal)) by (apply Z.quot_0_l; lia).
    apply Z.quot_le_mono; lia.
Qed.

Lemma stick_linear_range v :
  cal_min cal <= v <= cal_max cal -> - 32767 <= stick_linear cal v <= 32767.
Proof.
  intros Hv. unfold stick_linear.
  destruct (Z.ltb_spec (cal_center cal) v).
  - pose proof (stick_above_range v). lia.
  - pose proof (stick_below_range v). lia.
Qed.

Lemma stick_linear_mono v w :
  cal_min cal <= v -> v <= w -> w <= cal_max cal ->
  stick_linear cal v <= stick_linear cal w.
Proof.
  intros Hv Hvw Hw. unfold stick_linear.
  destruct (Z.ltb_spec (cal_center cal) v), (Z.ltb_spec (cal_center cal) w);
    try lia.
  - unfold stick_above. apply Z.quot_le_mono; lia.
  - pose proof (stick_below_range v). pose proof (stick_above_range w). lia.
  - unfold stick_below. apply Z.quot_le_mono; lia.
Qed.

(** On calibrated raw values the [s32] computation never wraps, never
    traps, and the clamp is the identity. *)
Lemma nx_con_map_stick_val_linear v :
  cal_min cal <= v <= cal_max cal ->
  nx_con_map_stick_val cal v = Some (stick_linear cal v).
Proof.
  intros Hv. pose proof (stick_linear_range v Hv) as Hr.
  destruct Hfit as (Hc & Hmax & Hmin).
  unfold nx_con_map_stick_val, stick_linear in *.
  unfold NX_CON_MAX_STICK_MAG.
  destruct (Z.ltb_spec (cal_center cal) v).
  - unfold stick_above in Hr.
    rewrite (s32_small (v - _)), (s32_small (_ * 32767)), (s32_small (cal_max cal - _)) by lia.
    rewrite s32_div_small by lia. simpl.
    by rewrite clamp_id by lia.
  - unfold stick_below in Hr.
    rewrite (s32_small (_ - v)), (s32_small (_ * - 32767)), (s32_small (_ - cal_min cal)) by lia.
    rewrite s32_div_small by lia. simpl.
    by rewrite clamp_id by lia.
Qed.

End StickMap.

Lemma nx_con_map_stick_val_clamped cal v r :
  nx_con_map_stick_val cal v = Some r -> - 32767 <= r <= 32767.
Proof.
  unfold nx_con_map_stick_val. intros H.
  apply bind_Some in H as (x & _ & [= <-]).
  apply clamp_range. unfold NX_CON_MAX_STICK_MAG. lia.
Qed.

(** C2. For a calibration the loader can store with [min < center < max]:
    every raw value between [min] and [max] is mapped, without wrap-around,
    to [(v - center) * 32767 / (max - center)] above the centre and to
    [(center - v) * -32767 / (center - min)] at or below it; the result
    lies in [-32767, 32767] (a result of the function always does); the
    map is non-decreasing; the centre maps to 0; and with centre 2000,
    min 500 and max 3500 the values 3500, 500 and 2000 map to 32767,
    -32767 and 0. *)
Theorem nx_con_map_stick_val_spec (cal : nx_con_stick_cal) :
  stick_cal_12bit cal ->
  cal_min cal < cal_center cal < cal_max cal ->
  (forall v, cal_min cal <= v <= cal_max cal ->
     exists r, nx_con_map_stick_val cal v = Some r /\
       - 32767 <= r <= 32767 /\
       (cal_center cal < v ->
          r = ((v - cal_center cal) * 32767) ÷ (cal_max cal - cal_center cal)) /\
       (v <= cal_center cal ->
          r = ((cal_center cal - v) * - 32767) ÷ (cal_center cal - cal_min cal))) /\
  (forall v w rv rw,
     cal_min cal <= v -> v <= w -> w <= cal_max cal ->
     nx_con_map_stick_val cal v = Some rv ->
     nx_con_map_stick_val cal w = Some rw -> rv <= rw) /\
  (forall v r, nx_con_map_stick_val cal v = Some r -> - 32767 <= r <= 32767) /\
  nx_con_map_stick_val cal (cal_center cal) = Some 0 /\
  (let dflt := {| cal_max := 3500; cal_min := 500; cal_center := 2000 |} in
   nx_con_map_stick_val dflt 3500 = Some 32767 /\
   nx_con_map_stick_val dflt 500 = Some (- 32767) /\
   nx_con_map_stick_val dflt 2000 = Some 0).
Proof.
  intros Hfit Hord. repeat split.
  - intros v Hv. exists (stick_linear cal v).
    split; [by apply nx_con_map_stick_val_linear|].
    split; [by apply stick_linear_range|].
    unfold stick_linear, stick_above, stick_below.
    split; intros Hc; destruct (Z.ltb_spec (cal_center cal) v); lia.
  - intros v w rv rw Hv Hvw Hw Ev Ew.
    rewrite nx_con_map_stick_val_linear in Ev, Ew by (done || lia).
    injection Ev as <-. injection Ew as <-.
    by apply stick_linear_mono.
  - eapply nx_con_map_stick_val_clamped; eassumption.
  - eapply nx_con_map_stick_val_clamped; eassumption.
  - rewrite nx_con_map_stick_val_linear by (done || lia).
    unfold stick_linear, stick_below.
    rewrite Z.ltb_irrefl, Z.sub_diag. simpl. by rewrite Z.quot_0_l by lia.
Qed.

Lemma nx_con_map_stick_val_spec_witness :
  stick_cal_12bit dflt_stick_cal /\
  (forall v r, nx_con_map_stick_val dflt_stick_cal v = Some r ->
     - 32767 <= r <= 32767).
Proof.
  assert (Hfit : stick_cal_12bit dflt_stick_cal) by (vm_compute; intuition congruence).
  split; [exact Hfit|].
  refine (proj1 (proj2 (proj2 (nx_con_map_stick_val_spec dflt_stick_cal Hfit _)))).
  vm_compute. done.
Defined.

(** ** The synchronous command path *)

Lemma nx_con_state_eqb_eq a b : nx_con_state_eqb a b = true <-> a = b.
Proof. destruct a, b; simpl; split; congruence. Qed.

Lemma mbind_w_run {R S} (m : M R) (k : R -> M S) w :
  mbind_w m k w = k (m w).1 (m w).2.
Proof. unfold mbind_w. by destruct (m w). Qed.

(** One step through a sequence of monadic commands. *)
Ltac mstep := rewrite mbind_w_run; cbn [fst snd].
Ltac msteps := repeat mstep.

Section SyncFacts.

Variable hw : transport.

Lemma send_subcmd_removed w subcmd_id data timeout :
  state (con w) = NX_CON_STATE_REMOVED ->
  nx_con_send_subcmd hw subcmd_id data timeout w = (- ENODEV, w).
Proof.
  intros Hst. unfold nx_con_send_subcmd. mstep.
  unfold get_con at 1. cbn [fst snd]. by rewrite Hst.
Qed.

Lemma send_rumble_data_removed w :
  state (con w) = NX_CON_STATE_REMOVED ->
  nx_con_send_rumble_data hw w = (- ENODEV, w).
Proof.
  intros Hst. unfold nx_con_send_rumble_data. mstep.
  unfold get_con at 1. cbn [fst snd]. by rewrite Hst.
Qed.

Lemma rumble_worker_loop_S fuel w :
  nx_con_rumble_worker_loop hw (S fuel) w =
  let w1 := (nx_con_send_rumble_data hw w).2 in
  let w2 := upd_con (set_rumble_msecs (u32 (jiffies_msecs hw (n_clock w1))))
              (tick_clock w1) in
  if negb (rumble_queue_tail (con w2) =? rumble_queue_head (con w2)) then
    nx_con_rumble_worker_loop hw fuel
      (upd_con
         (fun c =>
            let c := set_rumble_queue_tail (s32 (rumble_queue_tail c + 1)) c in
            if NX_CON_RUMBLE_QUEUE_SIZE <=? rumble_queue_tail c
            then set_rumble_queue_tail 0 c else c) w2)
  else (true, w2).
Proof.
  cbn [nx_con_rumble_worker_loop]. msteps.
  unfold modify_con, get_con, mreturn. cbn [fst snd].
  by destruct (negb _).
Qed.

Lemma rumble_worker_loop_removed fuel w :
  state (con w) = NX_CON_STATE_REMOVED ->
  trace (nx_con_rumble_worker_loop hw fuel w).2 = trace w /\
  n_sends (nx_con_rumble_worker_loop hw fuel w).2 = n_sends w.
Proof.
  revert w. induction fuel as [|fuel IH]; intros w Hst; [done|].
  rewrite rumble_worker_loop_S, send_rumble_data_removed by done.
  cbn zeta. cbn [fst snd].
  destruct (negb _); [|done].
  match goal with |- context [nx_con_rumble_worker_loop hw fuel ?w'] =>
    destruct (IH w') as [-> ->]; [|done] end.
  simpl. by destruct (_ <=? _).
Qed.

End SyncFacts.

(** C5. In state [Removed], [nx_con_send_subcmd] and
    [nx_con_send_rumble_data] return [-ENODEV] and leave the world as it
    was: no frame reaches the transport, no sleep is started, and the
    sequence counter is not touched.  The worker that sends the queued
    rumble data therefore emits nothing either, whatever the queue
    holds. *)
Theorem removed_returns_enodev_without_send (hw : transport) (w : world) :
  state (con w) = NX_CON_STATE_REMOVED ->
  (forall subcmd_id data timeout,
     nx_con_send_subcmd hw subcmd_id data timeout w = (- ENODEV, w)) /\
  nx_con_send_rumble_data hw w = (- ENODEV, w) /\
  (forall fuel,
     trace (nx_con_rumble_worker_loop hw fuel w).2 = trace w /\
     n_sends (nx_con_rumble_worker_loop hw fuel w).2 = n_sends w).
Proof.
  intros Hst. split; [|split].
  - intros. by apply send_subcmd_removed.
  - by apply send_rumble_data_removed.
  - intros. by apply rumble_worker_loop_removed.
Qed.

Lemma removed_returns_enodev_without_send_witness :
  state (con world_removed) = NX_CON_STATE_REMOVED /\
  nx_con_send_subcmd hw_silent 0x30 [0x01] 250 world_removed =
    (- ENODEV, world_removed) /\
  nx_con_send_rumble_data hw_silent world_removed = (- ENODEV, world_removed).
Proof.
  split; [reflexivity|].
  destruct (removed_returns_enodev_without_send hw_silent world_removed eq_refl)
    as (Hs & Hr & _).
  split; [apply Hs|exact Hr].
Defined.

(** ** Time-out, retry and transport failure *)

Lemma reply_matches_ext c c' data :
  msg_type c' = msg_type c ->
  usb_ack_match c' = usb_ack_match c ->
  subcmd_ack_match c' = subcmd_ack_match c ->
  reply_matches c' data = reply_matches c data.
Proof. intros H1 H2 H3. unfold reply_matches. by rewrite H1, H2, H3. Qed.

Lemma deliver_no_match c frames :
  Forall (fun data => reply_matches c data = false) frames ->
  deliver c frames = c.
Proof.
  induction 1 as [|data frames Hd _ IH]; [done|].
  unfold deliver in *. cbn [foldl].
  unfold nx_con_handle_event at 2. by rewrite Hd.
Qed.

Lemma upd_con_same f w : f (con w) = con w -> upd_con f w = w.
Proof. intros H. destruct w. unfold upd_con. cbn in *. by rewrite H. Qed.

Section SendSync.

Variable hw : transport.

Lemma hid_send_nomem data w :
  kmemdup_ok hw (n_sends w) = false ->
  __nx_con_hid_send hw data w = (- ENOMEM, tick_send w).
Proof.
  intros H. unfold __nx_con_hid_send. mstep.
  unfold next_send. cbn [fst snd]. by rewrite H.
Qed.

Lemma hid_send_done data w :
  kmemdup_ok hw (n_sends w) = true ->
  __nx_con_hid_send hw data w =
  (s32 (hid_hw_output_report hw (n_sends w) data),
   add_event
     (EvOutputReport data (s32 (hid_hw_output_report hw (n_sends w) data)))
     (tick_send w)).
Proof.
  intros H. unfold __nx_con_hid_send. mstep.
  unfold next_send. cbn [fst snd]. rewrite H. cbn [negb]. by mstep.
Qed.

Lemma wait_resp_timeout timeout w :
  received_resp (con w) = false ->
  Forall (fun data => reply_matches (con w) data = false)
         (incoming hw (n_waits w)) ->
  wait_event_timeout_resp hw timeout w =
  (false, add_event (EvWaitResp timeout false) (tick_wait w)).
Proof.
  intros Hr Hno. unfold wait_event_timeout_resp. mstep.
  unfold get_con at 1 2. cbn [fst snd]. rewrite Hr. msteps.
  unfold next_wait, modify_con, get_con, mreturn, log_event. cbn [fst snd].
  rewrite upd_con_same by (by apply deliver_no_match).
  cbn. by rewrite Hr.
Qed.

Lemma enforce_subcmd_rate_run w :
  nx_con_enforce_subcmd_rate hw w =
  (tt, upd_con (set_last_subcmd_sent_msecs (u32 (jiffies_msecs hw (n_clock w))))
         (tick_clock w)).
Proof. unfold nx_con_enforce_subcmd_rate. by mstep. Qed.

Lemma send_sync_loop_S tries ret data timeout w :
  nx_con_hid_send_sync_loop hw (S tries) ret data timeout w =
  let w1 := (nx_con_enforce_subcmd_rate hw w).2 in
  let r := __nx_con_hid_send hw data w1 in
  if r.1 <? 0 then (inl r.1, upd_con (set_input_buf zero_input_buf) r.2)
  else
    let wt := wait_event_timeout_resp hw timeout r.2 in
    if negb wt.1 then
      nx_con_hid_send_sync_loop hw tries (- ETIMEDOUT) data timeout
        (upd_con (set_input_buf zero_input_buf) wt.2)
    else (inr 0, wt.2).
Proof.
  cbn [nx_con_hid_send_sync_loop]. msteps. cbn zeta.
  destruct (_ <? 0); [by mstep|].
  mstep. destruct (negb _); [by mstep|done].
Qed.

(** A send the transport refuses ends the call at once: the error is
    returned, no sleep is started and nothing further is sent. *)
Lemma send_sync_loop_send_error tries ret data timeout w :
  let n := n_sends w in
  kmemdup_ok hw n = false \/ s32 (hid_hw_output_report hw n data) < 0 ->
  exists e w',
    nx_con_hid_send_sync_loop hw (S tries) ret data timeout w = (inl e, w') /\
    e < 0 /\
    e = (if kmemdup_ok hw n then s32 (hid_hw_output_report hw n data)
         else - ENOMEM) /\
    trace w' = trace w ++
      (if kmemdup_ok hw n then [EvOutputReport data e] else []) /\
    n_sends w' = S n /\ n_waits w' = n_waits w.
Proof.
  intros n H. rewrite send_sync_loop_S, enforce_subcmd_rate_run.
  cbn zeta. cbn [fst snd].
  destruct (kmemdup_ok hw n) eqn:Hk.
  - destruct H as [|H]; [done|].
    rewrite hid_send_done by done. cbn [fst snd n_sends upd_con tick_clock].
    fold n. destruct (Z.ltb_spec (s32 (hid_hw_output_report hw n data)) 0); [|lia].
    eexists _, _. split; [done|]. by cbn.
  - rewrite hid_send_nomem by done. cbn [fst snd].
    eexists _, _. split; [done|]. cbn. rewrite app_nil_r. done.
Qed.

(** A send that is accepted and then not answered: the loop goes round
    again with [-ETIMEDOUT] in [ret]. *)
Lemma send_sync_loop_timeout tries ret data timeout w :
  let n := n_sends w in
  let r := s32 (hid_hw_output_report hw n data) in
  kmemdup_ok hw n = true -> 0 <= r ->
  received_resp (con w) = false ->
  Forall (fun d => reply_matches (con w) d = false) (incoming hw (n_waits w)) ->
  exists w1,
    nx_con_hid_send_sync_loop hw (S tries) ret data timeout w =
    nx_con_hid_send_sync_loop hw tries (- ETIMEDOUT) data timeout w1 /\
    trace w1 = trace w ++ [EvOutputReport data r; EvWaitResp timeout false] /\
    n_sends w1 = S n /\ n_waits w1 = S (n_waits w) /\
    received_resp (con w1) = false /\
    (forall d, reply_matches (con w1) d = reply_matches (con w) d) /\
    state (con w1) = state (con w) /\
    subcmd_num (con w1) = subcmd_num (con w).
Proof.
  intros n r Hk Hr Hresp Hno.
  rewrite send_sync_loop_S, enforce_subcmd_rate_run.
  cbn zeta. cbn [fst snd].
  rewrite hid_send_done by done. cbn [fst snd n_sends upd_con tick_clock].
  fold n r. destruct (Z.ltb_spec r 0); [lia|].
  rewrite wait_resp_timeout by done. cbn [fst snd negb].
  eexists. split; [done|].
  cbn. rewrite <- app_assoc. done.
Qed.

End SendSync.

(** C4. [nx_con_hid_send_sync] with no reply pending: when both sends are
    accepted and no matching reply arrives in either window, it makes
    exactly two send attempts, each followed by one sleep, and returns
    [-ETIMEDOUT]; when the transport refuses the first send (the copy
    cannot be allocated, or the output report fails), it returns that
    error with no sleep and no second attempt; and when the first attempt
    times out and the transport refuses the retry, it returns that error,
    again without a further sleep. *)
Theorem nx_con_hid_send_sync_retries_once
    (hw : transport) (data : list Z) (timeout : Z) (w : world) :
  let n := n_sends w in
  let r0 := s32 (hid_hw_output_report hw n data) in
  let r1 := s32 (hid_hw_output_report hw (S n) data) in
  let unanswered k :=
    Forall (fun d => reply_matches (con w) d = false) (incoming hw k) in
  received_resp (con w) = false ->
  (kmemdup_ok hw n = true -> 0 <= r0 -> unanswered (n_waits w) ->
   kmemdup_ok hw (S n) = true -> 0 <= r1 -> unanswered (S (n_waits w)) ->
   exists w',
     nx_con_hid_send_sync hw data timeout w = (- ETIMEDOUT, w') /\
     trace w' = trace w ++
       [EvOutputReport data r0; EvWaitResp timeout false;
        EvOutputReport data r1; EvWaitResp timeout false] /\
     n_sends w' = (n + 2)%nat) /\
  (kmemdup_ok hw n = false \/ r0 < 0 ->
   exists e w',
     nx_con_hid_send_sync hw data timeout w = (e, w') /\
     e = (if kmemdup_ok hw n then r0 else - ENOMEM) /\
     trace w' = trace w ++
       (if kmemdup_ok hw n then [EvOutputReport data e] else []) /\
     n_sends w' = S n /\ n_waits w' = n_waits w) /\
  (kmemdup_ok hw n = true -> 0 <= r0 -> unanswered (n_waits w) ->
   kmemdup_ok hw (S n) = false \/ r1 < 0 ->
   exists e w',
     nx_con_hid_send_sync hw data timeout w = (e, w') /\
     e = (if kmemdup_ok hw (S n) then r1 else - ENOMEM) /\
     trace w' = trace w ++
       [EvOutputReport data r0; EvWaitResp timeout false] ++
       (if kmemdup_ok hw (S n) then [EvOutputReport data e] else []) /\
     n_sends w' = (n + 2)%nat /\ n_waits w' = S (n_waits w)).
Proof.
  intros n r0 r1 unanswered Hresp. unfold nx_con_hid_send_sync.
  split; [|split].
  - intros Hk0 Hr0 Hu0 Hk1 Hr1 Hu1. mstep.
    destruct (send_sync_loop_timeout hw 1 0 data timeout w)
      as (w1 & -> & Htr1 & Hn1 & Hw1 & Hresp1 & Hm1 & _); try done.
    destruct (send_sync_loop_timeout hw 0 (- ETIMEDOUT) data timeout w1)
      as (w2 & -> & Htr2 & Hn2 & Hw2 & _); try done.
    + by rewrite Hn1.
    + rewrite Hn1. done.
    + rewrite Hw1. eapply Forall_impl; [exact Hu1|].
      intros d Hd. cbn beta in *. by rewrite Hm1.
    + cbn [nx_con_hid_send_sync_loop mreturn fst snd]. mstep.
      eexists. split; [done|]. cbn -[ETIMEDOUT].
      rewrite Htr2, Htr1, Hn1, <- app_assoc. split; [done|]. lia.
  - intros Hfail. mstep.
    destruct (send_sync_loop_send_error hw 1 0 data timeout w Hfail)
      as (e & w' & -> & _ & He & Htr & Hn & Hw).
    cbn [fst snd mreturn]. by eexists _, _.
  - intros Hk0 Hr0 Hu0 Hfail. mstep.
    destruct (send_sync_loop_timeout hw 1 0 data timeout w)
      as (w1 & -> & Htr1 & Hn1 & Hw1 & Hresp1 & Hm1 & _); try done.
    destruct (send_sync_loop_send_error hw 0 (- ETIMEDOUT) data timeout w1)
      as (e & w' & -> & _ & He & Htr & Hn & Hw).
    { by rewrite Hn1. }
    cbn [fst snd mreturn]. rewrite Hn1 in *.
    eexists _, _. split; [done|]. split; [done|].
    rewrite Htr, Htr1, <- app_assoc. split; [done|]. split; lia.
Qed.

Lemma nx_con_hid_send_sync_retries_once_witness :
  (exists w',
     nx_con_hid_send_sync hw_silent [0x80; 0x02] 250 world_init = (- ETIMEDOUT, w') /\
     trace w' =
       [EvOutputReport [0x80; 0x02] 2; EvWaitResp 250 false;
        EvOutputReport [0x80; 0x02] 2; EvWaitResp 250 false] /\
     n_sends w' = 2%nat) /\
  (exists e w',
     nx_con_hid_send_sync hw_broken [0x80; 0x02] 250 world_init = (e, w') /\
     e = - 5 /\
     trace w' = [EvOutputReport [0x80; 0x02] e] /\
     n_sends w' = 1%nat /\ n_waits w' = 0%nat).
Proof.
  split.
  - refine (proj1 (nx_con_hid_send_sync_retries_once
                     hw_silent [0x80; 0x02] 250 world_init eq_refl)
              eq_refl _ _ eq_refl _ _).
    + vm_compute. congruence.
    + constructor.
    + vm_compute. congruence.
    + constructor.
  - refine (proj1 (proj2 (nx_con_hid_send_sync_retries_once
                     hw_broken [0x80; 0x02] 250 world_init eq_refl)) _).
    right. vm_compute. reflexivity.
Defined.

(** ** The packet sequence counter *)

Lemma deliver_keeps c frames :
  subcmd_num (deliver c frames) = subcmd_num c /\
  state (deliver c frames) = state c.
Proof.
  revert c. induction frames as [|d frames IH]; intros c; [done|].
  unfold deliver in *. cbn [foldl].
  destruct (IH (nx_con_handle_event c d).2) as [-> ->].
  unfold nx_con_handle_event. by destruct (reply_matches c d).
Qed.

Lemma sends_frame_refl data w : sends_frame data w w.
Proof. exists []. rewrite app_nil_r. repeat split. constructor. Qed.

Lemma sends_frame_trans data w1 w2 w3 :
  sends_frame data w1 w2 -> sends_frame data w2 w3 -> sends_frame data w1 w3.
Proof.
  intros (e1 & T1 & F1 & N1 & S1) (e2 & T2 & F2 & N2 & S2).
  exists (e1 ++ e2). rewrite T2, T1, app_assoc. repeat split; try congruence.
  by apply Forall_app.
Qed.

Lemma sends_frame_upd_con data f w :
  subcmd_num (f (con w)) = subcmd_num (con w) ->
  state (f (con w)) = state (con w) ->
  sends_frame data w (upd_con f w).
Proof.
  intros Hn Hs. exists []. cbn. rewrite app_nil_r. repeat split; try done.
  constructor.
Qed.

Section Counter.

Variable hw : transport.

Lemma hid_send_sends_frame data w :
  sends_frame data w (__nx_con_hid_send hw data w).2.
Proof.
  destruct (kmemdup_ok hw (n_sends w)) eqn:Hk.
  - rewrite hid_send_done by done. cbn [snd].
    eexists [_]. cbn. repeat split. by repeat constructor.
  - rewrite hid_send_nomem by done. cbn [snd].
    exists []. cbn. rewrite app_nil_r. repeat split. constructor.
Qed.

Lemma wait_resp_sends_frame data timeout w :
  sends_frame data w (wait_event_timeout_resp hw timeout w).2.
Proof.
  unfold wait_event_timeout_resp. mstep. unfold get_con at 1 2. cbn [fst snd].
  destruct (received_resp (con w)).
  - msteps. unfold mreturn, log_event. cbn [fst snd].
    eexists [_]. cbn. repeat split. by repeat constructor.
  - msteps. unfold next_wait, modify_con, get_con, mreturn, log_event.
    cbn [fst snd].
    eexists [_]. cbn.
    destruct (deliver_keeps (con w) (incoming hw (n_waits w))) as [-> ->].
    repeat split. by repeat constructor.
Qed.

Lemma send_sync_loop_sends_frame tries ret data timeout w :
  sends_frame data w (nx_con_hid_send_sync_loop hw tries ret data timeout w).2.
Proof.
  revert ret w. induction tries as [|tries IH]; intros ret w.
  - apply sends_frame_refl.
  - rewrite send_sync_loop_S, enforce_subcmd_rate_run. cbn zeta. cbn [fst snd].
    set (w1 := upd_con _ (tick_clock w)).
    assert (H1 : sends_frame data w w1).
    { exists []. cbn. rewrite app_nil_r. repeat split. constructor. }
    pose proof (hid_send_sends_frame data w1) as H2.
    destruct (_ <? 0).
    + cbn [snd]. eapply sends_frame_trans; [exact H1|].
      eapply sends_frame_trans; [exact H2|].
      by apply sends_frame_upd_con.
    + pose proof (wait_resp_sends_frame data timeout
                    (__nx_con_hid_send hw data w1).2) as H3.
      destruct (negb _).
      * eapply sends_frame_trans; [exact H1|].
        eapply sends_frame_trans; [exact H2|].
        eapply sends_frame_trans; [exact H3|].
        eapply sends_frame_trans; [|apply IH].
        by apply sends_frame_upd_con.
      * cbn [snd]. eapply sends_frame_trans; [exact H1|].
        eapply sends_frame_trans; [exact H2|]. exact H3.
Qed.

Lemma send_sync_sends_frame data timeout w :
  sends_frame data w (nx_con_hid_send_sync hw data timeout w).2.
Proof.
  unfold nx_con_hid_send_sync. mstep.
  pose proof (send_sync_loop_sends_frame 2 0 data timeout w) as H.
  destruct (nx_con_hid_send_sync_loop hw 2 0 data timeout w) as [[e|e] w'];
    cbn [fst snd] in *; [done|].
  mstep. unfold modify_con, mreturn. cbn [fst snd].
  eapply sends_frame_trans; [exact H|]. by apply sends_frame_upd_con.
Qed.

(** The counter after a send, as a number. *)
Lemma bump_subcmd_num_val c :
  0 <= subcmd_num c <= 15 ->
  subcmd_num (bump_subcmd_num c) = (subcmd_num c + 1) mod 16 /\
  state (bump_subcmd_num c) = state c.
Proof.
  intros Hn. unfold bump_subcmd_num. cbn [subcmd_num set_subcmd_num].
  unfold u8, wrap_u. rewrite (Z.mod_small (_ + 1)) by lia.
  destruct (Z.ltb_spec 15 (subcmd_num c + 1)); cbn.
  - replace (subcmd_num c + 1) with 16 by lia. done.
  - rewrite Z.mod_small by lia. done.
Qed.

Lemma send_subcmd_run subcmd_id data timeout w :
  state (con w) <> NX_CON_STATE_REMOVED ->
  nx_con_send_subcmd hw subcmd_id data timeout w =
  let r := nx_con_hid_send_sync hw
             ([NX_CON_OUTPUT_RUMBLE_AND_SUBCMD; subcmd_num (con w)] ++
              rumble_at_tail (con w) ++ [subcmd_id] ++ data) timeout
             (upd_con (set_msg_type NX_CON_MSG_TYPE_SUBCMD)
                (upd_con (set_subcmd_ack_match subcmd_id)
                   (upd_con bump_subcmd_num w))) in
  (if r.1 <? 0 then r.1 else 0, r.2).
Proof.
  intros Hst. unfold nx_con_send_subcmd. mstep.
  unfold get_con. cbn [fst snd].
  destruct (nx_con_state_eqb (state (con w)) NX_CON_STATE_REMOVED) eqn:E.
  { by apply nx_con_state_eqb_eq in E. }
  msteps. unfold modify_con. cbn [fst snd]. cbn zeta.
  by destruct (_ <? 0).
Qed.

Lemma send_rumble_data_run w :
  state (con w) <> NX_CON_STATE_REMOVED ->
  nx_con_send_rumble_data hw w =
  __nx_con_hid_send hw
    ([NX_CON_OUTPUT_RUMBLE_ONLY; subcmd_num (con w)] ++ rumble_at_tail (con w))
    (upd_con (set_last_subcmd_sent_msecs (u32 (jiffies_msecs hw (n_clock w))))
       (tick_clock (upd_con bump_subcmd_num w))).
Proof.
  intros Hst. unfold nx_con_send_rumble_data. mstep.
  unfold get_con. cbn [fst snd].
  destruct (nx_con_state_eqb (state (con w)) NX_CON_STATE_REMOVED) eqn:E.
  { by apply nx_con_state_eqb_eq in E. }
  msteps. unfold modify_con. rewrite enforce_subcmd_rate_run.
  by cbn [fst snd].
Qed.

Lemma send_subcmd_stamps subcmd_id data timeout w :
  0 <= subcmd_num (con w) <= 15 ->
  state (con w) <> NX_CON_STATE_REMOVED ->
  exists evs,
    trace (nx_con_send_subcmd hw subcmd_id data timeout w).2 = trace w ++ evs /\
    sends_only ([NX_CON_OUTPUT_RUMBLE_AND_SUBCMD; subcmd_num (con w)] ++
                rumble_at_tail (con w) ++ [subcmd_id] ++ data) evs /\
    subcmd_num (con (nx_con_send_subcmd hw subcmd_id data timeout w).2) =
      (subcmd_num (con w) + 1) mod 16 /\
    state (con (nx_con_send_subcmd hw subcmd_id data timeout w).2) =
      state (con w).
Proof.
  intros Hn Hst. rewrite send_subcmd_run by done. cbn zeta. cbn [snd].
  match goal with |- context [nx_con_hid_send_sync hw ?d timeout ?w0] =>
    destruct (send_sync_sends_frame d timeout w0) as (evs & T & F & N & S) end.
  exists evs. split; [exact T|]. split; [exact F|].
  rewrite N, S. cbn. by apply bump_subcmd_num_val.
Qed.

Lemma send_rumble_data_stamps w :
  0 <= subcmd_num (con w) <= 15 ->
  state (con w) <> NX_CON_STATE_REMOVED ->
  exists evs,
    trace (nx_con_send_rumble_data hw w).2 = trace w ++ evs /\
    sends_only ([NX_CON_OUTPUT_RUMBLE_ONLY; subcmd_num (con w)] ++
                rumble_at_tail (con w)) evs /\
    subcmd_num (con (nx_con_send_rumble_data hw w).2) =
      (subcmd_num (con w) + 1) mod 16 /\
    state (con (nx_con_send_rumble_data hw w).2) = state (con w).
Proof.
  intros Hn Hst. rewrite send_rumble_data_run by done.
  match goal with |- context [__nx_con_hid_send hw ?d ?w0] =>
    destruct (hid_send_sends_frame d w0) as (evs & T & F & N & S) end.
  exists evs. split; [exact T|]. split; [exact F|].
  rewrite N, S. cbn. by apply bump_subcmd_num_val.
Qed.

Lemma send_usb_keeps cmd timeout w :
  exists evs,
    trace (nx_con_send_usb hw cmd timeout w).2 = trace w ++ evs /\
    sends_only [NX_CON_OUTPUT_USB_CMD; cmd] evs /\
    subcmd_num (con (nx_con_send_usb hw cmd timeout w).2) = subcmd_num (con w) /\
    state (con (nx_con_send_usb hw cmd timeout w).2) = state (con w).
Proof.
  unfold nx_con_send_usb. msteps. unfold modify_con. cbn [fst snd].
  match goal with |- context [nx_con_hid_send_sync hw ?d timeout ?w0] =>
    destruct (send_sync_sends_frame d timeout w0) as (evs & T & F & N & S) end.
  exists evs. split; [exact T|]. split; [exact F|]. by rewrite N, S.
Qed.

Lemma sends_only_packet_num_ok id p rest evs :
  0 <= p <= 15 ->
  sends_only ([id; p] ++ rest) evs -> Forall packet_num_ok evs.
Proof.
  intros Hp Hs. eapply Forall_impl; [exact Hs|].
  intros [buf ret|] H; [|done]. subst buf. cbn. intros _. by exists p.
Qed.

Lemma sends_only_usb_packet_num_ok cmd evs :
  sends_only [NX_CON_OUTPUT_USB_CMD; cmd] evs -> Forall packet_num_ok evs.
Proof.
  intros Hs. eapply Forall_impl; [exact Hs|].
  intros [buf ret|] H; [|done]. subst buf. cbn.
  intros [[=]|[=]].
Qed.

Lemma run_send_op_counter_inv o w :
  counter_inv w -> counter_inv (run_send_op hw o w).2.
Proof.
  intros [Hn Htr].
  assert (state (con w) = NX_CON_STATE_REMOVED \/
          state (con w) <> NX_CON_STATE_REMOVED) as [Hst|Hst]
    by (destruct (state (con w)); auto).
  - destruct o as [id data timeout| |cmd timeout|]; cbn [run_send_op].
    + by rewrite send_subcmd_removed.
    + by rewrite send_rumble_data_removed.
    + destruct (send_usb_keeps cmd timeout w) as (evs & T & F & N & _).
      split; [by rewrite N|]. rewrite T. apply Forall_app. split; [done|].
      by eapply sends_only_usb_packet_num_ok.
    + by mstep.
  - destruct o as [id data timeout| |cmd timeout|]; cbn [run_send_op].
    + destruct (send_subcmd_stamps id data timeout w Hn Hst)
        as (evs & T & F & N & _).
      split.
      * rewrite N. pose proof (Z.mod_pos_bound (subcmd_num (con w) + 1) 16). lia.
      * rewrite T. apply Forall_app. split; [done|].
        eapply sends_only_packet_num_ok; [exact Hn|exact F].
    + destruct (send_rumble_data_stamps w Hn Hst) as (evs & T & F & N & _).
      split.
      * rewrite N. pose proof (Z.mod_pos_bound (subcmd_num (con w) + 1) 16). lia.
      * rewrite T. apply Forall_app. split; [done|].
        eapply sends_only_packet_num_ok; [exact Hn|exact F].
    + destruct (send_usb_keeps cmd timeout w) as (evs & T & F & N & _).
      split; [by rewrite N|]. rewrite T. apply Forall_app. split; [done|].
      by eapply sends_only_usb_packet_num_ok.
    + by mstep.
Qed.

Lemma run_send_ops_counter_inv os w :
  counter_inv w -> counter_inv (run_send_ops hw os w).
Proof.
  revert w. induction os as [|o os IH]; intros w Hw; [done|].
  cbn [run_send_ops]. apply IH. by apply run_send_op_counter_inv.
Qed.

End Counter.

(** C10. The sequence counter is 0 when the session is set up and stays
    within 0..15 over every sequence of subcommand sends, rumble-only
    sends, USB commands and a removal; every subcommand or rumble-only
    frame handed to the transport carries a [packet_num] of at most 15.
    Each subcommand send and each rumble-only send on a live session
    stamps its frame (every copy of it that is sent) with the counter's
    value on entry and leaves the counter at that value plus one, modulo
    16. *)
Theorem subcmd_num_wraps_at_16 (hw : transport) :
  (forall os : list send_op,
     let w := run_send_ops hw os world_init in
     0 <= subcmd_num (con w) <= 15 /\ Forall packet_num_ok (trace w)) /\
  (forall w : world,
     0 <= subcmd_num (con w) <= 15 ->
     state (con w) <> NX_CON_STATE_REMOVED ->
     (forall subcmd_id data timeout,
        let w' := (nx_con_send_subcmd hw subcmd_id data timeout w).2 in
        exists evs,
          trace w' = trace w ++ evs /\
          sends_only ([NX_CON_OUTPUT_RUMBLE_AND_SUBCMD; subcmd_num (con w)] ++
                      rumble_at_tail (con w) ++ [subcmd_id] ++ data) evs /\
          subcmd_num (con w') = (subcmd_num (con w) + 1) mod 16) /\
     (let w' := (nx_con_send_rumble_data hw w).2 in
      exists evs,
        trace w' = trace w ++ evs /\
        sends_only ([NX_CON_OUTPUT_RUMBLE_ONLY; subcmd_num (con w)] ++
                    rumble_at_tail (con w)) evs /\
        subcmd_num (con w') = (subcmd_num (con w) + 1) mod 16)).
Proof.
  split.
  - intros os. apply run_send_ops_counter_inv.
    split; [cbn; lia|constructor].
  - intros w Hn Hst. split.
    + intros id data timeout.
      destruct (send_subcmd_stamps hw id data timeout w Hn Hst)
        as (evs & T & F & N & _).
      by exists evs.
    + destruct (send_rumble_data_stamps hw w Hn Hst) as (evs & T & F & N & _).
      by exists evs.
Qed.

(** ** IMU calibration *)

(** C1 (the code departs from the claim). The flash read succeeds and
    returns an erased calibration block, every byte 0xFF: offset and scale
    of every axis are both read as -1, [nx_con_request_imu_calibration]
    returns 0, all six cached divisors are 0, and scaling any IMU sample
    with them is a division by zero. *)
Theorem imu_cal_divisors_zero_on_erased_flash :
  let r := nx_con_request_imu_calibration hw_erased_flash 250 world_init in
  r.1 = 0 /\
  offset (accel_cal (con r.2)) = [-1; -1; -1] /\
  scale (accel_cal (con r.2)) = [-1; -1; -1] /\
  offset (gyro_cal (con r.2)) = [-1; -1; -1] /\
  scale (gyro_cal (con r.2)) = [-1; -1; -1] /\
  imu_cal_accel_divisor (con r.2) = [0; 0; 0] /\
  imu_cal_gyro_divisor (con r.2) = [0; 0; 0] /\
  forall d, imu_scale_sample (con r.2) d = None.
Proof.
  cbv zeta. repeat split; vm_compute; reflexivity.
Qed.

(** ** IMU sign correction *)

Lemma imu_scale_sample_length c d value :
  imu_scale_sample c d = Some value ->
  exists v0 v1 v2 v3 v4 v5, value = [v0; v1; v2; v3; v4; v5].
Proof.
  unfold imu_scale_sample. intros H.
  repeat (apply bind_Some in H as (? & _ & H)).
  injection H as <-. by eexists _, _, _, _, _, _.
Qed.

Lemma imu_negate_right_joycon_6 v0 v1 v2 v3 v4 v5 :
  imu_negate_right_joycon [v0; v1; v2; v3; v4; v5] =
  [v0; s32 (- v1); s32 (- v2); v3; s32 (- v4); s32 (- v5)].
Proof.
  unfold imu_negate_right_joycon. cbn -[s32 Z.mul].
  by rewrite <- !Z.opp_eq_mul_m1.
Qed.

Lemma s32_opp v : - 2 ^ 31 < v < 2 ^ 31 -> s32 (- v) = - v.
Proof. intros H. apply s32_small. lia. Qed.

(** C3 as stated fails: on the vector 10, 20, 30, 40, 50, 60 the right
    Joy-Con correction leaves index 3 (the accelerometer's x axis) at 40;
    it is not the case that every index from 1 to 5 is negated. *)
Lemma right_joycon_keeps_accel_x :
  imu_negate_right_joycon [10; 20; 30; 40; 50; 60] =
    [10; -20; -30; 40; -50; -60] /\
  ~ negates_all_but_first [10; 20; 30; 40; 50; 60]
      (imu_negate_right_joycon [10; 20; 30; 40; 50; 60]).
Proof.
  split; [reflexivity|].
  intros [_ H]. specialize (H 3%nat ltac:(lia)). vm_compute in H. congruence.
Qed.

(** C3, amended. For a right Joy-Con, a sample whose six calibrated values
    are [v0 .. v5] (gyro x, y, z, then accelerometer x, y, z) is reported
    with the y and z axes of both sensors negated in 32-bit arithmetic
    (indices 1, 2, 4 and 5) and the x axes (indices 0 and 3) unchanged;
    the negation is exact unless the value is the least 32-bit integer. *)
Theorem right_joycon_negates_y_and_z (c : nx_con) (d : nx_con_imu_data)
    (v0 v1 v2 v3 v4 v5 : Z) :
  nx_con_type_is_right_joycon c = true ->
  imu_scale_sample c d = Some [v0; v1; v2; v3; v4; v5] ->
  (exists c' ev,
     nx_con_report_imu_sample c d = Some (c', ev) /\
     ev_abs ev = [v0; s32 (- v1); s32 (- v2); v3; s32 (- v4); s32 (- v5)]) /\
  (forall v, - 2 ^ 31 < v < 2 ^ 31 -> s32 (- v) = - v).
Proof.
  intros Hty Hsc. split; [|exact s32_opp].
  unfold nx_con_report_imu_sample. rewrite Hsc, Hty. cbn [mbind option_bind].
  eexists _, _. split; [reflexivity|]. cbn [ev_abs].
  apply imu_negate_right_joycon_6.
Qed.

Lemma right_joycon_negates_y_and_z_witness :
  nx_con_type_is_right_joycon con_right_joycon_dflt = true /\
  exists c' ev,
    nx_con_report_imu_sample con_right_joycon_dflt imu_sample_example = Some (c', ev) /\
    ev_abs ev = [10000; 20000; -30000; 100; 200; -4096].
Proof.
  split; [reflexivity|].
  exact (proj1 (right_joycon_negates_y_and_z
                  con_right_joycon_dflt imu_sample_example
                  10000 (-20000) 30000 100 (-200) 4096 eq_refl eq_refl)).
Defined.

(** ** IMU report timing *)

Lemma u32_div_pos a b : 0 < b -> 0 <= a < 2 ^ 32 -> u32_div a b = Some (a / b).
Proof.
  intros Hb Ha. unfold u32_div, c_div.
  destruct (Z.eqb_spec b 0); [lia|]. cbn.
  rewrite Z.quot_div_nonneg by lia.
  rewrite u32_small; [done|].
  split; [apply Z.div_pos; lia|].
  apply Z.div_lt_upper_bound; nia.
Qed.

(** The housekeeping step: with fewer than 300 deltas summed, the new
    delta is added and counted; the count reaches 300 exactly when it was
    299, and then the average becomes sum / 300, raised to 1 if that is 0,
    and sum and count start again from 0. *)
Lemma imu_avg_housekeeping_spec c delta :
  0 <= imu_delta_samples_count c < 300 ->
  exists c',
    imu_avg_housekeeping c delta = Some c' /\
    imu_first_packet_received c' = imu_first_packet_received c /\
    imu_last_pkt_ms c' = imu_last_pkt_ms c /\
    imu_timestamp_us c' = imu_timestamp_us c /\
    (if imu_delta_samples_count c =? 299 then
       imu_avg_delta_ms c' =
         Z.max 1 (u32 (imu_delta_samples_sum c + delta) / 300) /\
       imu_delta_samples_count c' = 0 /\
       imu_delta_samples_sum c' = 0
     else
       imu_avg_delta_ms c' = imu_avg_delta_ms c /\
       imu_delta_samples_count c' = imu_delta_samples_count c + 1 /\
       imu_delta_samples_sum c' = u32 (imu_delta_samples_sum c + delta)).
Proof.
  intros Hc. unfold imu_avg_housekeeping. cbn -[u32 Z.leb u32_div Z.add].
  unfold NX_CON_IMU_SAMPLES_PER_DELTA_AVG.
  rewrite (u32_small (_ + 1)) by lia.
  pose proof (u32_range (imu_delta_samples_sum c + delta)) as Hs.
  destruct (Z.eqb_spec (imu_delta_samples_count c) 299) as [E|E].
  - rewrite E. change (299 + 1) with 300. change (300 <=? 300) with true.
    cbv iota. rewrite u32_div_pos by lia.
    cbn -[u32 Z.div Z.add].
    assert (0 <= u32 (imu_delta_samples_sum c + delta) / 300)
      by (apply Z.div_pos; lia).
    destruct (Z.eqb_spec (u32 (imu_delta_samples_sum c + delta) / 300) 0)
      as [Ez|Ez].
    + eexists. split; [reflexivity|]. cbn -[u32 Z.div Z.add]. rewrite Ez. done.
    + eexists. split; [reflexivity|]. cbn -[u32 Z.div Z.add].
      repeat split; lia.
  - destruct (Z.leb_spec 300 (imu_delta_samples_count c + 1)); [lia|].
    eexists. split; [reflexivity|]. by cbn -[u32 Z.add].
Qed.

Lemma imu_dropped_pkts_spec delta avg :
  0 <= delta < 2 ^ 32 -> 1 <= avg <= 14316557 ->
  imu_dropped_pkts delta avg =
  Some ((delta - Z.min delta (avg * 3 / 2)) / avg).
Proof.
  intros Hd Ha. unfold imu_dropped_pkts.
  rewrite (u32_small (avg * 3)) by lia.
  rewrite Z.quot_div_nonneg by lia.
  assert (0 <= avg * 3 / 2) by (apply Z.div_pos; lia).
  rewrite (u32_small (delta - _)) by lia.
  apply u32_div_pos; lia.
Qed.

Lemma imu_dropped_pkts_zero delta avg :
  0 <= delta -> 1 <= avg -> 2 * delta <= 3 * avg ->
  (delta - Z.min delta (avg * 3 / 2)) / avg = 0.
Proof.
  intros Hd Ha H.
  assert (delta <= avg * 3 / 2) by (apply Z.div_le_lower_bound; lia).
  rewrite Z.min_l by lia. rewrite Z.sub_diag. apply Z.div_0_l. lia.
Qed.

Lemma imu_housekeeping_avg_range c delta c' :
  0 <= imu_delta_samples_count c < 300 ->
  1 <= imu_avg_delta_ms c <= 14316557 ->
  imu_avg_housekeeping c delta = Some c' ->
  0 <= imu_delta_samples_count c' < 300 /\
  1 <= imu_avg_delta_ms c' <= 14316557.
Proof.
  intros Hc Ha Hh.
  destruct (imu_avg_housekeeping_spec c delta Hc) as (c'' & E & _ & _ & _ & Hif).
  rewrite Hh in E. injection E as <-.
  pose proof (u32_range (imu_delta_samples_sum c + delta)) as Hs.
  destruct (imu_delta_samples_count c =? 299) eqn:E9.
  - destruct Hif as (-> & -> & _). split; [lia|].
    assert (u32 (imu_delta_samples_sum c + delta) / 300 < 14316558)
      by (apply Z.div_lt_upper_bound; lia).
    lia.
  - apply Z.eqb_neq in E9. destruct Hif as (-> & -> & _). lia.
Qed.

(** The first report ever: the timing members are initialised. *)
Lemma nx_con_report_imu_timing_first c msecs :
  imu_first_packet_received c = false ->
  exists c',
    nx_con_report_imu_timing c msecs = Some (c', None) /\
    imu_first_packet_received c' = true /\
    imu_timestamp_us c' = 0 /\
    imu_delta_samples_count c' = 0 /\
    imu_delta_samples_sum c' = 0 /\
    imu_avg_delta_ms c' = NX_CON_IMU_DFLT_AVG_DELTA_MS /\
    imu_last_pkt_ms c' = u32 msecs.
Proof.
  intros Hf. unfold nx_con_report_imu_timing. rewrite Hf.
  eexists. split; [reflexivity|]. by cbn -[u32].
Qed.

(** A report after the first: housekeeping, then the dropped-packet
    estimate with the average as housekeeping left it. *)
Lemma nx_con_report_imu_timing_next c msecs :
  imu_first_packet_received c = true ->
  0 <= imu_delta_samples_count c < 300 ->
  1 <= imu_avg_delta_ms c <= 14316557 ->
  let delta := u32 (u32 msecs - imu_last_pkt_ms c) in
  exists ch c',
    imu_avg_housekeeping c delta = Some ch /\
    nx_con_report_imu_timing c msecs =
      Some (c', Some ((delta - Z.min delta (imu_avg_delta_ms ch * 3 / 2))
                      / imu_avg_delta_ms ch)) /\
    imu_first_packet_received c' = true /\
    imu_delta_samples_count c' = imu_delta_samples_count ch /\
    imu_delta_samples_sum c' = imu_delta_samples_sum ch /\
    imu_avg_delta_ms c' = imu_avg_delta_ms ch /\
    imu_last_pkt_ms c' = u32 msecs.
Proof.
  intros Hf Hc Ha delta.
  destruct (imu_avg_housekeeping_spec c delta Hc) as (ch & Hh & Hfh & _).
  destruct (imu_housekeeping_avg_range c delta ch Hc Ha Hh) as [_ Hah].
  exists ch. unfold nx_con_report_imu_timing. rewrite Hf. cbn [negb].
  fold delta. rewrite Hh. cbn [mbind option_bind].
  rewrite imu_dropped_pkts_spec by (done || apply u32_range).
  cbn [mbind option_bind]. eexists. split; [done|]. split; [reflexivity|].
  cbn -[u32 Z.div]. by rewrite Hfh, Hf.
Qed.

Lemma imu_reachable_inv c : imu_reachable c -> imu_avg_inv c.
Proof.
  unfold imu_avg_inv, NX_CON_IMU_SAMPLES_PER_DELTA_AVG.
  induction 1 as [c Hf|c msecs c' dropped _ IH Hstep|c c' _ IH Hf Hc Hs Ha].
  - congruence.
  - intros _. destruct (imu_first_packet_received c) eqn:Hf.
    + destruct (IH eq_refl) as [Hc Ha].
      destruct (nx_con_report_imu_timing_next c msecs Hf Hc Ha)
        as (ch & c'' & Hh & E & _ & Ec & _ & Ea & _).
      rewrite Hstep in E. injection E as <- _.
      rewrite Ec, Ea. by eapply imu_housekeeping_avg_range.
    + destruct (nx_con_report_imu_timing_first c msecs Hf)
        as (c'' & E & _ & _ & Ec & _ & Ea & _).
      rewrite Hstep in E. injection E as <- _.
      rewrite Ec, Ea. unfold NX_CON_IMU_DFLT_AVG_DELTA_MS. lia.
  - rewrite Hf, Hc, Ha. exact IH.
Qed.

(** C7. For every IMU report after the first, in any state the timing
    members can reach: the report is processed without wrap-around or
    division by zero, the dropped-packet count is
    [(delta - min(delta, avg * 3 / 2)) / avg] in integer arithmetic, with
    [delta] the 32-bit difference of the two clock readings and [avg] the
    (positive) average in force for this report, and the count is 0
    whenever [delta <= 1.5 * avg], that is [2 * delta <= 3 * avg]. *)
Theorem imu_dropped_pkts_formula (c : nx_con) (msecs : Z) :
  imu_reachable c ->
  imu_first_packet_received c = true ->
  let delta := (u32 msecs - imu_last_pkt_ms c) mod 2 ^ 32 in
  exists c' dropped,
    nx_con_report_imu_timing c msecs = Some (c', Some dropped) /\
    let avg := imu_avg_delta_ms c' in
    1 <= avg /\
    imu_dropped_pkts delta avg = Some dropped /\
    dropped = (delta - Z.min delta (avg * 3 / 2)) / avg /\
    (2 * delta <= 3 * avg -> dropped = 0).
Proof.
  intros Hreach Hf delta.
  destruct (imu_reachable_inv c Hreach Hf) as [Hc Ha].
  destruct (nx_con_report_imu_timing_next c msecs Hf Hc Ha)
    as (ch & c' & Hh & E & _ & _ & _ & Eavg & _).
  destruct (imu_housekeeping_avg_range c _ ch Hc Ha Hh) as [_ Hah].
  change (u32 (u32 msecs - imu_last_pkt_ms c)) with delta in *.
  assert (Hd : 0 <= delta < 2 ^ 32) by (apply Z.mod_pos_bound; lia).
  exists c', ((delta - Z.min delta (imu_avg_delta_ms ch * 3 / 2))
              / imu_avg_delta_ms ch).
  split; [exact E|]. cbv zeta. rewrite Eavg.
  split; [lia|]. split; [by apply imu_dropped_pkts_spec|].
  split; [done|]. intros H. apply imu_dropped_pkts_zero; lia.
Qed.

Lemma imu_dropped_pkts_formula_witness :
  imu_reachable con_after_first_imu_report /\
  exists c' dropped,
    nx_con_report_imu_timing con_after_first_imu_report 1015 =
      Some (c', Some dropped) /\
    (2 * 15 <= 3 * imu_avg_delta_ms c' -> dropped = 0).
Proof.
  assert (Hreach : imu_reachable con_after_first_imu_report).
  { apply (imu_reach_report nx_con_probe_init 1000 _ None).
    - apply imu_reach_fresh. reflexivity.
    - reflexivity. }
  split; [exact Hreach|].
  destruct (imu_dropped_pkts_formula con_after_first_imu_report 1015
              Hreach eq_refl) as (c' & dropped & E & _ & _ & _ & Hz).
  exists c', dropped. split; [exact E|exact Hz].
Defined.

(** ** The running average *)

Lemma u32_sub_wrap a b : u32 (u32 a - u32 b) = u32 (a - b).
Proof. unfold u32, wrap_u. by rewrite <- Zminus_mod. Qed.

(** Reports that arrive every [d] ms while fewer than 300 deltas have
    been summed: each is counted and added, and the average stays. *)
Lemma imu_feed_const_delta n : forall c last d k,
  imu_first_packet_received c = true ->
  1 <= imu_avg_delta_ms c <= 14316557 ->
  imu_last_pkt_ms c = u32 last ->
  0 <= d -> 0 <= k ->
  imu_delta_samples_count c = k ->
  imu_delta_samples_sum c = k * d ->
  k + Z.of_nat n < 300 ->
  (k + Z.of_nat n) * d < 2 ^ 32 ->
  exists c',
    imu_feed c (imu_report_times last d n) = Some c' /\
    imu_first_packet_received c' = true /\
    imu_avg_delta_ms c' = imu_avg_delta_ms c /\
    imu_last_pkt_ms c' = u32 (last + Z.of_nat n * d) /\
    imu_delta_samples_count c' = k + Z.of_nat n /\
    imu_delta_samples_sum c' = (k + Z.of_nat n) * d.
Proof.
  induction n as [|n IH]; intros c last d k Hf Ha Hl Hd Hk Hc Hs Hn Hb.
  - exists c. cbn [imu_feed imu_report_times].
    repeat split; try done; try lia. rewrite Hl. f_equal. lia.
  - cbn [imu_feed imu_report_times].
    destruct (nx_con_report_imu_timing_next c (last + d) Hf ltac:(lia) Ha)
      as (ch & c1 & Hh & -> & Hf1 & Hc1 & Hs1 & Ha1 & Hl1).
    cbn [mbind option_bind].
    rewrite Hl, u32_sub_wrap in Hh.
    replace (last + d - last) with d in Hh by lia.
    assert (Hdd : u32 d = d) by (apply u32_small; nia).
    rewrite Hdd in Hh.
    destruct (imu_avg_housekeeping_spec c d ltac:(lia))
      as (ch' & Hh' & _ & _ & _ & Hif).
    rewrite Hh in Hh'. injection Hh' as <-.
    destruct (Z.eqb_spec (imu_delta_samples_count c) 299); [lia|].
    destruct Hif as (Hah & Hch & Hsh).
    rewrite u32_small in Hsh by nia.
    assert (A1 : 1 <= imu_avg_delta_ms c1 <= 14316557) by (rewrite Ha1, Hah; done).
    assert (A2 : imu_delta_samples_count c1 = k + 1) by (rewrite Hc1, Hch; lia).
    assert (A3 : imu_delta_samples_sum c1 = (k + 1) * d) by (rewrite Hs1, Hsh; lia).
    destruct (IH c1 (last + d) d (k + 1) Hf1 A1 Hl1 Hd ltac:(lia) A2 A3
                ltac:(lia) ltac:(nia))
      as (c' & E & Hf' & Ha' & Hl' & Hc' & Hs').
    exists c'. split; [exact E|]. split; [done|].
    split; [congruence|].
    split; [rewrite Hl'; f_equal; lia|].
    split; [lia|]. rewrite Hs'. f_equal. lia.
Qed.

(** The 300th of them: the average is recomputed as [d], or 1 if [d] is
    0, and the sum and the count are reset. *)
Lemma imu_feed_300 c last d :
  imu_first_packet_received c = true ->
  1 <= imu_avg_delta_ms c <= 14316557 ->
  imu_last_pkt_ms c = u32 last ->
  0 <= d <= 14316557 ->
  imu_delta_samples_count c = 0 ->
  imu_delta_samples_sum c = 0 ->
  exists c',
    imu_feed c (imu_report_times last d 300) = Some c' /\
    imu_avg_delta_ms c' = Z.max 1 d /\
    imu_delta_samples_count c' = 0 /\
    imu_delta_samples_sum c' = 0.
Proof.
  intros Hf Ha Hl Hd Hc Hs.
  assert (Happ : forall n m last c,
            imu_feed c (imu_report_times last d (n + m)) =
            c1 ← imu_feed c (imu_report_times last d n);
            imu_feed c1 (imu_report_times (last + Z.of_nat n * d) d m)).
  { induction n as [|n IH]; intros m l0 c0.
    - cbn [Nat.add imu_report_times imu_feed mbind option_bind].
      by replace (l0 + Z.of_nat 0 * d) with l0 by lia.
    - cbn [Nat.add imu_report_times imu_feed].
      destruct (nx_con_report_imu_timing c0 (l0 + d)) as [[c1 ?]|]; [|done].
      cbn [mbind option_bind]. rewrite IH.
      by replace (l0 + d + Z.of_nat n * d) with (l0 + Z.of_nat (S n) * d) by lia. }
  change 300%nat with (299 + 1)%nat. rewrite Happ.
  destruct (imu_feed_const_delta 299 c last d 0)
    as (c1 & -> & Hf1 & Ha1 & Hl1 & Hc1 & Hs1); try done; try lia.
  change (Z.of_nat 299) with 299 in *.
  cbn [mbind option_bind imu_report_times imu_feed].
  destruct (nx_con_report_imu_timing_next c1 (last + 299 * d + d) Hf1
              ltac:(lia) ltac:(lia))
    as (ch & c2 & Hh & -> & _ & Hc2 & Hs2 & Ha2 & _).
  cbn [mbind option_bind]. exists c2. split; [done|].
  rewrite Hl1, u32_sub_wrap in Hh.
  replace (last + 299 * d + d - (last + 299 * d)) with d in Hh by lia.
  rewrite (u32_small d) in Hh by lia.
  destruct (imu_avg_housekeeping_spec c1 d ltac:(lia))
    as (ch' & Hh' & _ & _ & _ & Hif).
  rewrite Hh in Hh'. injection Hh' as <-.
  rewrite Hc1 in Hif. change (0 + 299 =? 299) with true in Hif.
  destruct Hif as (Hah & Hch & Hsh).
  rewrite Ha2, Hc2, Hs2, Hah, Hch, Hsh, Hs1.
  replace ((0 + 299) * d + d) with (d * 300) by lia.
  rewrite u32_small by lia. rewrite Z.div_mul by lia. done.
Qed.

(** C6. Once the first report has been seen the running count stays
    below 300; a report's delta is added to the sum and counted, and
    exactly when that brings the count to 300 the average becomes
    sum / count, raised to 1 if it is 0, and sum and count are reset to 0
    (otherwise the average is kept).  So after the first report, reports
    that arrive every [d] ms leave the default average of 15 ms in place
    for 299 reports and the 300th sets it to [d] (to 1 when [d] is 0); in
    particular 300 reports 15 ms apart recompute an average of 15. *)
Theorem imu_avg_delta_recomputed_at_300 :
  (forall c,
     imu_reachable c -> imu_first_packet_received c = true ->
     0 <= imu_delta_samples_count c < 300) /\
  (forall c delta,
     0 <= imu_delta_samples_count c < 300 ->
     exists c',
       imu_avg_housekeeping c delta = Some c' /\
       if imu_delta_samples_count c + 1 =? 300 then
         imu_avg_delta_ms c' =
           Z.max 1 (u32 (imu_delta_samples_sum c + delta) / 300) /\
         imu_delta_samples_count c' = 0 /\
         imu_delta_samples_sum c' = 0
       else
         imu_avg_delta_ms c' = imu_avg_delta_ms c /\
         imu_delta_samples_count c' = imu_delta_samples_count c + 1 /\
         imu_delta_samples_sum c' = u32 (imu_delta_samples_sum c + delta)) /\
  (forall c0 t0 d,
     imu_first_packet_received c0 = false ->
     0 <= d <= 14316557 ->
     exists c1,
       nx_con_report_imu_timing c0 t0 = Some (c1, None) /\
       (forall n : nat, (n < 300)%nat ->
          exists c,
            imu_feed c1 (imu_report_times t0 d n) = Some c /\
            imu_avg_delta_ms c = NX_CON_IMU_DFLT_AVG_DELTA_MS /\
            imu_delta_samples_count c = Z.of_nat n /\
            imu_delta_samples_sum c = Z.of_nat n * d) /\
       exists c,
         imu_feed c1 (imu_report_times t0 d 300) = Some c /\
         imu_avg_delta_ms c = Z.max 1 d /\
         imu_delta_samples_count c = 0 /\
         imu_delta_samples_sum c = 0) /\
  (exists c,
     imu_feed con_after_first_imu_report (imu_report_times 1000 15 300) = Some c /\
     imu_avg_delta_ms c = 15 /\
     imu_delta_samples_count c = 0 /\
     imu_delta_samples_sum c = 0).
Proof.
  assert (Hrun : forall c0 t0 d,
     imu_first_packet_received c0 = false ->
     0 <= d <= 14316557 ->
     exists c1,
       nx_con_report_imu_timing c0 t0 = Some (c1, None) /\
       (forall n : nat, (n < 300)%nat ->
          exists c,
            imu_feed c1 (imu_report_times t0 d n) = Some c /\
            imu_avg_delta_ms c = NX_CON_IMU_DFLT_AVG_DELTA_MS /\
            imu_delta_samples_count c = Z.of_nat n /\
            imu_delta_samples_sum c = Z.of_nat n * d) /\
       exists c,
         imu_feed c1 (imu_report_times t0 d 300) = Some c /\
         imu_avg_delta_ms c = Z.max 1 d /\
         imu_delta_samples_count c = 0 /\
         imu_delta_samples_sum c = 0).
  { intros c0 t0 d Hf0 Hd.
    destruct (nx_con_report_imu_timing_first c0 t0 Hf0)
      as (c1 & E & Hf & _ & Hc & Hs & Ha & Hl).
    exists c1. split; [exact E|].
    assert (Ha' : 1 <= imu_avg_delta_ms c1 <= 14316557)
      by (rewrite Ha; unfold NX_CON_IMU_DFLT_AVG_DELTA_MS; lia).
    split.
    - intros n Hn.
      destruct (imu_feed_const_delta n c1 t0 d 0 Hf Ha' Hl ltac:(lia) ltac:(lia)
                  Hc ltac:(rewrite Hs; lia) ltac:(lia) ltac:(nia))
        as (c & Ec & _ & Hac & _ & Hcc & Hsc).
      exists c. split; [exact Ec|]. rewrite Hac, Hcc, Hsc, Ha.
      repeat split; lia.
    - apply imu_feed_300; done. }
  split; [|split; [|split]].
  - intros c Hr Hf. by destruct (imu_reachable_inv c Hr Hf).
  - intros c delta Hc.
    destruct (imu_avg_housekeeping_spec c delta Hc) as (c' & E & _ & _ & _ & Hif).
    exists c'. split; [exact E|].
    destruct (Z.eqb_spec (imu_delta_samples_count c) 299),
             (Z.eqb_spec (imu_delta_samples_count c + 1) 300); try lia; done.
  - exact Hrun.
  - destruct (Hrun nx_con_probe_init 1000 15 eq_refl ltac:(lia))
      as (c1 & E & _ & c & Ec & Ha & Hc & Hs).
    exists c. unfold con_after_first_imu_report. rewrite E. done.
Qed.

(** ** Rumble table lookup *)

Lemma ascending_b_spec keys : ascending_b keys = true -> ascending keys.
Proof.
  induction keys as [|a keys IH]; intros Hb i j x y Hi Hj Hij.
  - by rewrite lookup_nil in Hi.
  - destruct keys as [|b keys].
    + destruct j as [|j]; [lia|]. by destruct j.
    + cbn [ascending_b] in Hb. apply andb_prop in Hb as [Hab Hb].
      apply Z.ltb_lt in Hab. specialize (IH Hb).
      destruct j as [|j]; [lia|]. cbn in Hj.
      destruct i as [|i].
      * cbn in Hi. injection Hi as <-.
        destruct j as [|j].
        -- cbn in Hj. injection Hj as <-. done.
        -- assert (b < y); [|lia].
           eapply (IH 0%nat (S j)); [done|exact Hj|lia].
      * cbn in Hi. eapply (IH i j); [exact Hi|exact Hj|lia].
Qed.

Lemma find_first_index {T} (P : T -> bool) (l : list T) (i : nat) x :
  l !! i = Some x -> P x = true ->
  (forall (j : nat) y, (j < i)%nat -> l !! j = Some y -> P y = false) ->
  find P l = Some x.
Proof.
  revert i. induction l as [|a l IH]; intros i Hi Hx Hlt.
  - by rewrite lookup_nil in Hi.
  - destruct i as [|i]; cbn in Hi.
    + injection Hi as ->. cbn. by rewrite Hx.
    + cbn. rewrite (Hlt 0%nat a) by (lia || done).
      apply (IH i); [done|done|].
      intros j y Hj Hy. apply (Hlt (S j)); [lia|done].
Qed.

Section RumbleFind.

Variable keys : list Z.
Hypothesis Hlen : (2 <= length keys)%nat.
Hypothesis Hasc : ascending keys.

Let last_index : nat := (length keys - 1)%nat.

Lemma keys_total (i : nat) : (i < length keys)%nat -> keys !! i = Some (keys !!! i).
Proof. intros Hi. by apply list_lookup_lookup_total_lt. Qed.

Lemma keys_lt (i j : nat) :
  (i < j)%nat -> (j < length keys)%nat -> keys !!! i < keys !!! j.
Proof.
  intros Hij Hj. eapply Hasc; [apply keys_total|apply keys_total|]; lia.
Qed.

(** What the loop leaves in [i] when the request does not exceed the
    last key: the first index whose key is at least the request. *)
Lemma rumble_find_index_first v :
  v <= keys !!! last_index ->
  let i := rumble_find_index keys v in
  (i < length keys)%nat /\ v <= keys !!! i /\
  forall j : nat, (j < i)%nat -> keys !!! j < v.
Proof.
  intros Hv. unfold rumble_find_index.
  destruct (Z.ltb_spec (keys !!! 0%nat) v) as [H0|H0].
  - destruct (find _ _) as [i|] eqn:Ef.
    + apply find_some in Ef as [Hin HP].
      apply in_seq in Hin. apply andb_prop in HP as [Hp Hq].
      apply Z.ltb_lt in Hp. apply Z.leb_le in Hq.
      cbv zeta. split; [lia|]. split; [done|].
      intros j Hj.
      destruct (decide (j = (i - 1)%nat)) as [->|Hne]; [done|].
      pose proof (keys_lt j (i - 1)). lia.
    + cbv zeta. fold last_index. split; [unfold last_index; lia|].
      split; [done|].
      assert (Hall : forall j : nat, (j < length keys - 1)%nat -> keys !!! j < v).
      { induction j as [|j IHj]; intros Hj; [done|].
        assert (Hprev : keys !!! j < v) by (apply IHj; lia).
        assert (HP := find_none _ _ Ef (S j) ltac:(apply in_seq; lia)).
        cbn beta in HP. replace (S j - 1)%nat with j in HP by lia.
        apply andb_false_iff in HP as [HP|HP].
        - apply Z.ltb_ge in HP. lia.
        - by apply Z.leb_gt in HP. }
      intros j Hj. apply Hall. unfold last_index in Hj. lia.
  - cbv zeta. split; [lia|]. split; [done|]. intros j Hj. lia.
Qed.

(** Above the last key the loop runs off its end: the last index. *)
Lemma rumble_find_index_above v :
  keys !!! last_index < v -> rumble_find_index keys v = last_index.
Proof.
  intros Hv. unfold rumble_find_index.
  assert (H0 : keys !!! 0%nat < v).
  { destruct (decide (last_index = 0%nat)) as [E|E]; [by rewrite <- E|].
    pose proof (keys_lt 0 last_index). unfold last_index in *. lia. }
  destruct (Z.ltb_spec (keys !!! 0%nat) v); [|lia].
  destruct (find _ _) as [i|] eqn:Ef; [|done].
  apply find_some in Ef as [Hin HP]. apply in_seq in Hin.
  apply andb_prop in HP as [_ Hq]. apply Z.leb_le in Hq.
  pose proof (keys_lt i last_index). unfold last_index in *. lia.
Qed.

(** A request equal to a key finds that key's index. *)
Lemma rumble_find_index_exact (k : nat) :
  (k < length keys)%nat -> rumble_find_index keys (keys !!! k) = k.
Proof.
  intros Hk.
  assert (Hv : keys !!! k <= keys !!! last_index).
  { destruct (decide (k = last_index)) as [->|E]; [lia|].
    pose proof (keys_lt k last_index). unfold last_index in *. lia. }
  destruct (rumble_find_index_first _ Hv) as (Hi & Hge & Hlt).
  set (i := rumble_find_index keys (keys !!! k)) in *.
  destruct (Nat.lt_trichotomy i k) as [H|[H|H]]; [|done|].
  - pose proof (keys_lt i k). lia.
  - specialize (Hlt k H). lia.
Qed.

End RumbleFind.

Lemma rumble_frequencies_ascending : ascending (freq <$> nx_con_rumble_frequencies).
Proof. apply ascending_b_spec. vm_compute. reflexivity. Qed.

Lemma rumble_amplitudes_ascending : ascending (amp <$> nx_con_rumble_amplitudes).
Proof. apply ascending_b_spec. vm_compute. reflexivity. Qed.

Lemma rumble_frequencies_length : length nx_con_rumble_frequencies = 159%nat.
Proof. reflexivity. Qed.

Lemma rumble_amplitudes_length : length nx_con_rumble_amplitudes = 101%nat.
Proof. reflexivity. Qed.

Section TableLookup.

Context {T : Type} `{Inhabited T}.
Variable key : T -> Z.
Variable table : list T.
Hypothesis Hlen : (2 <= length table)%nat.
Hypothesis Hasc : ascending (key <$> table).

Let lookup_v (v : Z) : T := table !!! rumble_find_index (key <$> table) v.

Lemma fmap_total (i : nat) :
  (i < length table)%nat -> (key <$> table) !!! i = key (table !!! i).
Proof.
  intros Hi. apply list_lookup_total_correct.
  rewrite list_lookup_fmap, (list_lookup_lookup_total_lt table i) by done.
  done.
Qed.

Lemma table_lookup_index_lt v :
  (rumble_find_index (key <$> table) v < length table)%nat.
Proof.
  assert (Hl : (2 <= length (key <$> table))%nat) by (by rewrite length_fmap).
  destruct (Z.le_gt_cases v ((key <$> table) !!! (length (key <$> table) - 1)%nat))
    as [Hv|Hv].
  - destruct (rumble_find_index_first _ Hl Hasc v Hv) as [Hi _].
    by rewrite length_fmap in Hi.
  - rewrite (rumble_find_index_above _ Hl Hasc v) by lia.
    rewrite length_fmap. lia.
Qed.

Lemma table_lookup_elem v : lookup_v v ∈ table.
Proof.
  unfold lookup_v. apply list_elem_of_lookup.
  exists (rumble_find_index (key <$> table) v).
  apply list_lookup_lookup_total_lt, table_lookup_index_lt.
Qed.

Lemma table_lookup_exact e : e ∈ table -> lookup_v (key e) = e.
Proof.
  intros He. apply list_elem_of_lookup in He as [k Hk].
  assert (Hlt : (k < length table)%nat) by (by eapply lookup_lt_Some).
  assert (Hl : (2 <= length (key <$> table))%nat) by (by rewrite length_fmap).
  unfold lookup_v.
  assert (Ek : (key <$> table) !!! k = key e).
  { rewrite fmap_total by done.
    by rewrite (list_lookup_total_correct _ _ _ Hk). }
  rewrite <- Ek, (rumble_find_index_exact _ Hl Hasc k) by (by rewrite length_fmap).
  by apply list_lookup_total_correct.
Qed.

Lemma table_lookup_first v :
  v <= key (table !!! (length table - 1)%nat) ->
  find (fun e => v <=? key e) table = Some (lookup_v v).
Proof.
  intros Hv.
  assert (Hl : (2 <= length (key <$> table))%nat) by (by rewrite length_fmap).
  destruct (rumble_find_index_first _ Hl Hasc v) as (Hi & Hge & Hlt).
  { rewrite length_fmap, fmap_total by lia. done. }
  rewrite length_fmap in Hi. rewrite fmap_total in Hge by done.
  unfold lookup_v.
  eapply find_first_index.
  - by apply list_lookup_lookup_total_lt.
  - by apply Z.leb_le.
  - intros j y Hj Hy. apply Z.leb_gt.
    specialize (Hlt j Hj). rewrite fmap_total in Hlt by lia.
    by rewrite (list_lookup_total_correct _ _ _ Hy) in Hlt.
Qed.

Lemma table_lookup_below v :
  v <= key (table !!! 0%nat) -> lookup_v v = table !!! 0%nat.
Proof.
  intros Hv. unfold lookup_v, rumble_find_index.
  rewrite fmap_total by lia.
  by destruct (Z.ltb_spec (key (table !!! 0%nat)) v); [lia|].
Qed.

Lemma table_lookup_above v :
  key (table !!! (length table - 1)%nat) < v ->
  lookup_v v = table !!! (length table - 1)%nat.
Proof.
  intros Hv. unfold lookup_v.
  assert (Hl : (2 <= length (key <$> table))%nat) by (by rewrite length_fmap).
  rewrite (rumble_find_index_above _ Hl Hasc v).
  - by rewrite length_fmap.
  - rewrite length_fmap, fmap_total by lia. done.
Qed.

End TableLookup.

Lemma freq_bits_kept_all :
  forallb
    (fun e =>
       forallb (fun ea => freq_high_bits_kept e ea && freq_low_bits_kept e ea)
               nx_con_rumble_amplitudes)
    nx_con_rumble_frequencies = true.
Proof. vm_compute. reflexivity. Qed.

Lemma freq_bits_kept e ea :
  e ∈ nx_con_rumble_frequencies -> ea ∈ nx_con_rumble_amplitudes ->
  freq_high_bits_kept e ea = true /\ freq_low_bits_kept e ea = true.
Proof.
  intros He Hea. pose proof freq_bits_kept_all as Hall.
  rewrite forallb_forall in Hall.
  specialize (Hall e ltac:(by apply list_elem_of_In)).
  rewrite forallb_forall in Hall.
  specialize (Hall ea ltac:(by apply list_elem_of_In)).
  by apply andb_prop in Hall.
Qed.

Lemma nx_con_find_rumble_amp_zero a :
  a <= 0 -> nx_con_find_rumble_amp a = AMP 0x00 0x0040 0.
Proof.
  intros Ha. unfold nx_con_find_rumble_amp.
  rewrite (table_lookup_below amp nx_con_rumble_amplitudes); [done| |done].
  rewrite rumble_amplitudes_length. lia.
Qed.

(** C8. A request equal to the key of a frequency table entry is answered
    with that entry; a request of at most 1253 Hz (the last key) is
    answered with the first entry whose key is at least the request, so a
    request of at most 41 Hz (the first key) is answered with the first
    entry.  Encoding the keys of two entries (one for the low band, one
    for the high band) therefore writes that pair's bytes: byte 0 is the
    upper byte of the high-band word, and the lower byte of that word and
    the low-band byte are carried in bit 0 of byte 1 and bits 0 to 6 of
    byte 2, next to the amplitude's bits; with amplitude 0 bytes 1 and 2
    are exactly those two bytes. *)
Theorem rumble_freq_lookup_returns_entry :
  (forall e, e ∈ nx_con_rumble_frequencies ->
     nx_con_find_rumble_freq (freq e) = e) /\
  (forall v, v <= 1253 ->
     first_freq_at_least v = Some (nx_con_find_rumble_freq v)) /\
  (forall v, v <= 41 -> nx_con_find_rumble_freq v = FREQ 0x0000 0x01 41) /\
  (forall el eh a,
     el ∈ nx_con_rumble_frequencies -> eh ∈ nx_con_rumble_frequencies ->
     exists b0 b1 b2 b3,
       nx_con_encode_rumble (freq el) (freq eh) a = [b0; b1; b2; b3] /\
       b0 = Z.shiftr (freq_high eh) 8 /\
       Z.land b1 0x01 = Z.land (freq_high eh) 0xFF /\
       Z.land b2 0x7F = freq_low el /\
       (a <= 0 -> b1 = Z.land (freq_high eh) 0xFF /\ b2 = freq_low el)).
Proof.
  assert (Hlen : (2 <= length nx_con_rumble_frequencies)%nat)
    by (rewrite rumble_frequencies_length; lia).
  assert (Hexact : forall e, e ∈ nx_con_rumble_frequencies ->
            nx_con_find_rumble_freq (freq e) = e).
  { intros e He. unfold nx_con_find_rumble_freq.
    by apply (table_lookup_exact freq _ Hlen rumble_frequencies_ascending). }
  split; [exact Hexact|]. split; [|split].
  - intros v Hv. unfold first_freq_at_least, nx_con_find_rumble_freq.
    by apply (table_lookup_first freq _ Hlen rumble_frequencies_ascending).
  - intros v Hv. unfold nx_con_find_rumble_freq.
    by rewrite (table_lookup_below freq _ Hlen).
  - intros el eh a Hel Heh. unfold nx_con_encode_rumble.
    rewrite (Hexact el Hel), (Hexact eh Heh).
    eexists _, _, _, _. split; [reflexivity|].
    assert (Ha : nx_con_find_rumble_amp a ∈ nx_con_rumble_amplitudes).
    { unfold nx_con_find_rumble_amp.
      apply (table_lookup_elem amp).
      - rewrite rumble_amplitudes_length. lia.
      - exact rumble_amplitudes_ascending. }
    destruct (freq_bits_kept eh _ Heh Ha) as [Hh _].
    destruct (freq_bits_kept el _ Hel Ha) as [_ Hl].
    unfold freq_high_bits_kept in Hh. unfold freq_low_bits_kept in Hl.
    apply andb_prop in Hh as [Hh H3]. apply andb_prop in Hh as [H0 H1].
    apply andb_prop in Hl as [H2 H4].
    apply Z.eqb_eq in H0, H1, H2.
    split; [exact H0|]. split; [exact H1|]. split; [exact H2|].
    intros Ha0. rewrite (nx_con_find_rumble_amp_zero a Ha0) in *.
    cbn [amp negb Z.eqb orb] in H3, H4.
    apply Z.eqb_eq in H3, H4. done.
Qed.

(** ** Rumble scheduler *)

Lemma set_rumble_countdown c amp_r amp_l schedule_now :
  rumble_zero_countdown (nx_con_set_rumble c amp_r amp_l schedule_now).1 =
  if negb (amp_l =? 0) || negb (amp_r =? 0)
  then NX_CON_RUMBLE_ZERO_AMP_PKT_CNT else rumble_zero_countdown c.
Proof.
  unfold nx_con_set_rumble. cbn -[nx_con_encode_rumble u16 u32 Z.leb s32].
  destruct (negb (amp_l =? 0) || negb (amp_r =? 0));
    cbn -[nx_con_encode_rumble u16 u32 Z.leb s32];
    by destruct (_ <=? _).
Qed.

Lemma set_rumble_queue c amp_r amp_l schedule_now :
  0 <= rumble_queue_head c < NX_CON_RUMBLE_QUEUE_SIZE ->
  let c' := (nx_con_set_rumble c amp_r amp_l schedule_now).1 in
  rumble_queue_head c' = (rumble_queue_head c + 1) mod 8 /\
  rumble_queue_tail c' = rumble_queue_tail c /\
  state c' = state c.
Proof.
  unfold NX_CON_RUMBLE_QUEUE_SIZE. intros Hh.
  unfold nx_con_set_rumble.
  destruct (negb (amp_l =? 0) || negb (amp_r =? 0));
    cbn -[nx_con_encode_rumble u16 u32 Z.leb s32];
    unfold NX_CON_RUMBLE_QUEUE_SIZE;
    rewrite (s32_small (rumble_queue_head c + 1)) by lia;
    destruct (Z.leb_spec 8 (rumble_queue_head c + 1));
    cbn -[nx_con_encode_rumble u16 u32 Z.leb s32];
    repeat split;
    first [ done
          | rewrite Z.mod_small by lia; done
          | replace (rumble_queue_head c + 1) with 8 by lia; done ].
Qed.

Lemma ring_distance h t :
  0 <= h < 8 -> 0 <= t < 8 -> t <> h ->
  (h - t) mod 8 = (h - (t + 1) mod 8) mod 8 + 1.
Proof.
  intros Hh Ht Hne.
  assert (Hh' : h = 0 \/ h = 1 \/ h = 2 \/ h = 3 \/ h = 4 \/ h = 5 \/
                h = 6 \/ h = 7) by lia.
  assert (Ht' : t = 0 \/ t = 1 \/ t = 2 \/ t = 3 \/ t = 4 \/ t = 5 \/
                t = 6 \/ t = 7) by lia.
  destruct Hh' as [->|[->|[->|[->|[->|[->|[->| ->]]]]]]];
    destruct Ht' as [->|[->|[->|[->|[->|[->|[->| ->]]]]]]];
    first [lia | reflexivity].
Qed.

Section Scheduler.

Variable hw : transport.
Variable CONFIG_NINTENDO_FF : bool.
Variable BITS_PER_LONG : Z.

#[local] Abbreviation period_elapsed :=
  (rumble_period_elapsed CONFIG_NINTENDO_FF BITS_PER_LONG).
#[local] Abbreviation handle_report :=
  (nx_con_handle_rumble_report CONFIG_NINTENDO_FF BITS_PER_LONG).
#[local] Abbreviation report :=
  (rumble_report hw CONFIG_NINTENDO_FF BITS_PER_LONG).

(** With an empty queue and a positive countdown an opportunity fires
    and takes one off the countdown. *)
Lemma handle_rumble_report_counts c vibrator_report msecs :
  period_elapsed c vibrator_report msecs = true ->
  rumble_queue_head c = rumble_queue_tail c ->
  0 < rumble_zero_countdown c <= NX_CON_RUMBLE_ZERO_AMP_PKT_CNT ->
  handle_report c vibrator_report msecs =
  (set_rumble_zero_countdown (rumble_zero_countdown c - 1) c, true).
Proof.
  unfold NX_CON_RUMBLE_ZERO_AMP_PKT_CNT. intros Hp He Hk.
  unfold nx_con_handle_rumble_report. rewrite Hp.
  destruct (Z.ltb_spec 0 (rumble_zero_countdown c)); [|lia].
  rewrite orb_true_r. cbn [andb].
  unfold u16, wrap_u. by rewrite Z.mod_small by lia.
Qed.

(** With an empty queue and the countdown at 0 nothing fires, whatever
    the report. *)
Lemma handle_rumble_report_idle c vibrator_report msecs :
  rumble_queue_head c = rumble_queue_tail c ->
  rumble_zero_countdown c = 0 ->
  handle_report c vibrator_report msecs = (c, false).
Proof.
  intros He Hk. unfold nx_con_handle_rumble_report.
  rewrite He, Hk, Z.eqb_refl. cbn. by rewrite andb_false_r.
Qed.

Lemma hid_send_con data w : con (__nx_con_hid_send hw data w).2 = con w.
Proof.
  destruct (kmemdup_ok hw (n_sends w)) eqn:Hk.
  - by rewrite hid_send_done.
  - by rewrite hid_send_nomem.
Qed.

(** Sending the rumble data leaves the queue and the countdown alone. *)
Lemma send_rumble_data_queue w :
  let c' := con (nx_con_send_rumble_data hw w).2 in
  rumble_queue_head c' = rumble_queue_head (con w) /\
  rumble_queue_tail c' = rumble_queue_tail (con w) /\
  rumble_zero_countdown c' = rumble_zero_countdown (con w) /\
  state c' = state (con w).
Proof.
  assert (state (con w) = NX_CON_STATE_REMOVED \/
          state (con w) <> NX_CON_STATE_REMOVED) as [Hst|Hst]
    by (destruct (state (con w)); auto).
  - by rewrite send_rumble_data_removed.
  - rewrite send_rumble_data_run by done. cbv zeta. rewrite hid_send_con.
    cbn. unfold bump_subcmd_num.
    by destruct (_ <? _).
Qed.

(** The worker's loop ends within as many rounds as the tail is behind
    the head, plus one, and leaves the tail at the head. *)
Lemma rumble_worker_loop_drains fuel : forall w,
  0 <= rumble_queue_head (con w) < 8 ->
  0 <= rumble_queue_tail (con w) < 8 ->
  (rumble_queue_head (con w) - rumble_queue_tail (con w)) mod 8 < Z.of_nat fuel ->
  let r := nx_con_rumble_worker_loop hw fuel w in
  r.1 = true /\
  rumble_queue_tail (con r.2) = rumble_queue_head (con w) /\
  rumble_queue_head (con r.2) = rumble_queue_head (con w) /\
  rumble_zero_countdown (con r.2) = rumble_zero_countdown (con w) /\
  state (con r.2) = state (con w).
Proof.
  induction fuel as [|fuel IH]; intros w Hh Ht Hd.
  { pose proof (Z.mod_pos_bound
                  (rumble_queue_head (con w) - rumble_queue_tail (con w)) 8).
    lia. }
  rewrite rumble_worker_loop_S. cbv zeta.
  destruct (send_rumble_data_queue w) as (Eh & Et & Ek & Es).
  set (w1 := (nx_con_send_rumble_data hw w).2) in *.
  cbn [con upd_con tick_clock set_rumble_msecs rumble_queue_tail
       rumble_queue_head].
  rewrite Eh, Et.
  destruct (Z.eqb_spec (rumble_queue_tail (con w)) (rumble_queue_head (con w)))
    as [E|E]; cbn [negb].
  - cbn. by rewrite Et, Eh, Ek, Es.
  - match goal with |- context [nx_con_rumble_worker_loop hw fuel ?w'] =>
      set (w2 := w') end.
    assert (Eh2 : rumble_queue_head (con w2) = rumble_queue_head (con w)).
    { unfold w2. cbn -[s32 Z.leb]. unfold NX_CON_RUMBLE_QUEUE_SIZE.
      rewrite Et. by destruct (_ <=? _). }
    assert (Et2 : rumble_queue_tail (con w2) =
                  (rumble_queue_tail (con w) + 1) mod 8).
    { unfold w2. cbn -[s32 Z.leb]. unfold NX_CON_RUMBLE_QUEUE_SIZE.
      rewrite Et, s32_small by lia.
      destruct (Z.leb_spec 8 (rumble_queue_tail (con w) + 1)); cbn.
      - replace (rumble_queue_tail (con w) + 1) with 8 by lia. done.
      - by rewrite Z.mod_small by lia. }
    assert (Ek2 : rumble_zero_countdown (con w2) =
                  rumble_zero_countdown (con w)).
    { unfold w2. cbn -[s32 Z.leb]. rewrite <- Ek. by destruct (_ <=? _). }
    assert (Es2 : state (con w2) = state (con w)).
    { unfold w2. cbn -[s32 Z.leb]. rewrite <- Es. by destruct (_ <=? _). }
    destruct (IH w2) as (R1 & R2 & R3 & R4 & R5).
    + rewrite Eh2. lia.
    + rewrite Et2. apply Z.mod_pos_bound. lia.
    + rewrite Eh2, Et2.
      pose proof (ring_distance (rumble_queue_head (con w))
                    (rumble_queue_tail (con w)) Hh Ht E).
      lia.
    + rewrite R1, R2, R3, R4, R5, Eh2, Ek2, Es2. done.
Qed.

End Scheduler.

Section SchedulerRuns.

Variable hw : transport.
Variable CONFIG_NINTENDO_FF : bool.
Variable BITS_PER_LONG : Z.

#[local] Abbreviation period_elapsed' :=
  (rumble_period_elapsed CONFIG_NINTENDO_FF BITS_PER_LONG).
#[local] Abbreviation report' :=
  (rumble_report hw CONFIG_NINTENDO_FF BITS_PER_LONG).
#[local] Abbreviation reports' :=
  (rumble_reports hw CONFIG_NINTENDO_FF BITS_PER_LONG).
#[local] Abbreviation opportunities' :=
  (all_opportunities hw CONFIG_NINTENDO_FF BITS_PER_LONG).

Lemma rumble_worker_drains w :
  rumble_wf (con w) ->
  let r := nx_con_rumble_worker hw w in
  r.1 = true /\
  rumble_queue_tail (con r.2) = rumble_queue_head (con w) /\
  rumble_queue_head (con r.2) = rumble_queue_head (con w) /\
  rumble_zero_countdown (con r.2) = rumble_zero_countdown (con w) /\
  state (con r.2) = state (con w).
Proof.
  intros (Hh & Ht & _). unfold NX_CON_RUMBLE_QUEUE_SIZE in *.
  unfold nx_con_rumble_worker.
  apply rumble_worker_loop_drains; [done|done|].
  pose proof (Z.mod_pos_bound
                (rumble_queue_head (con w) - rumble_queue_tail (con w)) 8).
  change (Z.of_nat (Z.to_nat NX_CON_RUMBLE_QUEUE_SIZE)) with 8. lia.
Qed.

Lemma rumble_request_run w amp_r amp_l :
  rumble_request hw amp_r amp_l w =
  nx_con_rumble_worker hw
    (upd_con (fun _ => (nx_con_set_rumble (con w) amp_r amp_l true).1) w).
Proof.
  unfold rumble_request. mstep. unfold get_con. cbn [fst snd].
  unfold nx_con_set_rumble at 1. cbv zeta. mstep. by unfold modify_con.
Qed.

Lemma rumble_report_run w vibrator_report msecs :
  report' vibrator_report msecs w =
  let h := nx_con_handle_rumble_report CONFIG_NINTENDO_FF BITS_PER_LONG
             (con w) vibrator_report msecs in
  if h.2 then (true, (nx_con_rumble_worker hw (upd_con (fun _ => h.1) w)).2)
  else (false, upd_con (fun _ => h.1) w).
Proof.
  unfold rumble_report. mstep. unfold get_con. cbn [fst snd]. cbv zeta.
  destruct (nx_con_handle_rumble_report _ _ _ _ _) as [c [|]];
    cbn [fst snd]; mstep; unfold modify_con; cbn [fst snd]; [by mstep|done].
Qed.

(** A request: the queue is drained by the worker, and the countdown is
    5 after a non-zero request and untouched by a zero one. *)
Lemma rumble_request_spec w amp_r amp_l :
  rumble_wf (con w) ->
  rumble_wf (con (rumble_request hw amp_r amp_l w).2) /\
  rumble_queue_head (con (rumble_request hw amp_r amp_l w).2) =
    rumble_queue_tail (con (rumble_request hw amp_r amp_l w).2) /\
  rumble_zero_countdown (con (rumble_request hw amp_r amp_l w).2) =
    (if negb (amp_l =? 0) || negb (amp_r =? 0)
     then NX_CON_RUMBLE_ZERO_AMP_PKT_CNT
     else rumble_zero_countdown (con w)).
Proof.
  intros Hwf. pose proof Hwf as (Hh & Ht & Hk).
  rewrite rumble_request_run.
  pose proof (set_rumble_countdown (con w) amp_r amp_l true) as Ek.
  destruct (set_rumble_queue (con w) amp_r amp_l true Hh) as (Eh & Et & _).
  set (w1 := upd_con _ w).
  assert (Hwf1 : rumble_wf (con w1)).
  { unfold rumble_wf, NX_CON_RUMBLE_QUEUE_SIZE,
      NX_CON_RUMBLE_ZERO_AMP_PKT_CNT in *.
    cbn [w1 con upd_con]. rewrite Eh, Et, Ek.
    pose proof (Z.mod_pos_bound (rumble_queue_head (con w) + 1) 8).
    destruct (negb _ || negb _); lia. }
  destruct (rumble_worker_drains w1 Hwf1) as (_ & R2 & R3 & R4 & _).
  destruct Hwf1 as (Hh1 & Ht1 & Hk1).
  split; [|split].
  - unfold rumble_wf. rewrite R2, R3, R4. done.
  - by rewrite R2, R3.
  - rewrite R4. exact Ek.
Qed.

(** An opportunity with an empty queue and a positive countdown: the
    sender fires and the countdown goes down by one. *)
Lemma rumble_report_fires w vibrator_report msecs :
  rumble_wf (con w) ->
  rumble_queue_head (con w) = rumble_queue_tail (con w) ->
  period_elapsed' (con w) vibrator_report msecs = true ->
  0 < rumble_zero_countdown (con w) ->
  (report' vibrator_report msecs w).1 = true /\
  rumble_wf (con (report' vibrator_report msecs w).2) /\
  rumble_queue_head (con (report' vibrator_report msecs w).2) =
    rumble_queue_tail (con (report' vibrator_report msecs w).2) /\
  rumble_zero_countdown (con (report' vibrator_report msecs w).2) =
    rumble_zero_countdown (con w) - 1.
Proof.
  intros Hwf He Hp Hk. pose proof Hwf as (Hh & Ht & Hk5).
  rewrite rumble_report_run.
  rewrite handle_rumble_report_counts by (done || lia).
  cbv zeta. cbn [fst snd].
  set (w1 := upd_con _ w).
  assert (Hwf1 : rumble_wf (con w1)).
  { unfold rumble_wf in *. cbn [w1 con upd_con]. cbn. lia. }
  destruct (rumble_worker_drains w1 Hwf1) as (_ & R2 & R3 & R4 & _).
  split; [done|]. split; [|split].
  - unfold rumble_wf in *. rewrite R2, R3, R4. cbn. cbn in Hwf1. lia.
  - by rewrite R2, R3.
  - rewrite R4. done.
Qed.

(** With an empty queue and the countdown at 0 the sender stays idle:
    no report makes it fire and the world is left as it was. *)
Lemma rumble_report_idle w vibrator_report msecs :
  rumble_queue_head (con w) = rumble_queue_tail (con w) ->
  rumble_zero_countdown (con w) = 0 ->
  report' vibrator_report msecs w = (false, w).
Proof.
  intros He Hk. rewrite rumble_report_run.
  rewrite handle_rumble_report_idle by done. cbv zeta. cbn [fst snd].
  by rewrite upd_con_same.
Qed.

(** A run of opportunities from an empty queue: the first [k] fire,
    [k] being the countdown at the start, and the rest do not. *)
Lemma rumble_reports_count_down reports : forall w (k : nat),
  rumble_wf (con w) ->
  rumble_queue_head (con w) = rumble_queue_tail (con w) ->
  rumble_zero_countdown (con w) = Z.of_nat k ->
  opportunities' reports w ->
  (reports' reports w).1 =
    replicate (min k (length reports)) true ++
    replicate (length reports - k) false /\
  rumble_queue_head (con (reports' reports w).2) =
    rumble_queue_tail (con (reports' reports w).2) /\
  rumble_zero_countdown (con (reports' reports w).2) =
    Z.of_nat (k - length reports).
Proof.
  induction reports as [|[vib msecs] reports IH]; intros w k Hwf He Hk Hopp.
  - cbn. rewrite Nat.min_0_r, Nat.sub_0_r. done.
  - cbn [rumble_reports all_opportunities length] in *.
    destruct Hopp as [Hp Hopp]. cbv zeta.
    destruct k as [|k].
    + rewrite rumble_report_idle in * by done. cbn [fst snd] in *.
      destruct (IH w 0%nat Hwf He Hk Hopp) as (R1 & R2 & R3).
      rewrite R1, R2, R3. rewrite Nat.sub_0_r. done.
    + destruct (rumble_report_fires w vib msecs Hwf He Hp ltac:(lia))
        as (F1 & F2 & F3 & F4).
      cbn [fst snd]. rewrite F1.
      destruct (IH _ k F2 F3 ltac:(lia) Hopp) as (R1 & R2 & R3).
      rewrite R1, R2, R3. done.
Qed.

End SchedulerRuns.

(** C9. A rumble request with a non-zero amplitude on either side sets
    the silence countdown to 5, and a request with both amplitudes 0
    leaves it as it is.  An opportunity of the periodic sender (an input
    report that carries a vibrator byte, a full period after the last
    rumble send) that finds the queue empty fires and takes one off the
    countdown while the countdown is positive, and does nothing once it is
    0.  So after a non-zero request followed by a zero request, of six
    opportunities the first five fire and bring the countdown to 0, the
    sixth does not fire, no later report fires either, and the next
    non-zero request sets the countdown to 5 again. *)
Theorem rumble_silence_countdown
    (hw : transport) (CONFIG_NINTENDO_FF : bool) (BITS_PER_LONG : Z) :
  (forall c amp_r amp_l schedule_now,
     amp_l <> 0 \/ amp_r <> 0 ->
     rumble_zero_countdown (nx_con_set_rumble c amp_r amp_l schedule_now).1 = 5) /\
  (forall c schedule_now,
     rumble_zero_countdown (nx_con_set_rumble c 0 0 schedule_now).1 =
     rumble_zero_countdown c) /\
  (forall w vibrator_report msecs,
     rumble_wf (con w) ->
     rumble_queue_head (con w) = rumble_queue_tail (con w) ->
     rumble_period_elapsed CONFIG_NINTENDO_FF BITS_PER_LONG (con w)
       vibrator_report msecs = true ->
     let r := rumble_report hw CONFIG_NINTENDO_FF BITS_PER_LONG
                vibrator_report msecs w in
     (0 < rumble_zero_countdown (con w) ->
        r.1 = true /\
        rumble_zero_countdown (con r.2) = rumble_zero_countdown (con w) - 1 /\
        rumble_queue_head (con r.2) = rumble_queue_tail (con r.2)) /\
     (rumble_zero_countdown (con w) = 0 -> r = (false, w))) /\
  (forall w amp_r amp_l reports,
     rumble_wf (con w) ->
     amp_l <> 0 \/ amp_r <> 0 ->
     let w2 := (rumble_request hw 0 0 (rumble_request hw amp_r amp_l w).2).2 in
     length reports = 6%nat ->
     all_opportunities hw CONFIG_NINTENDO_FF BITS_PER_LONG reports w2 ->
     let r := rumble_reports hw CONFIG_NINTENDO_FF BITS_PER_LONG reports w2 in
     rumble_zero_countdown (con w2) = 5 /\
     r.1 = [true; true; true; true; true; false] /\
     rumble_zero_countdown (con r.2) = 0 /\
     (forall vibrator_report msecs,
        rumble_report hw CONFIG_NINTENDO_FF BITS_PER_LONG
          vibrator_report msecs r.2 = (false, r.2)) /\
     (forall a_r a_l,
        a_l <> 0 \/ a_r <> 0 ->
        rumble_zero_countdown (con (rumble_request hw a_r a_l r.2).2) = 5)).
Proof.
  assert (Hnz : forall a b, a <> 0 \/ b <> 0 ->
            negb (a =? 0) || negb (b =? 0) = true).
  { intros a b [H|H]; apply Z.eqb_neq in H; rewrite H; cbn; [done|].
    by rewrite orb_true_r. }
  split; [|split; [|split]].
  - intros c amp_r amp_l sn H. rewrite set_rumble_countdown.
    by rewrite (Hnz _ _ H).
  - intros c sn. by rewrite set_rumble_countdown.
  - intros w vib msecs Hwf He Hp r. split.
    + intros Hk.
      destruct (rumble_report_fires hw _ _ w vib msecs Hwf He Hp Hk)
        as (F1 & _ & F3 & F4).
      done.
    + intros Hk. by apply rumble_report_idle.
  - intros w amp_r amp_l reports Hwf Hamp w2 Hlen Hopp r.
    destruct (rumble_request_spec hw w amp_r amp_l Hwf) as (W1 & E1 & K1).
    rewrite (Hnz _ _ Hamp) in K1.
    destruct (rumble_request_spec hw _ 0 0 W1) as (W2 & E2 & K2).
    cbn [Z.eqb negb orb] in K2. rewrite K1 in K2. fold w2 in W2, E2, K2.
    destruct (rumble_reports_count_down hw CONFIG_NINTENDO_FF BITS_PER_LONG
                reports w2 5 W2 E2 K2 Hopp) as (R1 & R2 & R3).
    fold r in R1, R2, R3. rewrite Hlen in R1, R3. cbn in R1, R3.
    split; [exact K2|]. split; [exact R1|]. split; [exact R3|]. split.
    + intros vib msecs. by apply rumble_report_idle.
    + intros a_r a_l Ha.
      assert (Wr : rumble_wf (con r.2)).
      { unfold r.
        clear R1 R3 Hlen. revert Hopp W2 E2 K2. generalize w2.
        assert (G : forall reports w (k : nat), (k <= 5)%nat ->
                  rumble_wf (con w) ->
                  rumble_queue_head (con w) = rumble_queue_tail (con w) ->
                  rumble_zero_countdown (con w) = Z.of_nat k ->
                  all_opportunities hw CONFIG_NINTENDO_FF BITS_PER_LONG reports w ->
                  rumble_wf (con (rumble_reports hw CONFIG_NINTENDO_FF
                                    BITS_PER_LONG reports w).2)).
        { clear. induction reports as [|[vib msecs] reports IH];
            intros w k Hk5 Hwf He Hk Hopp; [done|].
          cbn [rumble_reports all_opportunities] in *. cbv zeta. cbn [snd].
          destruct Hopp as [Hp Hopp].
          destruct k as [|k].
          - rewrite rumble_report_idle in * by done.
            by apply (IH w 0%nat).
          - destruct (rumble_report_fires hw _ _ w vib msecs Hwf He Hp ltac:(lia))
              as (_ & F2 & F3 & F4).
            apply (IH _ k); try done; lia. }
        intros w0 Hopp W0 E0 K0. by apply (G reports w0 5%nat). }
      destruct (rumble_request_spec hw r.2 a_r a_l Wr) as (_ & _ & K).
      by rewrite (Hnz _ _ Ha) in K.
Qed.

Lemma rumble_silence_countdown_witness :
  rumble_wf (con world_init) /\
  all_opportunities hw_steady true 64 six_reports
    (rumble_request hw_steady 0 0
       (rumble_request hw_steady 0xFFFF 0x8000 world_init).2).2 /\
  (rumble_reports hw_steady true 64 six_reports
     (rumble_request hw_steady 0 0
        (rumble_request hw_steady 0xFFFF 0x8000 world_init).2).2).1 =
    [true; true; true; true; true; false].
Proof.
  assert (Hwf : rumble_wf (con world_init))
    by (vm_compute; intuition congruence).
  assert (Ho : all_opportunities hw_steady true 64 six_reports
                 (rumble_request hw_steady 0 0
                    (rumble_request hw_steady 0xFFFF 0x8000 world_init).2).2)
    by (vm_compute; tauto).
  assert (Hamp : 0x8000 <> 0 \/ 0xFFFF <> 0) by (left; discriminate).
  split; [exact Hwf|]. split; [exact Ho|].
  exact (proj1 (proj2
    (proj2 (proj2 (proj2 (rumble_silence_countdown hw_steady true 64)))
       world_init 0xFFFF 0x8000 six_reports Hwf Hamp eq_refl Ho))).
Defined.

(** * Further parts of the driver *)

(** ** Replies *)

Lemma reply_matches_none c data :
  msg_type c = NX_CON_MSG_TYPE_NONE -> reply_matches c data = false.
Proof. intros H. unfold reply_matches. by rewrite H. Qed.

Lemma handle_event_taken c data :
  reply_matches c data = true ->
  nx_con_handle_event c data =
  (true,
   set_received_resp true
     (set_msg_type NX_CON_MSG_TYPE_NONE
        (set_input_buf
           (take (Z.to_nat (Z.min (Z.of_nat (length data)) NX_CON_MAX_RESP_SIZE)) data ++
            drop (Z.to_nat (Z.min (Z.of_nat (length data)) NX_CON_MAX_RESP_SIZE))
                 (input_buf c)) c))).
Proof. intros H. unfold nx_con_handle_event. by rewrite H. Qed.

Lemma handle_event_left c data :
  reply_matches c data = false -> nx_con_handle_event c data = (false, c).
Proof. intros H. unfold nx_con_handle_event. by rewrite H. Qed.

(** The first frame of a window that matches is the one taken; frames
    before it and after it leave the session alone. *)
Lemma deliver_first_match c pre d post :
  Forall (fun data => reply_matches c data = false) pre ->
  reply_matches c d = true ->
  deliver c (pre ++ d :: post) = (nx_con_handle_event c d).2.
Proof.
  intros Hpre Hd. induction Hpre as [|x pre Hx _ IH].
  - cbn [app]. unfold deliver. cbn [foldl].
    fold (deliver (nx_con_handle_event c d).2 post).
    apply deliver_no_match.
    rewrite handle_event_taken by done. cbn [snd].
    apply Forall_forall. intros y _. by apply reply_matches_none.
  - cbn [app]. unfold deliver in *. cbn [foldl].
    by rewrite (handle_event_left c x Hx).
Qed.

Lemma copied_reply_length (data buf : list Z) :
  length buf = Z.to_nat NX_CON_MAX_RESP_SIZE ->
  length (take (Z.to_nat (Z.min (Z.of_nat (length data)) NX_CON_MAX_RESP_SIZE)) data ++
          drop (Z.to_nat (Z.min (Z.of_nat (length data)) NX_CON_MAX_RESP_SIZE)) buf) =
  Z.to_nat NX_CON_MAX_RESP_SIZE.
Proof.
  intros Hb. rewrite length_app, length_take, length_drop, Hb.
  change (Z.to_nat NX_CON_MAX_RESP_SIZE) with 84%nat.
  change NX_CON_MAX_RESP_SIZE with 84. lia.
Qed.


Lemma total_lookup_eqb (data : list Z) (i : nat) (v : Z) :
  (i < length data)%nat -> (data !!! i =? v) = true -> data !! i = Some v.
Proof.
  intros Hi H. apply Z.eqb_eq in H. subst v.
  by apply list_lookup_lookup_total_lt.
Qed.


Lemma reply_matches_subcmd c data :
  msg_type c = NX_CON_MSG_TYPE_SUBCMD -> reply_matches c data = true ->
  (49 <= length data)%nat /\
  data !! 0%nat = Some NX_CON_INPUT_SUBCMD_REPLY /\
  data !! 14%nat = Some (subcmd_ack_match c).
Proof.
  intros Hm. unfold reply_matches. rewrite Hm.
  unfold sizeof_nx_con_input_report.
  destruct (Z.ltb_spec (Z.of_nat (length data)) 49) as [|Hl]; [done|].
  cbn [orb]. destruct (data !!! 0%nat =? NX_CON_INPUT_SUBCMD_REPLY) eqn:H0; [|done].
  cbn [negb]. intros H1.
  split; [lia|]. split; apply total_lookup_eqb; (done || lia).
Qed.



Section SendSyncReply.

Variable hw : transport.

Lemma wait_resp_reply timeout w pre d post :
  received_resp (con w) = false ->
  incoming hw (n_waits w) = pre ++ d :: post ->
  Forall (fun data => reply_matches (con w) data = false) pre ->
  reply_matches (con w) d = true ->
  wait_event_timeout_resp hw timeout w =
  (true, add_event (EvWaitResp timeout true)
           (upd_con (fun c => (nx_con_handle_event c d).2) (tick_wait w))).
Proof.
  intros Hr Hin Hpre Hd. unfold wait_event_timeout_resp. mstep.
  unfold get_con at 1 2. cbn [fst snd]. rewrite Hr. msteps.
  unfold next_wait, modify_con, get_con, mreturn, log_event. cbn [fst snd].
  rewrite Hin. cbn [con upd_con tick_wait].
  rewrite deliver_first_match by done.
  rewrite handle_event_taken by done. cbn [snd received_resp set_received_resp].
  unfold upd_con, add_event. cbn.
  by rewrite deliver_first_match, handle_event_taken by done.
Qed.

(** An accepted send that is answered within its window ends the loop
    with 0. *)
Lemma send_sync_loop_reply tries ret data timeout w pre d post :
  let n := n_sends w in
  let r := s32 (hid_hw_output_report hw n data) in
  kmemdup_ok hw n = true -> 0 <= r ->
  received_resp (con w) = false ->
  incoming hw (n_waits w) = pre ++ d :: post ->
  Forall (fun x => reply_matches (con w) x = false) pre ->
  reply_matches (con w) d = true ->
  exists w1,
    nx_con_hid_send_sync_loop hw (S tries) ret data timeout w = (inr 0, w1) /\
    trace w1 = trace w ++ [EvOutputReport data r; EvWaitResp timeout true] /\
    con w1 =
      (nx_con_handle_event
         (set_last_subcmd_sent_msecs (u32 (jiffies_msecs hw (n_clock w))) (con w))
         d).2 /\
    n_sends w1 = S n /\ n_waits w1 = S (n_waits w).
Proof.
  intros n r Hk Hr Hresp Hin Hpre Hd.
  rewrite send_sync_loop_S, enforce_subcmd_rate_run.
  cbn zeta. cbn [fst snd].
  rewrite hid_send_done by done. cbn [fst snd n_sends upd_con tick_clock].
  fold n r. destruct (Z.ltb_spec r 0); [lia|].
  erewrite wait_resp_reply; [|done|exact Hin|exact Hpre|exact Hd].
  cbn [fst snd negb]. eexists. split; [done|].
  cbn. rewrite <- app_assoc. done.
Qed.

End SendSyncReply.

Lemma send_sync_loop_timeout_buf hw tries ret data timeout w :
  let n := n_sends w in
  let r := s32 (hid_hw_output_report hw n data) in
  kmemdup_ok hw n = true -> 0 <= r ->
  received_resp (con w) = false ->
  Forall (fun d => reply_matches (con w) d = false) (incoming hw (n_waits w)) ->
  exists w1,
    nx_con_hid_send_sync_loop hw (S tries) ret data timeout w =
    nx_con_hid_send_sync_loop hw tries (- ETIMEDOUT) data timeout w1 /\
    trace w1 = trace w ++ [EvOutputReport data r; EvWaitResp timeout false] /\
    n_sends w1 = S n /\ n_waits w1 = S (n_waits w) /\
    received_resp (con w1) = false /\
    (forall d, reply_matches (con w1) d = reply_matches (con w) d) /\
    input_buf (con w1) = zero_input_buf /\
    forget_sync (con w1) = forget_sync (con w).
Proof.
  intros n r Hk Hr Hresp Hno.
  rewrite send_sync_loop_S, enforce_subcmd_rate_run.
  cbn zeta. cbn [fst snd].
  rewrite hid_send_done by done. cbn [fst snd n_sends upd_con tick_clock].
  fold n r. destruct (Z.ltb_spec r 0); [lia|].
  rewrite wait_resp_timeout by done. cbn [fst snd negb].
  eexists. split; [done|].
  cbn. rewrite <- app_assoc. done.
Qed.

(** X1. [nx_con_hid_send_sync] when the device answers.  With no stale
    reply pending and a send the transport accepts: if a matching frame
    arrives in the first window, the call returns 0 after one send and
    one sleep, the reply flag is cleared again, and the reply buffer
    starts with the frame (bytes past the frame keep their old content);
    if the first window passes unanswered and a matching frame arrives in
    the retry's window, the call returns 0 after two sends, and the bytes
    of the buffer past the frame are 0, the buffer having been cleared
    after the time-out. *)
Theorem nx_con_hid_send_sync_reply
    (hw : transport) (data : list Z) (timeout : Z) (w : world)
    (pre post : list (list Z)) (d : list Z) :
  let n := n_sends w in
  let r0 := s32 (hid_hw_output_report hw n data) in
  let r1 := s32 (hid_hw_output_report hw (S n) data) in
  let k := Nat.min (length d) 84 in
  received_resp (con w) = false ->
  length (input_buf (con w)) = Z.to_nat NX_CON_MAX_RESP_SIZE ->
  kmemdup_ok hw n = true -> 0 <= r0 ->
  Forall (fun x => reply_matches (con w) x = false) pre ->
  reply_matches (con w) d = true ->
  (incoming hw (n_waits w) = pre ++ d :: post ->
   exists w',
     nx_con_hid_send_sync hw data timeout w = (0, w') /\
     trace w' = trace w ++ [EvOutputReport data r0; EvWaitResp timeout true] /\
     received_resp (con w') = false /\
     msg_type (con w') = NX_CON_MSG_TYPE_NONE /\
     (forall i : nat, (i < k)%nat -> input_buf (con w') !! i = d !! i) /\
     (forall i : nat, (k <= i)%nat ->
        input_buf (con w') !! i = input_buf (con w) !! i)) /\
  (Forall (fun x => reply_matches (con w) x = false) (incoming hw (n_waits w)) ->
   kmemdup_ok hw (S n) = true -> 0 <= r1 ->
   incoming hw (S (n_waits w)) = pre ++ d :: post ->
   exists w',
     nx_con_hid_send_sync hw data timeout w = (0, w') /\
     trace w' = trace w ++
       [EvOutputReport data r0; EvWaitResp timeout false;
        EvOutputReport data r1; EvWaitResp timeout true] /\
     received_resp (con w') = false /\
     msg_type (con w') = NX_CON_MSG_TYPE_NONE /\
     (forall i : nat, (i < k)%nat -> input_buf (con w') !! i = d !! i) /\
     (forall i : nat, (k <= i < 84)%nat -> input_buf (con w') !! i = Some 0)).
Proof.
  intros n r0 r1 k Hresp Hlen Hk0 Hr0 Hpre Hd.
  assert (Hkn : Z.to_nat (Z.min (Z.of_nat (length d)) NX_CON_MAX_RESP_SIZE) = k).
  { unfold k. change NX_CON_MAX_RESP_SIZE with 84. lia. }
  assert (Htk : length (take k d) = k) by (rewrite length_take; unfold k; lia).
  unfold nx_con_hid_send_sync. split.
  - intros Hin. mstep.
    destruct (send_sync_loop_reply hw 1 0 data timeout w pre d post)
      as (w1 & -> & Htr & Hc & _); try done.
    cbn [fst snd]. mstep. unfold modify_con, mreturn. cbn [fst snd].
    eexists. split; [done|]. cbn [trace con upd_con]. split; [exact Htr|].
    rewrite Hc, handle_event_taken
      by (by rewrite (reply_matches_ext (con w))).
    cbn [snd received_resp msg_type input_buf set_received_resp set_msg_type
         set_input_buf set_last_subcmd_sent_msecs].
    split; [done|]. split; [done|]. rewrite Hkn. split.
    + intros i Hi. rewrite lookup_app_l by lia. by rewrite lookup_take_lt.
    + intros i Hi. rewrite lookup_app_r by lia.
      rewrite Htk, lookup_drop. f_equal. lia.
  - intros Hno Hk1 Hr1 Hin. mstep.
    destruct (send_sync_loop_timeout_buf hw 1 0 data timeout w)
      as (w1 & -> & Htr1 & Hn1 & Hw1 & Hresp1 & Hm1 & Hbuf1 & _); try done.
    destruct (send_sync_loop_reply hw 0 (- ETIMEDOUT) data timeout w1 pre d post)
      as (w2 & -> & Htr2 & Hc2 & _); try done.
    { by rewrite Hn1. }
    { by rewrite Hn1. }
    { by rewrite Hw1. }
    { eapply Forall_impl; [exact Hpre|]. intros x Hx. cbn beta in *.
      by rewrite Hm1. }
    { by rewrite Hm1. }
    cbn [fst snd]. mstep. unfold modify_con, mreturn. cbn [fst snd].
    eexists. split; [done|]. cbn [trace con upd_con].
    split; [rewrite Htr2, Htr1, Hn1, <- app_assoc; done|].
    rewrite Hc2, handle_event_taken
      by (rewrite (reply_matches_ext (con w1)), Hm1; done).
    cbn [snd received_resp msg_type input_buf set_received_resp set_msg_type
         set_input_buf set_last_subcmd_sent_msecs].
    split; [done|]. split; [done|]. rewrite Hkn, Hbuf1. split.
    + intros i Hi. rewrite lookup_app_l by lia. by rewrite lookup_take_lt.
    + intros i Hi. rewrite lookup_app_r by lia.
      rewrite Htk, lookup_drop. unfold zero_input_buf.
      apply lookup_replicate_2. change (Z.to_nat NX_CON_MAX_RESP_SIZE) with 84%nat.
      lia.
Qed.

Lemma nx_con_hid_send_sync_reply_witness :
  (exists w',
     nx_con_hid_send_sync (hw_replying usb_handshake_reply) [0x80; 0x02] 250
       world_usb_pending = (0, w') /\
     trace w' = [EvOutputReport [0x80; 0x02] 2; EvWaitResp 250 true]) /\
  (exists w',
     nx_con_hid_send_sync (hw_second_try usb_handshake_reply) [0x80; 0x02] 250
       world_usb_pending = (0, w') /\
     trace w' = [EvOutputReport [0x80; 0x02] 2; EvWaitResp 250 false;
                 EvOutputReport [0x80; 0x02] 2; EvWaitResp 250 true]).
Proof.
  split.
  - destruct (proj1 (nx_con_hid_send_sync_reply
                (hw_replying usb_handshake_reply) [0x80; 0x02] 250
                world_usb_pending [] [] usb_handshake_reply
                eq_refl eq_refl eq_refl ltac:(vm_compute; congruence)
                (Forall_nil_2 _) eq_refl) eq_refl)
      as (w' & E & T & _).
    exists w'. split; [exact E|exact T].
  - destruct (proj2 (nx_con_hid_send_sync_reply
                (hw_second_try usb_handshake_reply) [0x80; 0x02] 250
                world_usb_pending [] [] usb_handshake_reply
                eq_refl eq_refl eq_refl ltac:(vm_compute; congruence)
                (Forall_nil_2 _) eq_refl)
              (Forall_nil_2 _) eq_refl ltac:(vm_compute; congruence) eq_refl)
      as (w' & E & T & _).
    exists w'. split; [exact E|exact T].
Defined.

(** ** The command path touches only its own members *)

Lemma sync_only_refl w : sync_only w w.
Proof. by split. Qed.

Lemma sync_only_trans w1 w2 w3 :
  sync_only w1 w2 -> sync_only w2 w3 -> sync_only w1 w3.
Proof. intros [F1 L1] [F2 L2]. split; [congruence|auto]. Qed.

Lemma sync_only_con w w' : con w' = con w -> sync_only w w'.
Proof. intros E. unfold sync_only. by rewrite E. Qed.

Lemma deliver_sync c frames :
  forget_sync (deliver c frames) = forget_sync c /\
  (length (input_buf c) = Z.to_nat NX_CON_MAX_RESP_SIZE ->
   length (input_buf (deliver c frames)) = Z.to_nat NX_CON_MAX_RESP_SIZE).
Proof.
  revert c. induction frames as [|d frames IH]; intros c; [done|].
  unfold deliver in *. cbn [foldl].
  destruct (IH (nx_con_handle_event c d).2) as [F L].
  destruct (reply_matches c d) eqn:Hm.
  - rewrite handle_event_taken in * by done. cbn [snd] in *.
    split; [by rewrite F|]. intros Hl. apply L. cbn. by apply copied_reply_length.
  - rewrite handle_event_left in * by done. done.
Qed.

Section SyncOnly.

Variable hw : transport.

Lemma hid_send_sync_only data w : sync_only w (__nx_con_hid_send hw data w).2.
Proof. apply sync_only_con, hid_send_con. Qed.

Lemma wait_resp_sync_only timeout w :
  sync_only w (wait_event_timeout_resp hw timeout w).2.
Proof.
  unfold wait_event_timeout_resp. mstep. unfold get_con at 1 2. cbn [fst snd].
  destruct (received_resp (con w)).
  - msteps. unfold mreturn, log_event. cbn [fst snd]. by apply sync_only_con.
  - msteps. unfold next_wait, modify_con, get_con, mreturn, log_event.
    cbn [fst snd]. unfold sync_only. cbn [con add_event upd_con tick_wait].
    apply deliver_sync.
Qed.

Lemma memset_sync_only w : sync_only w (upd_con (set_input_buf zero_input_buf) w).
Proof. split; [reflexivity|]. intros _. reflexivity. Qed.

Lemma send_sync_loop_sync_only tries ret data timeout w :
  sync_only w (nx_con_hid_send_sync_loop hw tries ret data timeout w).2.
Proof.
  revert ret w. induction tries as [|tries IH]; intros ret w.
  - apply sync_only_refl.
  - rewrite send_sync_loop_S, enforce_subcmd_rate_run. cbn zeta. cbn [fst snd].
    set (w1 := upd_con _ (tick_clock w)).
    assert (H1 : sync_only w w1) by (by split).
    pose proof (hid_send_sync_only data w1) as H2.
    destruct (_ <? 0).
    + cbn [snd]. eapply sync_only_trans; [exact H1|].
      eapply sync_only_trans; [exact H2|]. apply memset_sync_only.
    + pose proof (wait_resp_sync_only timeout
                    (__nx_con_hid_send hw data w1).2) as H3.
      destruct (negb _).
      * eapply sync_only_trans; [exact H1|].
        eapply sync_only_trans; [exact H2|].
        eapply sync_only_trans; [exact H3|].
        eapply sync_only_trans; [apply memset_sync_only|apply IH].
      * cbn [snd]. eapply sync_only_trans; [exact H1|].
        eapply sync_only_trans; [exact H2|]. exact H3.
Qed.

Lemma send_sync_sync_only data timeout w :
  sync_only w (nx_con_hid_send_sync hw data timeout w).2.
Proof.
  unfold nx_con_hid_send_sync. mstep.
  pose proof (send_sync_loop_sync_only 2 0 data timeout w) as H.
  destruct (nx_con_hid_send_sync_loop hw 2 0 data timeout w) as [[e|e] w'];
    cbn [fst snd] in *; [done|].
  mstep. unfold modify_con, mreturn. cbn [fst snd].
  eapply sync_only_trans; [exact H|]. by split.
Qed.

Lemma send_subcmd_sync_only subcmd_id data timeout w :
  sync_only w (nx_con_send_subcmd hw subcmd_id data timeout w).2.
Proof.
  assert (state (con w) = NX_CON_STATE_REMOVED \/
          state (con w) <> NX_CON_STATE_REMOVED) as [Hst|Hst]
    by (destruct (state (con w)); auto).
  - rewrite send_subcmd_removed by done. apply sync_only_refl.
  - rewrite send_subcmd_run by done. cbv zeta. cbn [snd].
    eapply sync_only_trans; [|apply send_sync_sync_only].
    split.
    + cbn [con upd_con]. unfold bump_subcmd_num. by destruct (_ <? _).
    + cbn [con upd_con]. unfold bump_subcmd_num. by destruct (_ <? _).
Qed.

Variable HZ : Z.

Lemma flash_read_spec start_addr size w :
  let r := nx_con_request_spi_flash_read hw HZ start_addr size w in
  sync_only w r.2 /\
  (r.1.1 = 0 -> r.1.2 = drop flash_reply_offset (input_buf (con r.2))) /\
  (r.1.1 = (nx_con_send_subcmd hw NX_CON_SUBCMD_SPI_FLASH_READ
              (put_unaligned_le32 start_addr ++ [size]) HZ w).1) /\
  r.2 = (nx_con_send_subcmd hw NX_CON_SUBCMD_SPI_FLASH_READ
           (put_unaligned_le32 start_addr ++ [size]) HZ w).2.
Proof.
  cbv zeta. unfold nx_con_request_spi_flash_read. mstep.
  pose proof (send_subcmd_sync_only NX_CON_SUBCMD_SPI_FLASH_READ
                (put_unaligned_le32 start_addr ++ [size]) HZ w) as Hs.
  destruct (nx_con_send_subcmd _ _ _ _ _) as [ret w1]. cbn [fst snd] in *.
  destruct (Z.eqb_spec ret 0) as [->|Hne]; cbn [negb].
  - mstep. unfold get_con, mreturn. cbn [fst snd]. done.
  - unfold mreturn. cbn [fst snd]. done.
Qed.

Lemma check_for_cal_magic_sync_only flash_addr w :
  sync_only w (nx_con_check_for_cal_magic hw HZ flash_addr w).2.
Proof.
  unfold nx_con_check_for_cal_magic. mstep.
  destruct (flash_read_spec flash_addr NX_CON_CAL_USR_MAGIC_SIZE w) as (Hs & _).
  destruct (nx_con_request_spi_flash_read _ _ _ _ _) as [[ret reply] w1].
  cbn [fst snd] in *. by destruct (negb _).
Qed.

End SyncOnly.

(** ** Stick calibration *)

Lemma stick_cal_12bit_dflt : stick_cal_12bit dflt_stick_cal.
Proof. vm_compute. intuition congruence. Qed.

Lemma stick_cal_12bit_fields center above below :
  0 <= center < 4096 -> 0 <= above < 4096 -> 0 <= below < 4096 ->
  stick_cal_12bit
    {| cal_max := s32 (center + above);
       cal_min := s32 (center - below);
       cal_center := center |}.
Proof.
  intros Hc Ha Hb. unfold stick_cal_12bit. cbn.
  rewrite !s32_small by lia. lia.
Qed.

Section StickCalibration.

Variable hw : transport.
Variable HZ : Z.

(** A read of a stick's calibration either fails and stores nothing, or
    stores two calibrations built from 12-bit fields. *)
Lemma read_stick_calibration_spec cal_addr cal_x cal_y left_stick w :
  exists w1,
    sync_only w w1 /\
    ((nx_con_read_stick_calibration hw HZ cal_addr cal_x cal_y left_stick w).1 <> 0 /\
     (nx_con_read_stick_calibration hw HZ cal_addr cal_x cal_y left_stick w).2 = w1 \/
     (nx_con_read_stick_calibration hw HZ cal_addr cal_x cal_y left_stick w).1 = 0 /\
     exists vx vy,
       stick_cal_12bit vx /\ stick_cal_12bit vy /\
       (nx_con_read_stick_calibration hw HZ cal_addr cal_x cal_y left_stick w).2 =
         upd_con (cal_y vy) (upd_con (cal_x vx) w1)).
Proof.
  unfold nx_con_read_stick_calibration. mstep.
  destruct (flash_read_spec hw HZ cal_addr NX_CON_CAL_STICK_DATA_SIZE w)
    as (Hs & _).
  destruct (nx_con_request_spi_flash_read _ _ _ _ _) as [[ret raw] w1].
  cbn [fst snd] in *. exists w1. split; [exact Hs|].
  destruct (Z.eqb_spec ret 0) as [->|Hne]; cbn [negb].
  - right.
    pose proof (hid_field_extract_range (drop 0 raw) 0 12 ltac:(lia)) as H0.
    pose proof (hid_field_extract_range (drop 1 raw) 4 12 ltac:(lia)) as H1.
    pose proof (hid_field_extract_range (drop 3 raw) 0 12 ltac:(lia)) as H3.
    pose proof (hid_field_extract_range (drop 4 raw) 4 12 ltac:(lia)) as H4.
    pose proof (hid_field_extract_range (drop 6 raw) 0 12 ltac:(lia)) as H6.
    pose proof (hid_field_extract_range (drop 7 raw) 4 12 ltac:(lia)) as H7.
    change (2 ^ 12) with 4096 in *.
    destruct left_stick; cbv zeta; msteps; unfold modify_con, mreturn;
      cbn [fst snd]; (split; [done|]); eexists _, _;
      (split; [|split; [|reflexivity]]);
      by apply stick_cal_12bit_fields.
  - left. unfold mreturn. cbn [fst snd]. done.
Qed.

End StickCalibration.

Lemma sync_only_fields w w' :
  sync_only w w' ->
  left_stick_cal_x (con w') = left_stick_cal_x (con w) /\
  left_stick_cal_y (con w') = left_stick_cal_y (con w) /\
  right_stick_cal_x (con w') = right_stick_cal_x (con w) /\
  right_stick_cal_y (con w') = right_stick_cal_y (con w) /\
  state (con w') = state (con w) /\
  forget_stick_cal (forget_sync (con w')) = forget_stick_cal (forget_sync (con w)).
Proof.
  intros [F _].
  repeat split.
  - exact (f_equal left_stick_cal_x F).
  - exact (f_equal left_stick_cal_y F).
  - exact (f_equal right_stick_cal_x F).
  - exact (f_equal right_stick_cal_y F).
  - exact (f_equal state F).
  - exact (f_equal forget_stick_cal F).
Qed.

Section RequestCalibration.

Variable hw : transport.
Variable HZ : Z.

(** A read followed by the driver's fall-back: in either case two 12-bit
    calibrations are stored over a session that otherwise changed in its
    synchronisation members only. *)
Lemma read_stick_calibration_or_default cal_addr cal_x cal_y left_stick w :
  let r := nx_con_read_stick_calibration hw HZ cal_addr cal_x cal_y left_stick w in
  exists w1 vx vy,
    sync_only w w1 /\ stick_cal_12bit vx /\ stick_cal_12bit vy /\
    (if negb (r.1 =? 0)
     then upd_con (cal_y dflt_stick_cal) (upd_con (cal_x dflt_stick_cal) r.2)
     else r.2) = upd_con (cal_y vy) (upd_con (cal_x vx) w1) /\
    (r.1 <> 0 -> vx = dflt_stick_cal /\ vy = dflt_stick_cal /\ r.2 = w1).
Proof.
  cbv zeta.
  destruct (read_stick_calibration_spec hw HZ cal_addr cal_x cal_y left_stick w)
    as (w1 & Hs & [[Hne ->]|(-> & vx & vy & Hx & Hy & ->)]).
  - exists w1, dflt_stick_cal, dflt_stick_cal.
    split; [exact Hs|]. split; [apply stick_cal_12bit_dflt|].
    split; [apply stick_cal_12bit_dflt|].
    apply Z.eqb_neq in Hne. rewrite Hne. done.
  - exists w1, vx, vy. cbn [Z.eqb negb]. done.
Qed.

Lemma request_calibration_run w :
  nx_con_request_calibration hw HZ w =
  let m1 := nx_con_check_for_cal_magic hw HZ NX_CON_CAL_USR_LEFT_MAGIC_ADDR w in
  let m2 := nx_con_check_for_cal_magic hw HZ NX_CON_CAL_USR_RIGHT_MAGIC_ADDR m1.2 in
  let r3 := nx_con_read_stick_calibration hw HZ
              (if m1.1 =? 0 then NX_CON_CAL_USR_LEFT_DATA_ADDR
               else NX_CON_CAL_FCT_DATA_LEFT_ADDR)
              set_left_stick_cal_x set_left_stick_cal_y true m2.2 in
  let w3 := if negb (r3.1 =? 0)
            then upd_con (set_left_stick_cal_y dflt_stick_cal)
                   (upd_con (set_left_stick_cal_x dflt_stick_cal) r3.2)
            else r3.2 in
  let r4 := nx_con_read_stick_calibration hw HZ
              (if m2.1 =? 0 then NX_CON_CAL_USR_RIGHT_DATA_ADDR
               else NX_CON_CAL_FCT_DATA_RIGHT_ADDR)
              set_right_stick_cal_x set_right_stick_cal_y false w3 in
  let w4 := if negb (r4.1 =? 0)
            then upd_con (set_right_stick_cal_y dflt_stick_cal)
                   (upd_con (set_right_stick_cal_x dflt_stick_cal) r4.2)
            else r4.2 in
  (0, w4).
Proof.
  unfold nx_con_request_calibration. msteps. cbv zeta.
  set (m1 := nx_con_check_for_cal_magic hw HZ NX_CON_CAL_USR_LEFT_MAGIC_ADDR w).
  set (m2 := nx_con_check_for_cal_magic hw HZ NX_CON_CAL_USR_RIGHT_MAGIC_ADDR m1.2).
  set (r3 := nx_con_read_stick_calibration hw HZ _ set_left_stick_cal_x
               set_left_stick_cal_y true m2.2).
  clearbody r3.
  destruct (negb (r3.1 =? 0)); msteps; unfold modify_con, mreturn; cbn [fst snd].
  all: match goal with
       | |- context [nx_con_read_stick_calibration hw HZ ?a ?x ?y false ?w0] =>
           set (r4 := nx_con_read_stick_calibration hw HZ a x y false w0)
       end; clearbody r4.
  all: destruct (negb (r4.1 =? 0)); msteps; reflexivity.
Qed.

Lemma flash_read_removed start_addr size w :
  state (con w) = NX_CON_STATE_REMOVED ->
  nx_con_request_spi_flash_read hw HZ start_addr size w = (- ENODEV, [], w).
Proof.
  intros Hst. unfold nx_con_request_spi_flash_read. cbv zeta. mstep.
  rewrite send_subcmd_removed by exact Hst. cbn [fst snd]. reflexivity.
Qed.

Lemma check_for_cal_magic_removed flash_addr w :
  state (con w) = NX_CON_STATE_REMOVED ->
  nx_con_check_for_cal_magic hw HZ flash_addr w = (- ENODEV, w).
Proof.
  intros Hst. unfold nx_con_check_for_cal_magic. mstep.
  rewrite flash_read_removed by exact Hst. reflexivity.
Qed.

Lemma read_stick_calibration_removed cal_addr cal_x cal_y left_stick w :
  state (con w) = NX_CON_STATE_REMOVED ->
  nx_con_read_stick_calibration hw HZ cal_addr cal_x cal_y left_stick w =
    (- ENODEV, w).
Proof.
  intros Hst. unfold nx_con_read_stick_calibration. mstep.
  rewrite flash_read_removed by exact Hst. reflexivity.
Qed.

(** X3. Whatever the controller answers (or fails to answer),
    [nx_con_request_calibration] returns 0 and leaves four stick
    calibrations whose centre and distances are 12-bit values; besides
    the members [nx_con_hid_send_sync] uses, it changes only these four
    members of the session. *)
Theorem nx_con_request_calibration_always_usable w :
  let r := nx_con_request_calibration hw HZ w in
  r.1 = 0 /\
  stick_cal_12bit (left_stick_cal_x (con r.2)) /\
  stick_cal_12bit (left_stick_cal_y (con r.2)) /\
  stick_cal_12bit (right_stick_cal_x (con r.2)) /\
  stick_cal_12bit (right_stick_cal_y (con r.2)) /\
  forget_stick_cal (forget_sync (con r.2)) =
    forget_stick_cal (forget_sync (con w)).
Proof.
  cbv zeta. rewrite request_calibration_run. cbv zeta. cbn [fst snd].
  set (m1 := nx_con_check_for_cal_magic hw HZ NX_CON_CAL_USR_LEFT_MAGIC_ADDR w).
  set (m2 := nx_con_check_for_cal_magic hw HZ NX_CON_CAL_USR_RIGHT_MAGIC_ADDR m1.2).
  pose proof (check_for_cal_magic_sync_only hw HZ NX_CON_CAL_USR_LEFT_MAGIC_ADDR w)
    as S1. fold m1 in S1.
  pose proof (check_for_cal_magic_sync_only hw HZ NX_CON_CAL_USR_RIGHT_MAGIC_ADDR m1.2)
    as S2. fold m2 in S2.
  destruct (read_stick_calibration_or_default
              (if m1.1 =? 0 then NX_CON_CAL_USR_LEFT_DATA_ADDR
               else NX_CON_CAL_FCT_DATA_LEFT_ADDR)
              set_left_stick_cal_x set_left_stick_cal_y true m2.2)
    as (w1 & vx & vy & S3 & Hvx & Hvy & E3 & _).
  rewrite E3. clear E3.
  destruct (read_stick_calibration_or_default
              (if m2.1 =? 0 then NX_CON_CAL_USR_RIGHT_DATA_ADDR
               else NX_CON_CAL_FCT_DATA_RIGHT_ADDR)
              set_right_stick_cal_x set_right_stick_cal_y false
              (upd_con (set_left_stick_cal_y vy)
                 (upd_con (set_left_stick_cal_x vx) w1)))
    as (w2 & ux & uy & S4 & Hux & Huy & E4 & _).
  rewrite E4. clear E4.
  pose proof (sync_only_trans _ _ _ (sync_only_trans _ _ _ S1 S2) S3) as S13.
  apply sync_only_fields in S13 as (_ & _ & _ & _ & _ & F13).
  apply sync_only_fields in S4 as (Flx & Fly & _ & _ & _ & F4).
  cbn in Flx, Fly.
  split; [reflexivity|].
  split; [cbn; by rewrite Flx|].
  split; [cbn; by rewrite Fly|].
  split; [cbn; exact Hux|].
  split; [cbn; exact Huy|].
  rewrite <- F13.
  unfold forget_stick_cal, forget_sync in *. cbn in *. exact F4.
Qed.

(** X4. On a session that has been removed, [nx_con_request_calibration]
    sends nothing and stores the default calibration for both sticks. *)
Theorem nx_con_request_calibration_removed w :
  state (con w) = NX_CON_STATE_REMOVED ->
  nx_con_request_calibration hw HZ w =
    (0, upd_con (set_right_stick_cal_y dflt_stick_cal)
          (upd_con (set_right_stick_cal_x dflt_stick_cal)
             (upd_con (set_left_stick_cal_y dflt_stick_cal)
                (upd_con (set_left_stick_cal_x dflt_stick_cal) w)))).
Proof.
  intros Hst. rewrite request_calibration_run. cbv zeta.
  rewrite (check_for_cal_magic_removed _ w) by exact Hst. cbn [fst snd].
  rewrite (check_for_cal_magic_removed _ w) by exact Hst. cbn [fst snd].
  rewrite (read_stick_calibration_removed _ _ _ _ w) by exact Hst.
  cbn [fst snd].
  change (negb (- ENODEV =? 0)) with true. cbv iota.
  rewrite read_stick_calibration_removed by (cbn; exact Hst).
  reflexivity.
Qed.

End RequestCalibration.

Lemma nx_con_request_calibration_removed_witness :
  nx_con_request_calibration hw_silent 250 world_removed =
    (0, upd_con (set_right_stick_cal_y dflt_stick_cal)
          (upd_con (set_right_stick_cal_x dflt_stick_cal)
             (upd_con (set_left_stick_cal_y dflt_stick_cal)
                (upd_con (set_left_stick_cal_x dflt_stick_cal) world_removed)))).
Proof. apply nx_con_request_calibration_removed. reflexivity. Defined.

(** ** IMU calibration loader *)

Ltac list3 :=
  repeat match goal with
    | H : length ?l = 3%nat |- _ =>
        is_var l;
        destruct l as [|? [|? [|? [|? ?]]]]; try discriminate H; clear H
    end.

Lemma imu_cal_store_defaults_spec c :
  nx_con_sized c ->
  accel_cal (imu_cal_store_defaults c) = dflt_accel_cal /\
  gyro_cal (imu_cal_store_defaults c) = dflt_gyro_cal /\
  imu_cal_accel_divisor (imu_cal_store_defaults c) = imu_cal_accel_divisor c /\
  imu_cal_gyro_divisor (imu_cal_store_defaults c) = imu_cal_gyro_divisor c /\
  nx_con_sized (imu_cal_store_defaults c).
Proof.
  unfold nx_con_sized.
  destruct c as [? ? ? ? ? ? ? ? ? ? ? ? ? [ao asc] [go gsc] ad gd
                 ? ? ? ? ? ? ? ? ? ? ? ? ? ? ?].
  cbn [input_buf accel_cal gyro_cal imu_cal_accel_divisor imu_cal_gyro_divisor
       offset scale].
  intros (Hb & ? & ? & ? & ? & ? & ?). list3.
  cbn. done.
Qed.

Lemma imu_cal_parse_spec raw c :
  nx_con_sized c ->
  accel_cal (imu_cal_parse raw c) =
    {| offset := (fun i : nat => s16 (get_unaligned_le16 (drop (i * 2) raw)))
                   <$> seq 0 3;
       scale := (fun i : nat => s16 (get_unaligned_le16 (drop (i * 2 + 6) raw)))
                  <$> seq 0 3 |} /\
  gyro_cal (imu_cal_parse raw c) =
    {| offset := (fun i : nat => s16 (get_unaligned_le16 (drop (i * 2 + 12) raw)))
                   <$> seq 0 3;
       scale := (fun i : nat => s16 (get_unaligned_le16 (drop (i * 2 + 18) raw)))
                  <$> seq 0 3 |} /\
  imu_cal_accel_divisor (imu_cal_parse raw c) = imu_cal_accel_divisor c /\
  imu_cal_gyro_divisor (imu_cal_parse raw c) = imu_cal_gyro_divisor c /\
  nx_con_sized (imu_cal_parse raw c).
Proof.
  unfold nx_con_sized.
  destruct c as [? ? ? ? ? ? ? ? ? ? ? ? ? [ao asc] [go gsc] ad gd
                 ? ? ? ? ? ? ? ? ? ? ? ? ? ? ?].
  cbn [input_buf accel_cal gyro_cal imu_cal_accel_divisor imu_cal_gyro_divisor
       offset scale].
  intros (Hb & ? & ? & ? & ? & ? & ?). list3.
  cbn -[s16 get_unaligned_le16 drop]. done.
Qed.

Lemma calc_imu_cal_divisors_spec c :
  nx_con_sized c ->
  accel_cal (nx_con_calc_imu_cal_divisors c) = accel_cal c /\
  gyro_cal (nx_con_calc_imu_cal_divisors c) = gyro_cal c /\
  imu_cal_accel_divisor (nx_con_calc_imu_cal_divisors c) =
    (fun i : nat => s32 (scale (accel_cal c) !!! i - offset (accel_cal c) !!! i))
      <$> seq 0 3 /\
  imu_cal_gyro_divisor (nx_con_calc_imu_cal_divisors c) =
    (fun i : nat => s32 (scale (gyro_cal c) !!! i - offset (gyro_cal c) !!! i))
      <$> seq 0 3.
Proof.
  unfold nx_con_sized.
  destruct c as [? ? ? ? ? ? ? ? ? ? ? ? ? [ao asc] [go gsc] ad gd
                 ? ? ? ? ? ? ? ? ? ? ? ? ? ? ?].
  cbn [input_buf accel_cal gyro_cal imu_cal_accel_divisor imu_cal_gyro_divisor
       offset scale].
  intros (Hb & ? & ? & ? & ? & ? & ?). list3.
  cbn -[s32 Z.sub]. done.
Qed.

Lemma sync_only_sized w w' :
  sync_only w w' -> nx_con_sized (con w) -> nx_con_sized (con w').
Proof.
  intros [F L] (Hb & Hrest). split; [by apply L|].
  rewrite (f_equal accel_cal F : accel_cal (con w') = accel_cal (con w)).
  rewrite (f_equal gyro_cal F : gyro_cal (con w') = gyro_cal (con w)).
  rewrite (f_equal imu_cal_accel_divisor F
              : imu_cal_accel_divisor (con w') = imu_cal_accel_divisor (con w)).
  rewrite (f_equal imu_cal_gyro_divisor F
              : imu_cal_gyro_divisor (con w') = imu_cal_gyro_divisor (con w)).
  exact Hrest.
Qed.

Section RequestImuCalibration.
Variable hw : transport.
Variable HZ : Z.

Lemma request_imu_calibration_run w :
  nx_con_request_imu_calibration hw HZ w =
  let m := nx_con_check_for_cal_magic hw HZ NX_CON_IMU_CAL_USR_MAGIC_ADDR w in
  let fr := nx_con_request_spi_flash_read hw HZ
              (if m.1 =? 0 then NX_CON_IMU_CAL_USR_DATA_ADDR
               else NX_CON_IMU_CAL_FCT_DATA_ADDR)
              NX_CON_IMU_CAL_DATA_SIZE m.2 in
  if negb (fr.1.1 =? 0)
  then (fr.1.1, upd_con nx_con_calc_imu_cal_divisors
                  (upd_con imu_cal_store_defaults fr.2))
  else (0, upd_con nx_con_calc_imu_cal_divisors
             (upd_con (imu_cal_parse fr.1.2) fr.2)).
Proof.
  unfold nx_con_request_imu_calibration. msteps. cbv zeta.
  destruct (nx_con_request_spi_flash_read _ _ _ _ _) as [[ret raw] w1].
  cbn [fst snd]. destruct (negb (ret =? 0)); msteps; reflexivity.
Qed.

Lemma request_imu_calibration_cases w :
  nx_con_sized (con w) ->
  let r := nx_con_request_imu_calibration hw HZ w in
  exists c1 : nx_con,
    nx_con_sized c1 /\
    con r.2 = nx_con_calc_imu_cal_divisors c1 /\
    (r.1 <> 0 /\ accel_cal c1 = dflt_accel_cal /\ gyro_cal c1 = dflt_gyro_cal \/
     r.1 = 0 /\ exists raw,
       accel_cal c1 =
         {| offset := (fun i : nat => s16 (get_unaligned_le16 (drop (i * 2) raw)))
                        <$> seq 0 3;
            scale := (fun i : nat => s16 (get_unaligned_le16 (drop (i * 2 + 6) raw)))
                       <$> seq 0 3 |} /\
       gyro_cal c1 =
         {| offset := (fun i : nat => s16 (get_unaligned_le16 (drop (i * 2 + 12) raw)))
                        <$> seq 0 3;
            scale := (fun i : nat => s16 (get_unaligned_le16 (drop (i * 2 + 18) raw)))
                       <$> seq 0 3 |}).
Proof.
  intros Hsz. cbv zeta. rewrite request_imu_calibration_run. cbv zeta.
  set (m := nx_con_check_for_cal_magic hw HZ NX_CON_IMU_CAL_USR_MAGIC_ADDR w).
  pose proof (check_for_cal_magic_sync_only hw HZ NX_CON_IMU_CAL_USR_MAGIC_ADDR w)
    as S1. fold m in S1.
  destruct (flash_read_spec hw HZ
              (if m.1 =? 0 then NX_CON_IMU_CAL_USR_DATA_ADDR
               else NX_CON_IMU_CAL_FCT_DATA_ADDR)
              NX_CON_IMU_CAL_DATA_SIZE m.2) as (S2 & _).
  destruct (nx_con_request_spi_flash_read _ _ _ _ _) as [[ret raw] w1].
  cbn [fst snd] in *.
  pose proof (sync_only_sized _ _ (sync_only_trans _ _ _ S1 S2) Hsz) as Hsz1.
  destruct (Z.eqb_spec ret 0) as [->|Hne]; cbn [negb fst snd].
  - destruct (imu_cal_parse_spec raw (con w1) Hsz1) as (Ea & Eg & _ & _ & Hs).
    exists (imu_cal_parse raw (con w1)). split; [exact Hs|].
    split; [reflexivity|]. right. split; [reflexivity|]. by exists raw.
  - destruct (imu_cal_store_defaults_spec (con w1) Hsz1) as (Ea & Eg & _ & _ & Hs).
    exists (imu_cal_store_defaults (con w1)). split; [exact Hs|].
    split; [reflexivity|]. left. done.
Qed.

(** X5. When the calibration cannot be read from flash,
    [nx_con_request_imu_calibration] returns the error and leaves the
    default calibration: offsets 0, scales 16384 (accelerometer) and 13371
    (gyroscope), and divisors equal to the scales. *)
Theorem nx_con_request_imu_calibration_defaults w :
  nx_con_sized (con w) ->
  let r := nx_con_request_imu_calibration hw HZ w in
  r.1 <> 0 ->
  accel_cal (con r.2) = dflt_accel_cal /\
  gyro_cal (con r.2) = dflt_gyro_cal /\
  imu_cal_accel_divisor (con r.2) = replicate 3 DFLT_ACCEL_SCALE /\
  imu_cal_gyro_divisor (con r.2) = replicate 3 DFLT_GYRO_SCALE.
Proof.
  intros Hsz r Hne.
  destruct (request_imu_calibration_cases w Hsz)
    as (c1 & Hs1 & E & [(_ & Ea & Eg)|(H0 & _)]); [|done].
  fold r in E. rewrite E.
  destruct (calc_imu_cal_divisors_spec c1 Hs1) as (-> & -> & -> & ->).
  rewrite Ea, Eg. done.
Qed.

(** X6. Whatever [nx_con_request_imu_calibration] returns, every divisor
    it leaves is exactly scale minus offset of its axis (the subtraction
    cannot wrap), so a divisor is zero precisely when the scale and the
    offset of that axis are equal. *)
Theorem nx_con_request_imu_calibration_divisors w (i : nat) :
  nx_con_sized (con w) ->
  (i < 3)%nat ->
  let c := con (nx_con_request_imu_calibration hw HZ w).2 in
  imu_cal_accel_divisor c !!! i =
    scale (accel_cal c) !!! i - offset (accel_cal c) !!! i /\
  imu_cal_gyro_divisor c !!! i =
    scale (gyro_cal c) !!! i - offset (gyro_cal c) !!! i.
Proof.
  intros Hsz Hi c.
  destruct (request_imu_calibration_cases w Hsz) as (c1 & Hs1 & E & Hc).
  cbv zeta in E. subst c. rewrite E.
  destruct (calc_imu_cal_divisors_spec c1 Hs1) as (-> & -> & -> & ->).
  destruct Hc as [(_ & -> & ->)|(_ & raw & -> & ->)].
  - destruct i as [|[|[|?]]]; [done..|lia].
  - cbn [offset scale].
    assert (forall a b, s32 (s16 a - s16 b) = s16 a - s16 b) as Hw.
    { intros a b. pose proof (s16_range a). pose proof (s16_range b).
      apply s32_small. lia. }
    destruct i as [|[|[|?]]]; [..|lia]; cbn -[s32 s16 get_unaligned_le16 drop];
      by rewrite !Hw.
Qed.

End RequestImuCalibration.

Lemma nx_con_request_imu_calibration_defaults_witness :
  let r := nx_con_request_imu_calibration hw_silent 250 world_init in
  accel_cal (con r.2) = dflt_accel_cal /\
  gyro_cal (con r.2) = dflt_gyro_cal /\
  imu_cal_accel_divisor (con r.2) = replicate 3 DFLT_ACCEL_SCALE /\
  imu_cal_gyro_divisor (con r.2) = replicate 3 DFLT_GYRO_SCALE.
Proof.
  apply (nx_con_request_imu_calibration_defaults hw_silent 250 world_init).
  - repeat split.
  - vm_compute. discriminate.
Defined.

Lemma nx_con_request_imu_calibration_divisors_witness :
  let c := con (nx_con_request_imu_calibration hw_erased_flash 250 world_init).2 in
  imu_cal_accel_divisor c !!! 1%nat =
    scale (accel_cal c) !!! 1%nat - offset (accel_cal c) !!! 1%nat /\
  imu_cal_gyro_divisor c !!! 1%nat =
    scale (gyro_cal c) !!! 1%nat - offset (gyro_cal c) !!! 1%nat.
Proof.
  apply (nx_con_request_imu_calibration_divisors hw_erased_flash 250 world_init 1).
  - repeat split.
  - lia.
Defined.

(** ** IMU reports: when they trap, and their timestamps *)

Lemma imu_cal_same_refl c : imu_cal_same c c.
Proof. by unfold imu_cal_same. Qed.

Lemma imu_cal_same_trans c1 c2 c3 :
  imu_cal_same c1 c2 -> imu_cal_same c2 c3 -> imu_cal_same c1 c3.
Proof. unfold imu_cal_same. intuition congruence. Qed.

Lemma imu_cal_same_divisors c c' :
  imu_cal_same c c' -> imu_divisors_nonzero c' = imu_divisors_nonzero c.
Proof.
  intros (_ & _ & _ & Ea & Eg). unfold imu_divisors_nonzero. by rewrite Ea, Eg.
Qed.

Lemma imu_cal_same_scale c c' d :
  imu_cal_same c c' -> imu_scale_sample c' d = imu_scale_sample c d.
Proof.
  intros (_ & Ea & Eg & Eda & Edg). unfold imu_scale_sample.
  by rewrite Ea, Eg, Eda, Edg.
Qed.

Lemma imu_avg_housekeeping_cal_same c delta c' :
  imu_avg_housekeeping c delta = Some c' -> imu_cal_same c c'.
Proof.
  unfold imu_avg_housekeeping. cbv zeta.
  destruct (_ <=? _).
  - intros H. apply bind_Some in H as (avg & _ & H). injection H as <-.
    unfold imu_cal_same. by destruct (_ =? 0).
  - intros H. injection H as <-. by unfold imu_cal_same.
Qed.

Lemma report_imu_timing_cal_same c msecs c' dropped :
  nx_con_report_imu_timing c msecs = Some (c', dropped) -> imu_cal_same c c'.
Proof.
  unfold nx_con_report_imu_timing. cbv zeta. intros H.
  apply bind_Some in H as ([c1 d1] & H1 & H). injection H as <- _.
  destruct (negb (imu_first_packet_received c)).
  - injection H1 as <- _. by unfold imu_cal_same.
  - apply bind_Some in H1 as (ch & Hh & H1).
    apply bind_Some in H1 as (dp & _ & H1). injection H1 as <- _.
    apply imu_avg_housekeeping_cal_same in Hh.
    destruct Hh as (? & ? & ? & ? & ?). by unfold imu_cal_same.
Qed.

Lemma mult_frac_is_Some x n d : d <> 0 -> is_Some (mult_frac x n d).
Proof.
  intros Hd. unfold mult_frac, s32_div, s32_rem, c_div, c_rem.
  destruct (Z.eqb_spec d 0); [done|]. cbn. by eexists.
Qed.

Lemma imu_scale_sample_total c d :
  imu_divisors_nonzero c = true -> is_Some (imu_scale_sample c d).
Proof.
  unfold imu_divisors_nonzero. cbn [forallb seq]. intros H.
  unfold imu_scale_sample, mult_frac, s32_div, s32_rem, c_div, c_rem. cbv zeta.
  destruct (imu_cal_gyro_divisor c !!! 0%nat =? 0); [cbn in H; discriminate|].
  destruct (imu_cal_accel_divisor c !!! 0%nat =? 0); [cbn in H; discriminate|].
  destruct (imu_cal_gyro_divisor c !!! 1%nat =? 0); [cbn in H; discriminate|].
  destruct (imu_cal_accel_divisor c !!! 1%nat =? 0); [cbn in H; discriminate|].
  destruct (imu_cal_gyro_divisor c !!! 2%nat =? 0); [cbn in H; discriminate|].
  destruct (imu_cal_accel_divisor c !!! 2%nat =? 0); [cbn in H; discriminate|].
  cbn. by eexists.
Qed.

Lemma imu_scale_sample_trap c d :
  imu_divisors_nonzero c = false -> imu_scale_sample c d = None.
Proof.
  unfold imu_divisors_nonzero. cbn [forallb seq]. intros H.
  unfold imu_scale_sample, mult_frac, s32_div, s32_rem, c_div, c_rem. cbv zeta.
  destruct (imu_cal_gyro_divisor c !!! 0%nat =? 0); [done|].
  destruct (imu_cal_gyro_divisor c !!! 1%nat =? 0); [done|].
  destruct (imu_cal_gyro_divisor c !!! 2%nat =? 0); [done|].
  destruct (imu_cal_accel_divisor c !!! 0%nat =? 0); [done|].
  destruct (imu_cal_accel_divisor c !!! 1%nat =? 0); [done|].
  destruct (imu_cal_accel_divisor c !!! 2%nat =? 0); [done|].
  discriminate H.
Qed.

Lemma report_imu_timing_later c msecs :
  imu_first_packet_received c = true ->
  0 <= imu_delta_samples_count c < 300 ->
  1 <= imu_avg_delta_ms c <= 14316557 ->
  exists c' dropped,
    nx_con_report_imu_timing c msecs = Some (c', Some dropped) /\
    imu_timestamp_us c' =
      u32 (imu_timestamp_us c + u32 (1000 * imu_avg_delta_ms c')) /\
    1 <= imu_avg_delta_ms c' <= 14316557.
Proof.
  intros Hf Hc Ha.
  set (delta := u32 (u32 msecs - imu_last_pkt_ms c)).
  destruct (imu_avg_housekeeping_spec c delta Hc) as (ch & Eh & _ & _ & Ets & _).
  destruct (imu_housekeeping_avg_range c delta ch Hc Ha Eh) as [_ Hah].
  pose proof (u32_range (u32 msecs - imu_last_pkt_ms c)) as Hd. fold delta in Hd.
  pose proof (imu_dropped_pkts_spec delta (imu_avg_delta_ms ch) Hd Hah) as Ed.
  unfold nx_con_report_imu_timing. cbv zeta. rewrite Hf. cbn [negb].
  fold delta. rewrite Eh. cbn [mbind option_bind]. rewrite Ed.
  cbn [mbind option_bind]. eexists _, _. split; [reflexivity|].
  cbn -[u32 Z.mul]. by rewrite Ets.
Qed.

Lemma report_imu_timing_total c msecs :
  imu_reachable c ->
  exists c' dropped, nx_con_report_imu_timing c msecs = Some (c', dropped).
Proof.
  intros Hr. pose proof (imu_reachable_inv c Hr) as Hinv.
  destruct (imu_first_packet_received c) eqn:Hf.
  - destruct (Hinv Hf) as [Hc Ha].
    destruct (report_imu_timing_later c msecs Hf Hc Ha) as (c' & dr & E & _).
    by eexists _, _.
  - destruct (nx_con_report_imu_timing_first c msecs Hf) as (c' & E & _).
    by eexists _, _.
Qed.

Lemma report_imu_sample_run c d value :
  imu_scale_sample c d = Some value ->
  nx_con_report_imu_sample c d =
    Some (set_imu_timestamp_us
            (u32 (imu_timestamp_us c + u32 (imu_avg_delta_ms c * 1000) ÷ 3)) c,
          {| ev_timestamp := s32 (imu_timestamp_us c);
             ev_abs := if nx_con_type_is_right_joycon c
                       then imu_negate_right_joycon value else value |}).
Proof. intros E. unfold nx_con_report_imu_sample. by rewrite E. Qed.

Lemma report_imu_samples_three c d0 d1 d2 :
  imu_divisors_nonzero c = true ->
  let step := u32 (imu_avg_delta_ms c * 1000) ÷ 3 in
  let t0 := imu_timestamp_us c in
  let t1 := u32 (t0 + step) in
  let t2 := u32 (t1 + step) in
  exists e0 e1 e2,
    nx_con_report_imu_samples c [d0; d1; d2] =
      Some (set_imu_timestamp_us (u32 (t2 + step)) c, [e0; e1; e2]) /\
    ev_timestamp e0 = s32 t0 /\
    ev_timestamp e1 = s32 t1 /\
    ev_timestamp e2 = s32 t2.
Proof.
  intros Hnz. cbv zeta.
  set (step := u32 (imu_avg_delta_ms c * 1000) ÷ 3).
  set (c1 := set_imu_timestamp_us (u32 (imu_timestamp_us c + step)) c).
  set (c2 := set_imu_timestamp_us (u32 (imu_timestamp_us c1 + step)) c1).
  assert (imu_cal_same c c1) as S1 by by unfold imu_cal_same.
  assert (imu_cal_same c c2) as S2 by by unfold imu_cal_same.
  destruct (imu_scale_sample_total c d0 Hnz) as [v0 E0].
  destruct (imu_scale_sample_total c d1 Hnz) as [v1 E1].
  destruct (imu_scale_sample_total c d2 Hnz) as [v2 E2].
  rewrite <- (imu_cal_same_scale c c1 d1 S1) in E1.
  rewrite <- (imu_cal_same_scale c c2 d2 S2) in E2.
  cbn [nx_con_report_imu_samples].
  rewrite (report_imu_sample_run c d0 v0 E0). cbn [mbind option_bind].
  fold step. fold c1.
  rewrite (report_imu_sample_run c1 d1 v1 E1). cbn [mbind option_bind].
  change (imu_avg_delta_ms c1) with (imu_avg_delta_ms c). fold step. fold c2.
  rewrite (report_imu_sample_run c2 d2 v2 E2). cbn [mbind option_bind].
  change (imu_avg_delta_ms c2) with (imu_avg_delta_ms c). fold step.
  eexists _, _, _. split; [reflexivity|]. done.
Qed.

Lemma report_imu_samples_trap c d ds :
  imu_divisors_nonzero c = false ->
  nx_con_report_imu_samples c (d :: ds) = None.
Proof.
  intros Hz. cbn [nx_con_report_imu_samples]. unfold nx_con_report_imu_sample.
  by rewrite (imu_scale_sample_trap c d Hz).
Qed.

Lemma parse_imu_data_three raw :
  exists d0 d1 d2, nx_con_input_report_parse_imu_data raw = [d0; d1; d2].
Proof. by eexists _, _, _. Qed.

(** X7. On a session whose timing members are in a reachable state,
    [nx_con_report_imu] runs to the end exactly when none of the six
    calibration divisors is zero; with a zero divisor it traps in the
    first sample. *)
Theorem nx_con_report_imu_defined_iff c raw msecs :
  imu_reachable c ->
  is_Some (nx_con_report_imu c raw msecs) <-> imu_divisors_nonzero c = true.
Proof.
  intros Hr.
  destruct (report_imu_timing_total c msecs Hr) as (c1 & dr & Et).
  pose proof (report_imu_timing_cal_same c msecs c1 dr Et) as Hs.
  destruct (parse_imu_data_three raw) as (d0 & d1 & d2 & Ep).
  unfold nx_con_report_imu. cbv zeta. rewrite Et, Ep. cbn [mbind option_bind].
  rewrite <- (imu_cal_same_divisors c c1 Hs).
  destruct (imu_divisors_nonzero c1) eqn:Hnz.
  - destruct (report_imu_samples_three c1 d0 d1 d2 Hnz) as (e0 & e1 & e2 & -> & _).
    split; [done|]. intros _. by eexists.
  - rewrite (report_imu_samples_trap c1 d0 [d1; d2] Hnz).
    split; [|done]. by intros [? ?].
Qed.

(** X8. A report after the first, on a session with non-zero divisors:
    [nx_con_report_imu] emits three samples.  The first carries the
    timestamp the previous report ended with plus 1000 times the average
    delta, whatever the number of dropped packets; each following one is a
    third of that later; and a third more is kept for the next report.
    All sums are taken modulo 2^32. *)
Theorem nx_con_report_imu_timestamps c raw msecs :
  imu_reachable c ->
  imu_first_packet_received c = true ->
  imu_divisors_nonzero c = true ->
  exists c' e0 e1 e2,
    nx_con_report_imu c raw msecs = Some (c', [e0; e1; e2]) /\
    let avg := imu_avg_delta_ms c' in
    let step := u32 (avg * 1000) ÷ 3 in
    let t0 := u32 (imu_timestamp_us c + u32 (1000 * avg)) in
    let t1 := u32 (t0 + step) in
    let t2 := u32 (t1 + step) in
    1 <= avg /\
    ev_timestamp e0 = s32 t0 /\
    ev_timestamp e1 = s32 t1 /\
    ev_timestamp e2 = s32 t2 /\
    imu_timestamp_us c' = u32 (t2 + step).
Proof.
  intros Hr Hf Hnz.
  destruct (imu_reachable_inv c Hr Hf) as [Hc Ha].
  destruct (report_imu_timing_later c msecs Hf Hc Ha)
    as (c1 & dr & Et & Ets & Ha1).
  pose proof (report_imu_timing_cal_same c msecs c1 _ Et) as Hs.
  destruct (parse_imu_data_three raw) as (d0 & d1 & d2 & Ep).
  rewrite <- (imu_cal_same_divisors c c1 Hs) in Hnz.
  destruct (report_imu_samples_three c1 d0 d1 d2 Hnz)
    as (e0 & e1 & e2 & Es & T0 & T1 & T2).
  unfold nx_con_report_imu. cbv zeta. rewrite Et, Ep. cbn [mbind option_bind].
  rewrite Es. eexists _, e0, e1, e2. split; [reflexivity|].
  cbn -[u32 s32 Z.mul Z.quot]. rewrite <- Ets.
  split; [lia|]. done.
Qed.

Lemma nx_con_report_imu_defined_iff_witness :
  is_Some (nx_con_report_imu con_right_joycon_dflt (replicate 36 0) 1000) <->
  imu_divisors_nonzero con_right_joycon_dflt = true.
Proof.
  apply nx_con_report_imu_defined_iff. by apply imu_reach_fresh.
Defined.

Lemma con_dflt_after_first_imu_report_reachable :
  imu_reachable con_dflt_after_first_imu_report.
Proof.
  apply (imu_reach_report con_right_joycon_dflt 1000 _ None).
  - by apply imu_reach_fresh.
  - reflexivity.
Qed.

Lemma nx_con_report_imu_timestamps_witness :
  exists c' e0 e1 e2,
    nx_con_report_imu con_dflt_after_first_imu_report (replicate 36 0) 1015 =
      Some (c', [e0; e1; e2]) /\
    let avg := imu_avg_delta_ms c' in
    let step := u32 (avg * 1000) ÷ 3 in
    let t0 := u32 (imu_timestamp_us con_dflt_after_first_imu_report
                   + u32 (1000 * avg)) in
    let t1 := u32 (t0 + step) in
    let t2 := u32 (t1 + step) in
    1 <= avg /\
    ev_timestamp e0 = s32 t0 /\
    ev_timestamp e1 = s32 t1 /\
    ev_timestamp e2 = s32 t2 /\
    imu_timestamp_us c' = u32 (t2 + step).
Proof.
  apply nx_con_report_imu_timestamps.
  - exact con_dflt_after_first_imu_report_reachable.
  - reflexivity.
  - reflexivity.
Defined.

(** ** Stick reports *)

Section StickReports.

Variable cal : nx_con_stick_cal.
Hypothesis Hfit : stick_cal_12bit cal.

(** Any 12-bit raw value: no step of the [s32] computation wraps. *)
Lemma nx_con_map_stick_val_12bit v :
  cal_min cal < cal_center cal < cal_max cal ->
  0 <= v < 4096 ->
  nx_con_map_stick_val cal v =
    Some (clamp (stick_linear cal v) (- 32767) 32767).
Proof.
  intros Hord Hv. destruct Hfit as (Hc & Hmax & Hmin).
  unfold nx_con_map_stick_val, stick_linear, NX_CON_MAX_STICK_MAG.
  destruct (Z.ltb_spec (cal_center cal) v).
  - unfold stick_above.
    rewrite (s32_small (v - _)), (s32_small (_ * 32767)),
      (s32_small (cal_max cal - _)) by lia.
    rewrite s32_div_small; [done|lia|].
    assert (0 <= (v - cal_center cal) * 32767 ÷ (cal_max cal - cal_center cal))
      by (apply Z.quot_pos; lia).
    assert ((v - cal_center cal) * 32767 ÷ (cal_max cal - cal_center cal)
            <= (v - cal_center cal) * 32767)
      by (apply Z.quot_le_upper_bound; nia).
    lia.
  - unfold stick_below.
    rewrite (s32_small (_ - v)), (s32_small (_ * - 32767)),
      (s32_small (_ - cal_min cal)) by lia.
    rewrite s32_div_small; [done|lia|].
    assert (Hq : (cal_center cal - v) * - 32767 ÷ (cal_center cal - cal_min cal) =
                 - ((cal_center cal - v) * 32767 ÷ (cal_center cal - cal_min cal))).
    { rewrite <- Z.quot_opp_l by lia. f_equal. lia. }
    assert (0 <= (cal_center cal - v) * 32767 ÷ (cal_center cal - cal_min cal))
      by (apply Z.quot_pos; lia).
    assert ((cal_center cal - v) * 32767 ÷ (cal_center cal - cal_min cal)
            <= (cal_center cal - v) * 32767)
      by (apply Z.quot_le_upper_bound; nia).
    lia.
Qed.

Lemma stick_linear_high v :
  cal_min cal < cal_center cal < cal_max cal ->
  cal_max cal <= v -> 32767 <= stick_linear cal v.
Proof.
  intros Hord Hv. unfold stick_linear.
  destruct (Z.ltb_spec (cal_center cal) v); [|lia].
  unfold stick_above.
  transitivity ((32767 * (cal_max cal - cal_center cal))
                  ÷ (cal_max cal - cal_center cal)).
  - rewrite Z.quot_mul; lia.
  - apply Z.quot_le_mono; lia.
Qed.

Lemma stick_linear_low v :
  cal_min cal < cal_center cal < cal_max cal ->
  v <= cal_min cal -> stick_linear cal v <= - 32767.
Proof.
  intros Hord Hv. unfold stick_linear.
  destruct (Z.ltb_spec (cal_center cal) v); [lia|].
  unfold stick_below.
  transitivity ((- 32767 * (cal_center cal - cal_min cal))
                  ÷ (cal_center cal - cal_min cal)).
  - apply Z.quot_le_mono; lia.
  - rewrite Z.quot_mul; lia.
Qed.

End StickReports.

(** X9. Outside the calibrated range the stick map saturates: with a
    calibration the loader can store and room on both sides of the
    centre, a 12-bit raw value at or above the maximum maps to 32767 and
    one at or below the minimum to -32767. *)
Theorem nx_con_map_stick_val_saturates cal v :
  stick_cal_usable cal ->
  0 <= v < 4096 ->
  (cal_max cal <= v -> nx_con_map_stick_val cal v = Some 32767) /\
  (v <= cal_min cal -> nx_con_map_stick_val cal v = Some (- 32767)).
Proof.
  intros [Hfit Hord] Hv.
  rewrite (nx_con_map_stick_val_12bit cal Hfit v Hord Hv).
  split; intros Hout; f_equal; unfold clamp.
  - pose proof (stick_linear_high cal v Hord Hout). lia.
  - pose proof (stick_linear_low cal v Hord Hout). lia.
Qed.

Lemma nx_con_map_stick_val_saturates_witness :
  (3500 <= 4000 -> nx_con_map_stick_val dflt_stick_cal 4000 = Some 32767) /\
  (4000 <= 500 -> nx_con_map_stick_val dflt_stick_cal 4000 = Some (- 32767)).
Proof.
  apply (nx_con_map_stick_val_saturates dflt_stick_cal 4000).
  - split; [apply stick_cal_12bit_dflt|]. vm_compute. done.
  - lia.
Defined.

(** X10. With a calibration the loader can store, the stick map traps
    exactly on a zero half-range: for a raw value above the centre when
    the maximum equals the centre, and for one at or below the centre
    when the minimum equals the centre. *)
Theorem nx_con_map_stick_val_traps_iff cal v :
  stick_cal_12bit cal ->
  nx_con_map_stick_val cal v = None <->
  (cal_center cal < v /\ cal_max cal = cal_center cal) \/
  (v <= cal_center cal /\ cal_min cal = cal_center cal).
Proof.
  intros (Hc & Hmax & Hmin).
  unfold nx_con_map_stick_val, s32_div, c_div. cbv zeta.
  rewrite (s32_small (cal_max cal - _)), (s32_small (_ - cal_min cal)) by lia.
  destruct (Z.ltb_spec (cal_center cal) v).
  - destruct (Z.eqb_spec (cal_max cal - cal_center cal) 0); cbn.
    + split; [intros _; left; lia|done].
    + split; [done|lia].
  - destruct (Z.eqb_spec (cal_center cal - cal_min cal) 0); cbn.
    + split; [intros _; right; lia|done].
    + split; [done|lia].
Qed.

Lemma nx_con_map_stick_val_traps_iff_witness :
  nx_con_map_stick_val zero_stick_cal 0 = None <->
  (cal_center zero_stick_cal < 0 /\
   cal_max zero_stick_cal = cal_center zero_stick_cal) \/
  (0 <= cal_center zero_stick_cal /\
   cal_min zero_stick_cal = cal_center zero_stick_cal).
Proof.
  apply (nx_con_map_stick_val_traps_iff zero_stick_cal 0).
  vm_compute. intuition congruence.
Defined.

Lemma stick_raw_12bit report offset :
  0 <= u16 (hid_field_extract report offset 12) < 4096.
Proof.
  pose proof (hid_field_extract_range report offset 12 ltac:(lia)) as H.
  change (2 ^ 12) with 4096 in H.
  unfold u16, wrap_u. rewrite Z.mod_small; lia.
Qed.

Lemma stick_axes_in_range calx caly rx ry :
  stick_cal_usable calx -> stick_cal_usable caly ->
  0 <= rx < 4096 -> 0 <= ry < 4096 ->
  exists x y,
    nx_con_map_stick_val calx rx = Some x /\
    nx_con_map_stick_val caly ry = Some (- y) /\
    s32 (- - y) = y /\
    - 32767 <= x <= 32767 /\ - 32767 <= y <= 32767.
Proof.
  intros [Hfx Hox] [Hfy Hoy] Hrx Hry.
  exists (clamp (stick_linear calx rx) (- 32767) 32767),
         (- clamp (stick_linear caly ry) (- 32767) 32767).
  pose proof (clamp_range (stick_linear calx rx) (- 32767) 32767 ltac:(lia)).
  pose proof (clamp_range (stick_linear caly ry) (- 32767) 32767 ltac:(lia)).
  split; [by apply nx_con_map_stick_val_12bit|].
  rewrite Z.opp_involutive.
  split; [by apply nx_con_map_stick_val_12bit|].
  split; [apply s32_small; lia|]. lia.
Qed.

(** X11. Stick reports.  With calibrations the loader can store and room
    on both sides of each centre, every input report yields both axes of
    each stick, in [-32767, 32767]; the vertical axis carries the negated
    result of the stick map. *)
Theorem nx_con_report_stick_inputs_in_range c rep :
  stick_cal_usable (left_stick_cal_x c) ->
  stick_cal_usable (left_stick_cal_y c) ->
  stick_cal_usable (right_stick_cal_x c) ->
  stick_cal_usable (right_stick_cal_y c) ->
  (exists x y,
     nx_con_report_left_stick_inputs c rep = Some [(ABS_X, x); (ABS_Y, y)] /\
     nx_con_map_stick_val (left_stick_cal_y c)
       (u16 (hid_field_extract (drop (rep_left_stick + 1) rep) 4 12)) =
       Some (- y) /\
     - 32767 <= x <= 32767 /\ - 32767 <= y <= 32767) /\
  (exists x y,
     nx_con_report_right_stick_inputs c rep = Some [(ABS_RX, x); (ABS_RY, y)] /\
     nx_con_map_stick_val (right_stick_cal_y c)
       (u16 (hid_field_extract (drop (rep_right_stick + 1) rep) 4 12)) =
       Some (- y) /\
     - 32767 <= x <= 32767 /\ - 32767 <= y <= 32767).
Proof.
  intros Hlx Hly Hrx Hry. split.
  - destruct (stick_axes_in_range _ _ _ _ Hlx Hly
                (stick_raw_12bit (drop rep_left_stick rep) 0)
                (stick_raw_12bit (drop (rep_left_stick + 1) rep) 4))
      as (x & y & Ex & Ey & Es & Rx & Ry).
    exists x, y. unfold nx_con_report_left_stick_inputs. cbv zeta.
    rewrite Ex, Ey. cbn [mbind option_bind]. by rewrite Es.
  - destruct (stick_axes_in_range _ _ _ _ Hrx Hry
                (stick_raw_12bit (drop rep_right_stick rep) 0)
                (stick_raw_12bit (drop (rep_right_stick + 1) rep) 4))
      as (x & y & Ex & Ey & Es & Rx & Ry).
    exists x, y. unfold nx_con_report_right_stick_inputs. cbv zeta.
    rewrite Ex, Ey. cbn [mbind option_bind]. by rewrite Es.
Qed.

Lemma stick_cal_usable_dflt : stick_cal_usable dflt_stick_cal.
Proof. split; [apply stick_cal_12bit_dflt|]. vm_compute. done. Qed.

Lemma nx_con_report_stick_inputs_in_range_witness :
  (exists x y,
     nx_con_report_left_stick_inputs con_dflt_sticks (replicate 49 0) =
       Some [(ABS_X, x); (ABS_Y, y)] /\
     nx_con_map_stick_val (left_stick_cal_y con_dflt_sticks)
       (u16 (hid_field_extract (drop (rep_left_stick + 1) (replicate 49 0)) 4 12)) =
       Some (- y) /\
     - 32767 <= x <= 32767 /\ - 32767 <= y <= 32767) /\
  (exists x y,
     nx_con_report_right_stick_inputs con_dflt_sticks (replicate 49 0) =
       Some [(ABS_RX, x); (ABS_RY, y)] /\
     nx_con_map_stick_val (right_stick_cal_y con_dflt_sticks)
       (u16 (hid_field_extract (drop (rep_right_stick + 1) (replicate 49 0)) 4 12)) =
       Some (- y) /\
     - 32767 <= x <= 32767 /\ - 32767 <= y <= 32767).
Proof.
  apply (nx_con_report_stick_inputs_in_range con_dflt_sticks (replicate 49 0));
    exact stick_cal_usable_dflt.
Defined.

(** ** Battery *)

Lemma battery_bytes_checked :
  Forall
    (fun n : nat =>
       let b := Z.of_nat n in
       let s := nx_con_parse_battery_status b in
       nx_con_parse_battery_status (Z.land b 0xF1) = s /\
       (battery_capacity s = POWER_SUPPLY_CAPACITY_LEVEL_UNKNOWN <-> 160 <= b) /\
       (battery_status_of b = (0, Some (PropStatus POWER_SUPPLY_STATUS_CHARGING)) <->
        Z.testbit b 4 = true) /\
       (battery_status_of b = (0, Some (PropStatus POWER_SUPPLY_STATUS_FULL)) <->
        Z.testbit b 4 = false /\ Z.testbit b 0 = true /\ b / 32 = 4) /\
       (battery_status_of b = (0, Some (PropStatus POWER_SUPPLY_STATUS_DISCHARGING)) <->
        Z.testbit b 4 = false /\ ~ (Z.testbit b 0 = true /\ b / 32 = 4)))
    (seq 0 256).
Proof.
  cbv zeta.
  match goal with
  | |- ?P => let d := constr:(_ : Decision P) in
             refine (@bool_decide_unpack P d _)
  end.
  vm_compute. exact I.
Qed.

(** X12. The battery state after a report depends only on bits 0, 4 and
    5 to 7 of the [bat_con] byte.  The capacity level is unknown exactly
    for the bytes from 160 up (a level field above 4).  The status user
    space reads is "charging" exactly when bit 4 is set, and "full"
    exactly when bit 4 is clear, bit 0 (host powered) is set and the
    level field is 4; it is "discharging" otherwise. *)
Theorem nx_con_battery_status_bits b :
  0 <= b < 256 ->
  let s := nx_con_parse_battery_status b in
  nx_con_parse_battery_status (Z.land b 0xF1) = s /\
  (battery_capacity s = POWER_SUPPLY_CAPACITY_LEVEL_UNKNOWN <-> 160 <= b) /\
  (battery_status_of b = (0, Some (PropStatus POWER_SUPPLY_STATUS_CHARGING)) <->
   Z.testbit b 4 = true) /\
  (battery_status_of b = (0, Some (PropStatus POWER_SUPPLY_STATUS_FULL)) <->
   Z.testbit b 4 = false /\ Z.testbit b 0 = true /\ b / 32 = 4) /\
  (battery_status_of b = (0, Some (PropStatus POWER_SUPPLY_STATUS_DISCHARGING)) <->
   Z.testbit b 4 = false /\ ~ (Z.testbit b 0 = true /\ b / 32 = 4)).
Proof.
  intros Hb.
  pose proof (proj1 (Forall_forall _ _) battery_bytes_checked (Z.to_nat b)) as H.
  cbv beta zeta in H. rewrite Z2Nat.id in H by lia. apply H.
  apply elem_of_seq. lia.
Qed.

Lemma nx_con_battery_status_bits_witness :
  let s := nx_con_parse_battery_status 0x91 in
  nx_con_parse_battery_status (Z.land 0x91 0xF1) = s /\
  (battery_capacity s = POWER_SUPPLY_CAPACITY_LEVEL_UNKNOWN <-> 160 <= 0x91) /\
  (battery_status_of 0x91 = (0, Some (PropStatus POWER_SUPPLY_STATUS_CHARGING)) <->
   Z.testbit 0x91 4 = true) /\
  (battery_status_of 0x91 = (0, Some (PropStatus POWER_SUPPLY_STATUS_FULL)) <->
   Z.testbit 0x91 4 = false /\ Z.testbit 0x91 0 = true /\ 0x91 / 32 = 4) /\
  (battery_status_of 0x91 = (0, Some (PropStatus POWER_SUPPLY_STATUS_DISCHARGING)) <->
   Z.testbit 0x91 4 = false /\ ~ (Z.testbit 0x91 0 = true /\ 0x91 / 32 = 4)).
Proof. apply (nx_con_battery_status_bits 0x91). lia. Defined.

(** ** Rumble requests from end to end *)

Lemma rumble_request_data_length c amp_r amp_l :
  length (rumble_request_data c amp_r amp_l) = 8%nat.
Proof. reflexivity. Qed.

Lemma set_rumble_stores c amp_r amp_l schedule_now :
  0 <= rumble_queue_head c < NX_CON_RUMBLE_QUEUE_SIZE ->
  let c' := (nx_con_set_rumble c amp_r amp_l schedule_now).1 in
  rumble_data c' =
    <[Z.to_nat ((rumble_queue_head c + 1) mod 8) :=
        rumble_request_data c amp_r amp_l]> (rumble_data c) /\
  subcmd_num c' = subcmd_num c.
Proof.
  unfold NX_CON_RUMBLE_QUEUE_SIZE. intros Hh.
  unfold nx_con_set_rumble, rumble_request_data, rumble_amp_scaled.
  destruct (negb (amp_l =? 0) || negb (amp_r =? 0));
    cbn -[nx_con_encode_rumble u16 u32 Z.leb s32];
    unfold NX_CON_RUMBLE_QUEUE_SIZE;
    rewrite (s32_small (rumble_queue_head c + 1)) by lia;
    destruct (Z.leb_spec 8 (rumble_queue_head c + 1));
    cbn -[nx_con_encode_rumble u16 u32 Z.leb s32];
    (split; [|done]);
    first [ rewrite Z.mod_small by lia; done
          | replace (rumble_queue_head c + 1) with 8 by lia; done ].
Qed.

Section WorkerTrace.

Variable hw : transport.
Hypothesis Hmem : forall n, kmemdup_ok hw n = true.

Lemma send_rumble_data_frame w :
  state (con w) <> NX_CON_STATE_REMOVED ->
  0 <= subcmd_num (con w) <= 15 ->
  let frame := [NX_CON_OUTPUT_RUMBLE_ONLY; subcmd_num (con w)] ++
               rumble_at_tail (con w) in
  let w' := (nx_con_send_rumble_data hw w).2 in
  trace w' = trace w ++
    [EvOutputReport frame (s32 (hid_hw_output_report hw (n_sends w) frame))] /\
  n_sends w' = S (n_sends w) /\
  subcmd_num (con w') = (subcmd_num (con w) + 1) mod 16 /\
  rumble_data (con w') = rumble_data (con w).
Proof.
  intros Hst Hp. cbv zeta.
  rewrite send_rumble_data_run by done.
  rewrite hid_send_done by apply Hmem.
  cbn [snd trace con n_sends add_event tick_send upd_con tick_clock
       set_last_subcmd_sent_msecs subcmd_num rumble_data].
  split; [done|]. split; [done|].
  split; [by apply bump_subcmd_num_val|].
  unfold bump_subcmd_num. by destruct (_ <? _).
Qed.

(** The worker sends the slot at the tail, then slot after slot up to
    the head. *)
Lemma rumble_worker_loop_trace fuel : forall w,
  0 <= rumble_queue_head (con w) < 8 ->
  0 <= rumble_queue_tail (con w) < 8 ->
  0 <= subcmd_num (con w) <= 15 ->
  state (con w) <> NX_CON_STATE_REMOVED ->
  (rumble_queue_head (con w) - rumble_queue_tail (con w)) mod 8 < Z.of_nat fuel ->
  trace (nx_con_rumble_worker_loop hw fuel w).2 =
    trace w ++
    rumble_worker_frames hw (rumble_data (con w)) (rumble_queue_tail (con w))
      (subcmd_num (con w)) (n_sends w)
      (Z.to_nat ((rumble_queue_head (con w) - rumble_queue_tail (con w)) mod 8)).
Proof.
  induction fuel as [|fuel IH]; intros w Hh Ht Hp Hst Hd.
  { pose proof (Z.mod_pos_bound
                  (rumble_queue_head (con w) - rumble_queue_tail (con w)) 8).
    lia. }
  rewrite rumble_worker_loop_S. cbv zeta.
  destruct (send_rumble_data_queue hw w) as (Eh & Et & _ & Es).
  destruct (send_rumble_data_frame w Hst Hp) as (Etr & En & Ep & Erd).
  set (w1 := (nx_con_send_rumble_data hw w).2) in *.
  cbn [con upd_con tick_clock set_rumble_msecs rumble_queue_tail
       rumble_queue_head].
  rewrite Eh, Et.
  destruct (Z.eqb_spec (rumble_queue_tail (con w)) (rumble_queue_head (con w)))
    as [E|E]; cbn [negb].
  - cbn [snd trace upd_con tick_clock]. rewrite Etr, E, Z.sub_diag.
    change (Z.to_nat (0 mod 8)) with 0%nat. cbn [rumble_worker_frames].
    unfold rumble_at_tail. by rewrite E.
  - match goal with |- context [nx_con_rumble_worker_loop hw fuel ?w'] =>
      set (w2 := w') end.
    assert (Eh2 : rumble_queue_head (con w2) = rumble_queue_head (con w)).
    { unfold w2. cbn -[s32 Z.leb]. unfold NX_CON_RUMBLE_QUEUE_SIZE.
      rewrite Et. by destruct (_ <=? _). }
    assert (Et2 : rumble_queue_tail (con w2) =
                  (rumble_queue_tail (con w) + 1) mod 8).
    { unfold w2. cbn -[s32 Z.leb]. unfold NX_CON_RUMBLE_QUEUE_SIZE.
      rewrite Et, s32_small by lia.
      destruct (Z.leb_spec 8 (rumble_queue_tail (con w) + 1)); cbn.
      - replace (rumble_queue_tail (con w) + 1) with 8 by lia. done.
      - by rewrite Z.mod_small by lia. }
    assert (Es2 : state (con w2) = state (con w)).
    { unfold w2. cbn -[s32 Z.leb]. rewrite <- Es. by destruct (_ <=? _). }
    assert (Ep2 : subcmd_num (con w2) = (subcmd_num (con w) + 1) mod 16).
    { unfold w2. cbn -[s32 Z.leb]. rewrite <- Ep. by destruct (_ <=? _). }
    assert (Erd2 : rumble_data (con w2) = rumble_data (con w)).
    { unfold w2. cbn -[s32 Z.leb]. rewrite <- Erd. by destruct (_ <=? _). }
    assert (Etr2 : trace w2 = trace w1) by done.
    assert (En2 : n_sends w2 = n_sends w1) by done.
    pose proof (ring_distance (rumble_queue_head (con w))
                  (rumble_queue_tail (con w)) Hh Ht E) as Hring.
    pose proof (Z.mod_pos_bound
                  (rumble_queue_head (con w) -
                   (rumble_queue_tail (con w) + 1) mod 8) 8 ltac:(lia)) as Hk.
    rewrite (IH w2).
    + rewrite Etr2, Etr, Eh2, Et2, Ep2, Erd2, En2, En, <- app_assoc. f_equal.
      rewrite Hring, Z2Nat.inj_add by lia.
      change (Z.to_nat 1) with 1%nat. rewrite Nat.add_1_r.
      cbn [rumble_worker_frames app]. done.
    + rewrite Eh2. lia.
    + rewrite Et2. apply Z.mod_pos_bound. lia.
    + rewrite Ep2. pose proof (Z.mod_pos_bound (subcmd_num (con w) + 1) 16). lia.
    + by rewrite Es2.
    + rewrite Eh2, Et2. lia.
Qed.

End WorkerTrace.

(** X13. What [nx_con_rumble_worker] puts on the wire.  On a session
    that is not removed, with the queue indices inside the ring and every
    allocation succeeding, a run of the worker sends one rumble-only
    frame per slot, from the slot at the tail up to and including the one
    at the head, under consecutive packet numbers modulo 16: one frame
    when the queue is drained, eight when the tail is seven behind. *)
Theorem nx_con_rumble_worker_sends_tail_to_head (hw : transport) (w : world) :
  (forall n, kmemdup_ok hw n = true) ->
  rumble_wf (con w) ->
  0 <= subcmd_num (con w) <= 15 ->
  state (con w) <> NX_CON_STATE_REMOVED ->
  let k := (rumble_queue_head (con w) - rumble_queue_tail (con w)) mod 8 in
  let evs := rumble_worker_frames hw (rumble_data (con w))
               (rumble_queue_tail (con w)) (subcmd_num (con w)) (n_sends w)
               (Z.to_nat k) in
  trace (nx_con_rumble_worker hw w).2 = trace w ++ evs /\
  length evs = S (Z.to_nat k) /\
  0 <= k <= 7.
Proof.
  intros Hmem (Hh & Ht & _) Hp Hst. unfold NX_CON_RUMBLE_QUEUE_SIZE in *.
  cbv zeta.
  pose proof (Z.mod_pos_bound
                (rumble_queue_head (con w) - rumble_queue_tail (con w)) 8
                ltac:(lia)) as Hk.
  split; [|split; [|lia]].
  - unfold nx_con_rumble_worker.
    apply rumble_worker_loop_trace; try done.
    change (Z.of_nat (Z.to_nat NX_CON_RUMBLE_QUEUE_SIZE)) with 8. lia.
  - generalize (Z.to_nat ((rumble_queue_head (con w) -
                           rumble_queue_tail (con w)) mod 8)).
    generalize (rumble_queue_tail (con w)) (subcmd_num (con w)) (n_sends w).
    intros t p n k. revert t p n.
    induction k as [|k IH]; intros t p n; [done|].
    cbn [rumble_worker_frames length]. by rewrite IH.
Qed.

(** X14. A rumble request on a drained queue puts two rumble-only frames
    on the wire: first the data of the slot the tail is at, which is
    what was sent last, then the eight bytes encoded for this request,
    under the next packet number.  (Session not removed, indices inside
    the ring, eight slots, allocations succeeding.) *)
Theorem rumble_request_sends_old_then_new
    (hw : transport) (w : world) (amp_r amp_l : Z) :
  (forall n, kmemdup_ok hw n = true) ->
  rumble_wf (con w) ->
  rumble_queue_head (con w) = rumble_queue_tail (con w) ->
  length (rumble_data (con w)) = 8%nat ->
  0 <= subcmd_num (con w) <= 15 ->
  state (con w) <> NX_CON_STATE_REMOVED ->
  let old := [NX_CON_OUTPUT_RUMBLE_ONLY; subcmd_num (con w)] ++
             rumble_at_tail (con w) in
  let new := [NX_CON_OUTPUT_RUMBLE_ONLY; (subcmd_num (con w) + 1) mod 16] ++
             rumble_request_data (con w) amp_r amp_l in
  trace (rumble_request hw amp_r amp_l w).2 =
    trace w ++
    [EvOutputReport old (s32 (hid_hw_output_report hw (n_sends w) old));
     EvOutputReport new (s32 (hid_hw_output_report hw (S (n_sends w)) new))].
Proof.
  intros Hmem (Hh & Ht & _) Hd Hlen Hp Hst.
  unfold NX_CON_RUMBLE_QUEUE_SIZE in *. cbv zeta.
  rewrite rumble_request_run. unfold nx_con_rumble_worker.
  destruct (set_rumble_queue (con w) amp_r amp_l true Hh) as (Eh & Et & Es).
  destruct (set_rumble_stores (con w) amp_r amp_l true Hh) as (Erd & Ep).
  set (w0 := upd_con _ w).
  cbv zeta in Eh, Et, Es, Erd, Ep.
  change (nx_con_set_rumble (con w) amp_r amp_l true).1 with (con w0)
    in Eh, Et, Es, Erd, Ep.
  pose proof (Z.mod_pos_bound (rumble_queue_head (con w) + 1) 8 ltac:(lia)) as Hnh.
  assert (Hne : (rumble_queue_head (con w) + 1) mod 8 <> rumble_queue_head (con w)).
  { intros E.
    assert (Hc : rumble_queue_head (con w) = 0 \/ rumble_queue_head (con w) = 1 \/
                 rumble_queue_head (con w) = 2 \/ rumble_queue_head (con w) = 3 \/
                 rumble_queue_head (con w) = 4 \/ rumble_queue_head (con w) = 5 \/
                 rumble_queue_head (con w) = 6 \/ rumble_queue_head (con w) = 7)
      by lia.
    destruct Hc as [Hc|[Hc|[Hc|[Hc|[Hc|[Hc|[Hc|Hc]]]]]]];
      rewrite Hc in E; vm_compute in E; discriminate. }
  assert (Hk : (rumble_queue_head (con w0) - rumble_queue_tail (con w0)) mod 8 = 1).
  { rewrite Eh, Et, <- Hd.
    rewrite (ring_distance _ (rumble_queue_head (con w))) by (lia || done).
    by rewrite Z.sub_diag. }
  rewrite (rumble_worker_loop_trace hw Hmem).
  - rewrite Hk. change (Z.to_nat 1) with 1%nat.
    cbn [rumble_worker_frames].
    change (trace w0) with (trace w). change (n_sends w0) with (n_sends w).
    rewrite Ep, Et, Erd, <- Hd.
    rewrite list_lookup_total_insert_ne by lia.
    rewrite list_lookup_total_insert_eq by lia.
    rewrite (take_ge (rumble_request_data _ _ _)) by done.
    unfold rumble_at_tail. by rewrite <- Hd.
  - rewrite Eh. lia.
  - rewrite Et. lia.
  - by rewrite Ep.
  - by rewrite Es.
  - rewrite Hk. change (Z.of_nat (Z.to_nat NX_CON_RUMBLE_QUEUE_SIZE)) with 8. lia.
Qed.

Lemma rumble_wf_world_init : rumble_wf (con world_init).
Proof. vm_compute. intuition congruence. Qed.

Lemma rumble_wf_world_rumble_idle : rumble_wf (con world_rumble_idle).
Proof. vm_compute. intuition congruence. Qed.

Lemma nx_con_rumble_worker_sends_tail_to_head_witness :
  let w := world_init in
  let k := (rumble_queue_head (con w) - rumble_queue_tail (con w)) mod 8 in
  let evs := rumble_worker_frames hw_steady (rumble_data (con w))
               (rumble_queue_tail (con w)) (subcmd_num (con w)) (n_sends w)
               (Z.to_nat k) in
  trace (nx_con_rumble_worker hw_steady w).2 = trace w ++ evs /\
  length evs = S (Z.to_nat k) /\
  0 <= k <= 7.
Proof.
  apply (nx_con_rumble_worker_sends_tail_to_head hw_steady world_init).
  - intros n. reflexivity.
  - exact rumble_wf_world_init.
  - vm_compute. intuition congruence.
  - discriminate.
Defined.

Lemma rumble_request_sends_old_then_new_witness :
  let w := world_rumble_idle in
  let old := [NX_CON_OUTPUT_RUMBLE_ONLY; subcmd_num (con w)] ++
             rumble_at_tail (con w) in
  let new := [NX_CON_OUTPUT_RUMBLE_ONLY; (subcmd_num (con w) + 1) mod 16] ++
             rumble_request_data (con w) 0xFFFF 0x8000 in
  trace (rumble_request hw_steady 0xFFFF 0x8000 w).2 =
    trace w ++
    [EvOutputReport old (s32 (hid_hw_output_report hw_steady (n_sends w) old));
     EvOutputReport new
       (s32 (hid_hw_output_report hw_steady (S (n_sends w)) new))].
Proof.
  apply (rumble_request_sends_old_then_new hw_steady world_rumble_idle).
  - intros n. reflexivity.
  - exact rumble_wf_world_rumble_idle.
  - reflexivity.
  - reflexivity.
  - vm_compute. intuition congruence.
  - discriminate.
Defined.

(** X15. The amplitude [nx_con_set_rumble] looks up.  A request between
    0 and 65535 is scaled to [a * 1003 / 65535], which lies between 0 and
    1003, the last key of the amplitude table; the entry used is the
    first one whose key is at least that value, and it is the silent
    entry (key 0) exactly for requests below 66. *)
Theorem rumble_amp_scaled_lookup a :
  0 <= a <= 65535 ->
  rumble_amp_scaled a = a * 1003 / 65535 /\
  0 <= rumble_amp_scaled a <= 1003 /\
  first_amp_at_least (rumble_amp_scaled a) =
    Some (nx_con_find_rumble_amp (rumble_amp_scaled a)) /\
  (nx_con_find_rumble_amp (rumble_amp_scaled a) = AMP 0x00 0x0040 0 <-> a < 66).
Proof.
  intros Ha.
  assert (Hlen : (2 <= length nx_con_rumble_amplitudes)%nat)
    by (rewrite rumble_amplitudes_length; lia).
  assert (Hq : 0 <= a * 1003 / 65535 <= 1003).
  { split; [apply Z.div_pos; lia|].
    apply Z.div_le_upper_bound; lia. }
  assert (Hs : rumble_amp_scaled a = a * 1003 / 65535).
  { unfold rumble_amp_scaled, nx_con_max_rumble_amp.
    rewrite u32_small by lia. rewrite Z.quot_div_nonneg by lia.
    unfold u16, wrap_u. apply Z.mod_small. lia. }
  assert (Hf : first_amp_at_least (rumble_amp_scaled a) =
               Some (nx_con_find_rumble_amp (rumble_amp_scaled a))).
  { unfold first_amp_at_least, nx_con_find_rumble_amp.
    apply (table_lookup_first amp _ Hlen rumble_amplitudes_ascending).
    rewrite Hs. cbn. lia. }
  split; [exact Hs|]. split; [lia|]. split; [exact Hf|].
  split.
  - intros E. rewrite E in Hf. unfold first_amp_at_least in Hf.
    apply find_some in Hf as [_ Hle]. apply Z.leb_le in Hle. cbn in Hle.
    assert (Hz : a * 1003 / 65535 = 0) by lia.
    apply Z.div_small_iff in Hz; lia.
  - intros Hlt. apply nx_con_find_rumble_amp_zero.
    rewrite Hs, Z.div_small by lia. done.
Qed.

Lemma rumble_amp_scaled_lookup_witness :
  rumble_amp_scaled 0x8000 = 0x8000 * 1003 / 65535 /\
  0 <= rumble_amp_scaled 0x8000 <= 1003 /\
  first_amp_at_least (rumble_amp_scaled 0x8000) =
    Some (nx_con_find_rumble_amp (rumble_amp_scaled 0x8000)) /\
  (nx_con_find_rumble_amp (rumble_amp_scaled 0x8000) = AMP 0x00 0x0040 0 <->
   0x8000 < 66).
Proof. apply (rumble_amp_scaled_lookup 0x8000). lia. Defined.

Lemma set_rumble_freqs c amp_r amp_l schedule_now :
  let c' := (nx_con_set_rumble c amp_r amp_l schedule_now).1 in
  rumble_ll_freq c' = rumble_ll_freq c /\ rumble_lh_freq c' = rumble_lh_freq c /\
  rumble_rl_freq c' = rumble_rl_freq c /\ rumble_rh_freq c' = rumble_rh_freq c.
Proof.
  unfold nx_con_set_rumble.
  destruct (negb (amp_l =? 0) || negb (amp_r =? 0));
    cbn -[nx_con_encode_rumble u16 u32 Z.leb s32];
    by destruct (_ <=? _).
Qed.

(** X16. [nx_con_configure_rumble] sets the four frequencies to their
    defaults (160 and 320 Hz, which the clamp leaves alone), advances the
    head of the queue by one slot and stores there the neutral packet
    00 01 40 40 00 01 40 40; the tail and the silence countdown are not
    touched.  On a session as the probe leaves it (head 7, tail 0,
    countdown 0) the queue is thereby drained, and no input report makes
    the scheduler fire until the next request. *)
Theorem nx_con_configure_rumble_neutral c msecs :
  0 <= rumble_queue_head c < NX_CON_RUMBLE_QUEUE_SIZE ->
  length (rumble_data c) = 8%nat ->
  let c' := nx_con_configure_rumble c msecs in
  rumble_ll_freq c' = 160 /\ rumble_lh_freq c' = 320 /\
  rumble_rl_freq c' = 160 /\ rumble_rh_freq c' = 320 /\
  rumble_queue_head c' = (rumble_queue_head c + 1) mod 8 /\
  rumble_queue_tail c' = rumble_queue_tail c /\
  rumble_zero_countdown c' = rumble_zero_countdown c /\
  rumble_data c' !!! Z.to_nat (rumble_queue_head c') = rumble_neutral_data /\
  (rumble_queue_head c = NX_CON_RUMBLE_QUEUE_SIZE - 1 ->
   rumble_queue_tail c = 0 -> rumble_zero_countdown c = 0 ->
   forall CONFIG_NINTENDO_FF BITS_PER_LONG vibrator_report now,
     nx_con_handle_rumble_report CONFIG_NINTENDO_FF BITS_PER_LONG c'
       vibrator_report now = (c', false)).
Proof.
  intros Hh Hlen. cbv zeta. unfold nx_con_configure_rumble. cbv zeta.
  set (c0 := nx_con_clamp_rumble_freqs _).
  assert (Hh0 : 0 <= rumble_queue_head c0 < NX_CON_RUMBLE_QUEUE_SIZE) by exact Hh.
  destruct (set_rumble_queue c0 0 0 false Hh0) as (Eh & Et & _).
  destruct (set_rumble_stores c0 0 0 false Hh0) as (Erd & _).
  pose proof (set_rumble_countdown c0 0 0 false) as Ek.
  cbv zeta in Eh, Et, Erd. cbn [negb orb Z.eqb] in Ek.
  assert (Ed : rumble_request_data c0 0 0 = rumble_neutral_data)
    by (vm_compute; reflexivity).
  assert (Ef : rumble_ll_freq (nx_con_set_rumble c0 0 0 false).1 = 160 /\
               rumble_lh_freq (nx_con_set_rumble c0 0 0 false).1 = 320 /\
               rumble_rl_freq (nx_con_set_rumble c0 0 0 false).1 = 160 /\
               rumble_rh_freq (nx_con_set_rumble c0 0 0 false).1 = 320).
  { destruct (set_rumble_freqs c0 0 0 false) as (-> & -> & -> & ->).
    vm_compute. repeat split. }
  rewrite Ed in Erd.
  change (rumble_queue_head c0) with (rumble_queue_head c) in Eh, Erd.
  change (rumble_queue_tail c0) with (rumble_queue_tail c) in Et.
  change (rumble_zero_countdown c0) with (rumble_zero_countdown c) in Ek.
  change (rumble_data c0) with (rumble_data c) in Erd.
  generalize dependent (nx_con_set_rumble c0 0 0 false).1. clear c0 Hh0 Ed.
  intros c1 Eh Et Erd Ek (E1 & E2 & E3 & E4).
  unfold NX_CON_RUMBLE_QUEUE_SIZE in *.
  pose proof (Z.mod_pos_bound (rumble_queue_head c + 1) 8 ltac:(lia)) as Hnh.
  cbn [rumble_ll_freq rumble_lh_freq rumble_rl_freq rumble_rh_freq
       rumble_queue_head rumble_queue_tail rumble_zero_countdown rumble_data
       set_rumble_msecs].
  repeat (split; [done|]).
  split.
  { by rewrite Erd, Eh, list_lookup_total_insert_eq by lia. }
  intros H7 H0 Hk0 ff bits vib now.
  unfold nx_con_handle_rumble_report.
  cbn [rumble_queue_head rumble_queue_tail rumble_zero_countdown set_rumble_msecs].
  rewrite Eh, Et, Ek, H7, H0, Hk0.
  change ((7 + 1) mod 8 =? 0) with true. cbn [negb orb Z.ltb Z.compare].
  by rewrite andb_false_r.
Qed.

Lemma nx_con_configure_rumble_neutral_witness :
  let c' := nx_con_configure_rumble nx_con_probe_init 1000 in
  rumble_ll_freq c' = 160 /\ rumble_lh_freq c' = 320 /\
  rumble_rl_freq c' = 160 /\ rumble_rh_freq c' = 320 /\
  rumble_queue_head c' = (rumble_queue_head nx_con_probe_init + 1) mod 8 /\
  rumble_queue_tail c' = rumble_queue_tail nx_con_probe_init /\
  rumble_zero_countdown c' = rumble_zero_countdown nx_con_probe_init /\
  rumble_data c' !!! Z.to_nat (rumble_queue_head c') = rumble_neutral_data /\
  (rumble_queue_head nx_con_probe_init = NX_CON_RUMBLE_QUEUE_SIZE - 1 ->
   rumble_queue_tail nx_con_probe_init = 0 ->
   rumble_zero_countdown nx_con_probe_init = 0 ->
   forall CONFIG_NINTENDO_FF BITS_PER_LONG vibrator_report now,
     nx_con_handle_rumble_report CONFIG_NINTENDO_FF BITS_PER_LONG c'
       vibrator_report now = (c', false)).
Proof.
  apply (nx_con_configure_rumble_neutral nx_con_probe_init 1000).
  - vm_compute. intuition congruence.
  - reflexivity.
Defined.

(** ** Subcommands that are answered *)

Section SubcmdReply.

Variable hw : transport.

Lemma send_sync_first_reply data timeout w pre d post :
  received_resp (con w) = false ->
  kmemdup_ok hw (n_sends w) = true ->
  0 <= s32 (hid_hw_output_report hw (n_sends w) data) ->
  incoming hw (n_waits w) = pre ++ d :: post ->
  Forall (fun x => reply_matches (con w) x = false) pre ->
  reply_matches (con w) d = true ->
  exists w',
    nx_con_hid_send_sync hw data timeout w = (0, w') /\
    trace w' = trace w ++
      [EvOutputReport data (s32 (hid_hw_output_report hw (n_sends w) data));
       EvWaitResp timeout true] /\
    con w' =
      set_received_resp false
        (nx_con_handle_event
           (set_last_subcmd_sent_msecs (u32 (jiffies_msecs hw (n_clock w)))
              (con w)) d).2.
Proof.
  intros Hresp Hk Hr Hin Hpre Hd.
  unfold nx_con_hid_send_sync. mstep.
  destruct (send_sync_loop_reply hw 1 0 data timeout w pre d post)
    as (w1 & -> & Htr & Hc & _); try done.
  cbn [fst snd]. mstep. unfold modify_con, mreturn. cbn [fst snd].
  eexists. split; [done|]. cbn [trace con upd_con]. split; [exact Htr|].
  by rewrite Hc.
Qed.

(** A subcommand that is answered in the first window: the call returns
    0, one frame went out, and the reply is at the start of the buffer. *)
Lemma send_subcmd_first_reply subcmd_id data timeout w pre d post :
  state (con w) <> NX_CON_STATE_REMOVED ->
  received_resp (con w) = false ->
  kmemdup_ok hw (n_sends w) = true ->
  0 <= s32 (hid_hw_output_report hw (n_sends w)
              (subcmd_frame (con w) subcmd_id data)) ->
  incoming hw (n_waits w) = pre ++ d :: post ->
  Forall (fun x => reply_matches (subcmd_pending subcmd_id (con w)) x = false) pre ->
  reply_matches (subcmd_pending subcmd_id (con w)) d = true ->
  exists w',
    nx_con_send_subcmd hw subcmd_id data timeout w = (0, w') /\
    trace w' = trace w ++
      [EvOutputReport (subcmd_frame (con w) subcmd_id data)
         (s32 (hid_hw_output_report hw (n_sends w)
                 (subcmd_frame (con w) subcmd_id data)));
       EvWaitResp timeout true] /\
    (49 <= length d)%nat /\
    (forall i : nat, (i < 49)%nat -> input_buf (con w') !!! i = d !!! i) /\
    type (con w') = type (con w) /\
    state (con w') = state (con w).
Proof.
  intros Hst Hresp Hk Hr Hin Hpre Hd.
  rewrite send_subcmd_run by done. cbv zeta.
  fold (subcmd_frame (con w) subcmd_id data).
  set (w3 := upd_con (set_msg_type NX_CON_MSG_TYPE_SUBCMD) _).
  assert (Hc3 : con w3 = subcmd_pending subcmd_id (con w)) by done.
  assert (Hresp3 : received_resp (con w3) = false).
  { change (received_resp (subcmd_pending subcmd_id (con w)) = false).
    unfold subcmd_pending, bump_subcmd_num. cbn. by destruct (_ <? _). }
  destruct (reply_matches_subcmd (subcmd_pending subcmd_id (con w)) d eq_refl Hd)
    as (Hlen & _).
  destruct (send_sync_first_reply (subcmd_frame (con w) subcmd_id data)
              timeout w3 pre d post Hresp3 Hk Hr Hin Hpre Hd)
    as (w' & -> & Htr & Hc).
  cbn [fst snd]. change (0 <? 0) with false. cbv iota.
  exists w'. split; [done|]. split; [exact Htr|]. split; [exact Hlen|].
  rewrite Hc, handle_event_taken
    by (rewrite (reply_matches_ext (con w3)) by done; by rewrite Hc3).
  cbn [snd input_buf type state set_received_resp set_msg_type set_input_buf
       set_last_subcmd_sent_msecs].
  rewrite Hc3.
  split; [|split].
  - intros i Hi.
    assert (Hkk : (49 <= Z.to_nat (Z.min (Z.of_nat (length d)) NX_CON_MAX_RESP_SIZE))%nat).
    { change NX_CON_MAX_RESP_SIZE with 84. lia. }
    rewrite lookup_total_app_l by (rewrite length_take; lia).
    apply lookup_total_take_lt. lia.
  - unfold subcmd_pending, bump_subcmd_num. cbn. by destruct (_ <? _).
  - unfold subcmd_pending, bump_subcmd_num. cbn. by destruct (_ <? _).
Qed.

Variable HZ : Z.

(** X17. [nx_con_check_for_cal_magic] when the flash read is answered in
    the first window: one frame goes out (output id 0x01, the packet
    number, the rumble data at the tail, subcommand 0x10, the address in
    little endian and the size 2), and the result is 0 if bytes 20 and 21
    of the reply are 0xB2 and 0xA1, and 1 otherwise. *)
Theorem nx_con_check_for_cal_magic_reads_reply flash_addr w pre d post :
  let frame := subcmd_frame (con w) NX_CON_SUBCMD_SPI_FLASH_READ
                 (put_unaligned_le32 flash_addr ++ [NX_CON_CAL_USR_MAGIC_SIZE]) in
  let pending := subcmd_pending NX_CON_SUBCMD_SPI_FLASH_READ (con w) in
  state (con w) <> NX_CON_STATE_REMOVED ->
  received_resp (con w) = false ->
  kmemdup_ok hw (n_sends w) = true ->
  0 <= s32 (hid_hw_output_report hw (n_sends w) frame) ->
  incoming hw (n_waits w) = pre ++ d :: post ->
  Forall (fun x => reply_matches pending x = false) pre ->
  reply_matches pending d = true ->
  (nx_con_check_for_cal_magic hw HZ flash_addr w).1 =
    (if (d !!! 20%nat =? 0xB2) && (d !!! 21%nat =? 0xA1) then 0 else 1) /\
  trace (nx_con_check_for_cal_magic hw HZ flash_addr w).2 =
    trace w ++
    [EvOutputReport frame (s32 (hid_hw_output_report hw (n_sends w) frame));
     EvWaitResp HZ true].
Proof.
  intros frame pending Hst Hresp Hk Hr Hin Hpre Hd.
  destruct (send_subcmd_first_reply NX_CON_SUBCMD_SPI_FLASH_READ
              (put_unaligned_le32 flash_addr ++ [NX_CON_CAL_USR_MAGIC_SIZE])
              HZ w pre d post Hst Hresp Hk Hr Hin Hpre Hd)
    as (w' & Es & Htr & Hlen & Hbuf & _).
  unfold nx_con_check_for_cal_magic, nx_con_request_spi_flash_read.
  cbv zeta. msteps. rewrite Es. cbn [fst snd]. change (negb (0 =? 0)) with false.
  cbv iota. msteps. unfold get_con, mreturn. cbn [fst snd].
  change (negb (0 =? 0)) with false. cbv iota. cbn [fst snd].
  split; [|exact Htr].
  unfold flash_reply_offset. rewrite !lookup_total_drop.
  rewrite !Hbuf by lia.
  unfold NX_CON_CAL_USR_MAGIC_0, NX_CON_CAL_USR_MAGIC_1.
  change (20 + 0)%nat with 20%nat. change (20 + 1)%nat with 21%nat.
  by destruct (d !!! 20%nat =? 178), (d !!! 21%nat =? 161).
Qed.

(** X18. [nx_con_request_device_info] when the request is answered in
    the first window: the MAC address is bytes 19 to 24 of the reply; if
    the string for it can be allocated the call returns 0 and the
    controller type becomes byte 17 of the reply, and if not it returns
    -ENOMEM and the type is left as it was. *)
Theorem nx_con_request_device_info_reads_reply mac_addr_str_ok w pre d post :
  let frame := subcmd_frame (con w) NX_CON_SUBCMD_REQ_DEV_INFO [] in
  let pending := subcmd_pending NX_CON_SUBCMD_REQ_DEV_INFO (con w) in
  let r := nx_con_request_device_info hw HZ mac_addr_str_ok w in
  state (con w) <> NX_CON_STATE_REMOVED ->
  received_resp (con w) = false ->
  kmemdup_ok hw (n_sends w) = true ->
  0 <= s32 (hid_hw_output_report hw (n_sends w) frame) ->
  incoming hw (n_waits w) = pre ++ d :: post ->
  Forall (fun x => reply_matches pending x = false) pre ->
  reply_matches pending d = true ->
  r.1.2 = Some [d !!! 19%nat; d !!! 20%nat; d !!! 21%nat;
                d !!! 22%nat; d !!! 23%nat; d !!! 24%nat] /\
  (if mac_addr_str_ok
   then r.1.1 = 0 /\ type (con r.2) = d !!! 17%nat
   else r.1.1 = - ENOMEM /\ type (con r.2) = type (con w)).
Proof.
  intros frame pending r Hst Hresp Hk Hr Hin Hpre Hd. subst r.
  destruct (send_subcmd_first_reply NX_CON_SUBCMD_REQ_DEV_INFO [] HZ w pre d post
              Hst Hresp Hk Hr Hin Hpre Hd)
    as (w' & Es & _ & Hlen & Hbuf & Hty & _).
  unfold nx_con_request_device_info. cbv zeta. mstep. rewrite Es.
  cbn [fst snd]. change (negb (0 =? 0)) with false. cbv iota.
  mstep. unfold get_con. cbn [fst snd].
  unfold subcmd_reply_data_offset. cbn [fmap list_fmap seq Nat.add].
  rewrite !Hbuf by lia.
  destruct mac_addr_str_ok; cbn [negb].
  - mstep. unfold modify_con, mreturn. cbn [fst snd]. done.
  - unfold mreturn. cbn [fst snd]. done.
Qed.

End SubcmdReply.

Lemma nx_con_check_for_cal_magic_reads_reply_witness :
  (nx_con_check_for_cal_magic (hw_replying flash_magic_reply) 250
     NX_CON_CAL_USR_LEFT_MAGIC_ADDR world_init).1 =
    (if (flash_magic_reply !!! 20%nat =? 0xB2) &&
        (flash_magic_reply !!! 21%nat =? 0xA1) then 0 else 1) /\
  trace (nx_con_check_for_cal_magic (hw_replying flash_magic_reply) 250
           NX_CON_CAL_USR_LEFT_MAGIC_ADDR world_init).2 =
    trace world_init ++
    [EvOutputReport
       (subcmd_frame (con world_init) NX_CON_SUBCMD_SPI_FLASH_READ
          (put_unaligned_le32 NX_CON_CAL_USR_LEFT_MAGIC_ADDR ++
           [NX_CON_CAL_USR_MAGIC_SIZE]))
       (s32 (hid_hw_output_report (hw_replying flash_magic_reply)
               (n_sends world_init)
               (subcmd_frame (con world_init) NX_CON_SUBCMD_SPI_FLASH_READ
                  (put_unaligned_le32 NX_CON_CAL_USR_LEFT_MAGIC_ADDR ++
                   [NX_CON_CAL_USR_MAGIC_SIZE]))));
     EvWaitResp 250 true].
Proof.
  apply (nx_con_check_for_cal_magic_reads_reply (hw_replying flash_magic_reply)
           250 NX_CON_CAL_USR_LEFT_MAGIC_ADDR world_init [] flash_magic_reply []).
  - discriminate.
  - reflexivity.
  - reflexivity.
  - vm_compute. congruence.
  - reflexivity.
  - apply Forall_nil_2.
  - reflexivity.
Defined.

Lemma nx_con_request_device_info_reads_reply_witness :
  let r := nx_con_request_device_info (hw_replying dev_info_reply) 250 true
             world_init in
  r.1.2 = Some [dev_info_reply !!! 19%nat; dev_info_reply !!! 20%nat;
                dev_info_reply !!! 21%nat; dev_info_reply !!! 22%nat;
                dev_info_reply !!! 23%nat; dev_info_reply !!! 24%nat] /\
  r.1.1 = 0 /\ type (con r.2) = dev_info_reply !!! 17%nat.
Proof.
  apply (nx_con_request_device_info_reads_reply (hw_replying dev_info_reply)
           250 true world_init [] dev_info_reply []).
  - discriminate.
  - reflexivity.
  - reflexivity.
  - vm_compute. congruence.
  - reflexivity.
  - apply Forall_nil_2.
  - reflexivity.
Defined.

(** ** IMU scaling under the default calibration *)

Lemma mult_frac_same x n :
  0 < n <= 46340 -> - 2 ^ 31 <= x < 2 ^ 31 -> mult_frac x n n = Some x.
Proof.
  intros Hn Hx. unfold mult_frac, s32_div, s32_rem, c_div, c_rem.
  destruct (Z.eqb_spec n 0); [lia|]. cbn.
  pose proof (Z.quot_rem' x n) as Hqr.
  pose proof (Z.rem_bound_abs x n ltac:(lia)) as Hr.
  pose proof (Z.quot_abs x n ltac:(lia)) as Hq1.
  pose proof (Z.mul_quot_le (Z.abs x) n (Z.abs_nonneg x) ltac:(lia)) as Hq2.
  rewrite (Z.abs_eq n) in Hq1, Hr by lia. rewrite Hq1 in Hq2.
  change (2 ^ 31) with 2147483648 in *.
  assert (Hqn : - 2147483648 <= x ÷ n * n < 2147483648).
  { destruct (Z.le_gt_cases 0 (x ÷ n)).
    - rewrite (Z.abs_eq (x ÷ n)) in Hq2 by lia. lia.
    - rewrite (Z.abs_neq (x ÷ n)) in Hq2 by lia. lia. }
  assert (Hq : - 2147483648 <= x ÷ n < 2147483648) by nia.
  assert (Hrn : - 2147483648 <= Z.rem x n * n < 2147483648) by nia.
  rewrite (s32_small (x ÷ n)) by (change (2 ^ 31) with 2147483648; lia).
  rewrite (s32_small (Z.rem x n)) by (change (2 ^ 31) with 2147483648; lia).
  rewrite (s32_small (Z.rem x n * n)) by (change (2 ^ 31) with 2147483648; lia).
  rewrite Z.quot_mul by lia.
  rewrite (s32_small (Z.rem x n)) by (change (2 ^ 31) with 2147483648; lia).
  rewrite (s32_small (x ÷ n * n)) by (change (2 ^ 31) with 2147483648; lia).
  f_equal. rewrite s32_small by (change (2 ^ 31) with 2147483648; lia). lia.
Qed.

(** X19. With the default calibration (which is what a failed read of
    the calibration leaves), every sample parsed from an IMU report is
    scaled without wrap-around: the accelerometer values are reported as
    read and the gyroscope values multiplied by 1000. *)
Theorem imu_scale_sample_dflt c raw d :
  imu_cal_is_dflt c ->
  d ∈ nx_con_input_report_parse_imu_data raw ->
  imu_scale_sample c d =
    Some [1000 * gyro_x d; 1000 * gyro_y d; 1000 * gyro_z d;
          accel_x d; accel_y d; accel_z d] /\
  Forall (fun v => - 32768000 <= v <= 32767000)
    [1000 * gyro_x d; 1000 * gyro_y d; 1000 * gyro_z d] /\
  Forall (fun v => - 32768 <= v <= 32767) [accel_x d; accel_y d; accel_z d].
Proof.
  intros (Ea & Eg & Eda & Edg) Hd.
  assert (Hr : (- 2 ^ 15 <= gyro_x d < 2 ^ 15) /\ (- 2 ^ 15 <= gyro_y d < 2 ^ 15) /\
               (- 2 ^ 15 <= gyro_z d < 2 ^ 15) /\ (- 2 ^ 15 <= accel_x d < 2 ^ 15) /\
               (- 2 ^ 15 <= accel_y d < 2 ^ 15) /\ (- 2 ^ 15 <= accel_z d < 2 ^ 15)).
  { unfold nx_con_input_report_parse_imu_data in Hd.
    apply list_elem_of_In, in_map_iff in Hd as (i & <- & _).
    cbn [gyro_x gyro_y gyro_z accel_x accel_y accel_z].
    repeat split; apply s16_range. }
  destruct Hr as (Hgx & Hgy & Hgz & Hax & Hay & Haz).
  change (2 ^ 15) with 32768 in *.
  split; [|split; repeat constructor; lia].
  assert (Hg : forall v, - 32768 <= v < 32768 ->
            mult_frac (s32 (NX_CON_IMU_PREC_RANGE_SCALE * (v - 0))) 13371 13371 =
            Some (1000 * v)).
  { intros v Hv. unfold NX_CON_IMU_PREC_RANGE_SCALE.
    rewrite Z.sub_0_r, s32_small by lia. apply mult_frac_same; lia. }
  assert (Hacc : forall v, - 32768 <= v < 32768 ->
            s32_div (s32 (v * 16384)) 16384 = Some v).
  { intros v Hv. rewrite s32_small by lia.
    rewrite s32_div_small; rewrite ?Z.quot_mul; (done || lia). }
  unfold imu_scale_sample. cbv zeta. rewrite Ea, Eg, Eda, Edg.
  cbn [offset scale dflt_accel_cal dflt_gyro_cal].
  unfold DFLT_ACCEL_OFFSET, DFLT_ACCEL_SCALE, DFLT_GYRO_OFFSET, DFLT_GYRO_SCALE.
  change (replicate 3 0 !!! 0%nat) with 0. change (replicate 3 0 !!! 1%nat) with 0.
  change (replicate 3 0 !!! 2%nat) with 0.
  change (replicate 3 13371 !!! 0%nat) with 13371.
  change (replicate 3 13371 !!! 1%nat) with 13371.
  change (replicate 3 13371 !!! 2%nat) with 13371.
  change (replicate 3 16384 !!! 0%nat) with 16384.
  change (replicate 3 16384 !!! 1%nat) with 16384.
  change (replicate 3 16384 !!! 2%nat) with 16384.
  rewrite !Hg, !Hacc by done. reflexivity.
Qed.

Lemma imu_scale_sample_dflt_witness :
  let d := {| accel_x := 0; accel_y := 0; accel_z := 0;
              gyro_x := 0; gyro_y := 0; gyro_z := 0 |} in
  imu_scale_sample con_right_joycon_dflt d =
    Some [1000 * gyro_x d; 1000 * gyro_y d; 1000 * gyro_z d;
          accel_x d; accel_y d; accel_z d] /\
  Forall (fun v => - 32768000 <= v <= 32767000)
    [1000 * gyro_x d; 1000 * gyro_y d; 1000 * gyro_z d] /\
  Forall (fun v => - 32768 <= v <= 32767) [accel_x d; accel_y d; accel_z d].
Proof.
  apply (imu_scale_sample_dflt con_right_joycon_dflt (replicate 36 0)).
  - repeat split.
  - apply list_elem_of_In. left. reflexivity.
Defined.

(** X20. The first IMU report of a session with non-zero divisors: the
    three samples carry the timestamps 0, 5000 and 10000 microseconds,
    15000 is kept for the next report, the average delta starts at 15 ms
    with no delta summed yet, and the clock reading is remembered. *)
Theorem nx_con_report_imu_first c raw msecs :
  imu_first_packet_received c = false ->
  imu_divisors_nonzero c = true ->
  exists c' e0 e1 e2,
    nx_con_report_imu c raw msecs = Some (c', [e0; e1; e2]) /\
    ev_timestamp e0 = 0 /\ ev_timestamp e1 = 5000 /\ ev_timestamp e2 = 10000 /\
    imu_timestamp_us c' = 15000 /\
    imu_first_packet_received c' = true /\
    imu_avg_delta_ms c' = NX_CON_IMU_DFLT_AVG_DELTA_MS /\
    imu_delta_samples_count c' = 0 /\
    imu_delta_samples_sum c' = 0 /\
    imu_last_pkt_ms c' = u32 msecs.
Proof.
  intros Hf Hnz.
  destruct (nx_con_report_imu_timing_first c msecs Hf)
    as (c1 & Et & Ef & Ets & Ec & Es & Ea & El).
  pose proof (report_imu_timing_cal_same c msecs c1 _ Et) as Hs.
  destruct (parse_imu_data_three raw) as (d0 & d1 & d2 & Ep).
  rewrite <- (imu_cal_same_divisors c c1 Hs) in Hnz.
  destruct (report_imu_samples_three c1 d0 d1 d2 Hnz)
    as (e0 & e1 & e2 & Ers & T0 & T1 & T2).
  unfold nx_con_report_imu. cbv zeta. rewrite Et, Ep. cbn [mbind option_bind].
  rewrite Ers. eexists _, e0, e1, e2. split; [reflexivity|].
  rewrite T0, T1, T2.
  cbn [imu_timestamp_us imu_first_packet_received imu_avg_delta_ms
       imu_delta_samples_count imu_delta_samples_sum imu_last_pkt_ms
       set_imu_timestamp_us].
  rewrite Ets, Ea. repeat split; done.
Qed.

Lemma nx_con_report_imu_first_witness :
  exists c' e0 e1 e2,
    nx_con_report_imu con_right_joycon_dflt (replicate 36 0) 1000 =
      Some (c', [e0; e1; e2]) /\
    ev_timestamp e0 = 0 /\ ev_timestamp e1 = 5000 /\ ev_timestamp e2 = 10000 /\
    imu_timestamp_us c' = 15000 /\
    imu_first_packet_received c' = true /\
    imu_avg_delta_ms c' = NX_CON_IMU_DFLT_AVG_DELTA_MS /\
    imu_delta_samples_count c' = 0 /\
    imu_delta_samples_sum c' = 0 /\
    imu_last_pkt_ms c' = u32 1000.
Proof.
  apply (nx_con_report_imu_first con_right_joycon_dflt (replicate 36 0) 1000);
    reflexivity.
Defined.

(** ** Player LEDs *)

(** X21. Setting one player LED.  With every LED's brightness 0 or 1
    (the maximum the driver registers), [nx_con_player_led_brightness_set]
    for LED [num] sends one subcommand 0x30 whose single data byte holds
    the four LED states after the change, LED [i] at bit [i], and a zero
    flash nibble; the other LEDs are sent as they are.  For a LED that is
    not one of the session's four it returns -EINVAL and sends nothing. *)
Theorem nx_con_player_led_brightness_set_byte
    (hw : transport) (HZ : Z) (leds : list Z) (num brightness : Z) (w : world) :
  length leds = 4%nat ->
  Forall (fun b => b = 0 \/ b = 1) leds ->
  brightness = 0 \/ brightness = 1 ->
  0 <= num ->
  let leds' := <[Z.to_nat num := brightness]> leds in
  let byte := leds' !!! 0%nat + 2 * leds' !!! 1%nat + 4 * leds' !!! 2%nat +
              8 * leds' !!! 3%nat in
  (num < NX_CON_NUM_LEDS ->
   nx_con_player_led_brightness_set hw HZ leds num brightness w =
     nx_con_send_subcmd hw NX_CON_SUBCMD_SET_PLAYER_LIGHTS [byte] (HZ ÷ 4) w /\
   0 <= byte < 16) /\
  (NX_CON_NUM_LEDS <= num ->
   nx_con_player_led_brightness_set hw HZ leds num brightness w = (- EINVAL, w)).
Proof.
  intros Hlen Hleds Hb Hnum. cbv zeta. unfold NX_CON_NUM_LEDS. split.
  { intros Hlt.
    destruct leds as [|l0 [|l1 [|l2 [|l3 [|]]]]]; try discriminate Hlen.
    apply Forall_cons in Hleds as [H0 Hleds].
    apply Forall_cons in Hleds as [H1 Hleds].
    apply Forall_cons in Hleds as [H2 Hleds].
    apply Forall_cons in Hleds as [H3 _].
    assert (Hn : num = 0 \/ num = 1 \/ num = 2 \/ num = 3) by lia.
    destruct Hn as [Hn|[Hn|[Hn|Hn]]]; subst num;
      destruct H0 as [H0|H0]; subst l0; destruct H1 as [H1|H1]; subst l1;
      destruct H2 as [H2|H2]; subst l2; destruct H3 as [H3|H3]; subst l3;
      destruct Hb as [Hb|Hb]; subst brightness;
      (split; [reflexivity|vm_compute; split; congruence]). }
  intros Hge. unfold nx_con_player_led_brightness_set, NX_CON_NUM_LEDS.
  by destruct (Z.leb_spec 4 num); [|lia].
Qed.

Lemma nx_con_player_led_brightness_set_byte_witness :
  let leds' := <[Z.to_nat 2 := 1]> [1; 1; 0; 0] in
  let byte := leds' !!! 0%nat + 2 * leds' !!! 1%nat + 4 * leds' !!! 2%nat +
              8 * leds' !!! 3%nat in
  (2 < NX_CON_NUM_LEDS ->
   nx_con_player_led_brightness_set hw_silent 250 [1; 1; 0; 0] 2 1 world_init =
     nx_con_send_subcmd hw_silent NX_CON_SUBCMD_SET_PLAYER_LIGHTS [byte]
       (250 ÷ 4) world_init /\
   0 <= byte < 16) /\
  (NX_CON_NUM_LEDS <= 2 ->
   nx_con_player_led_brightness_set hw_silent 250 [1; 1; 0; 0] 2 1 world_init =
     (- EINVAL, world_init)).
Proof.
  assert (Hleds : Forall (fun b => b = 0 \/ b = 1) [1; 1; 0; 0])
    by (repeat constructor; auto).
  exact (nx_con_player_led_brightness_set_byte hw_silent 250 [1; 1; 0; 0] 2 1
           world_init eq_refl Hleds (or_intror eq_refl) ltac:(lia)).
Defined.
